(** * Blackjack trainer: hand values, basic strategy, round resolution

    A shallow embedding of [src/blackjackLogic.js] (the pure round resolver)
    and of the decision logic of [src/App.jsx] (hand values, optimal action,
    dealer play, settlement, decision recorder, and in module [Game] the
    deck, the statistics and the handlers of the buttons), with the
    properties of the specification proved or refuted against it.

    Conventions of the embedding:
    - a card is a record with the fields the code reads ([rank], [value],
      optional [suit]); ranks are strings, card values are integers;
    - money (bankroll, bets, payouts) is a JavaScript number; it is modelled
      as an exact rational, which is what the code computes for the integer
      and half-integer amounts the application uses;
    - a JavaScript array is a list; [a[i]] is list lookup, [undefined] is
      [None];
    - reading a property of [undefined] or [null] raises a [TypeError]:
      functions that index arrays and then read a property live in the
      [completion] monad, so that "does not throw" is a theorem and not an
      artefact of the model. *)

From Stdlib Require Import ZArith QArith Qminmax Qround Lia.
From stdpp Require Import base option list strings gmap pretty.

Open Scope Z_scope.

(** ** Data model *)

Record Card : Type := mkCard {
  rank : string;
  value : Z;
  suit : option string
}.

Definition Hand : Type := list Card.

(** [c.rank === 'A'] *)
Definition isAce (c : Card) : bool := String.eqb (rank c) "A".

Inductive Result : Type :=
  | win | loss | push | blackjack | bust | surrender.

Inductive Action : Type :=
  | hit | stand | double | split | surrenderAction.

(** ** JavaScript completions: a value, or a thrown TypeError *)

Inductive completion (A : Type) : Type :=
  | Normal (a : A)
  | TypeError.
Arguments Normal {A} a.
Arguments TypeError {A}.

Definition bindC {A B} (m : completion A) (k : A -> completion B) : completion B :=
  match m with
  | Normal a => k a
  | TypeError => TypeError
  end.

Notation "x <- m ;;; k" := (bindC m (fun x => k))
  (at level 100, m at next level, right associativity).

(** [o.p] where [o] may be [undefined]/[null]. *)
Definition prop {A B} (o : option A) (p : A -> B) : completion B :=
  match o with
  | Some a => Normal (p a)
  | None => TypeError
  end.

(** [a && b] with a right operand that may throw: short-circuit evaluation. *)
Definition andC (a : bool) (b : completion bool) : completion bool :=
  if a then b else Normal false.

(** ** The two loops of the hand total

    [calcValue] (blackjackLogic.js) and [calculateHandValue] (App.jsx) have
    the same body; its loops are shared here. *)

(** First loop: [value += c.value; if (c.rank === 'A') aces++]. *)
Definition sumStep (st : Z * nat) (c : Card) : Z * nat :=
  (fst st + value c, if isAce c then S (snd st) else snd st).

(** Second loop: [while (value > 21 && aces > 0) { value -= 10; aces--; }].
    The loop ends with the pair (value, aces still counted as 11). *)
Fixpoint reduceAces (v : Z) (aces : nat) : Z * nat :=
  match aces with
  | O => (v, O)
  | S a => if 21 <? v then reduceAces (v - 10) a else (v, aces)
  end.

Definition totalState (hand : Hand) : Z * nat :=
  let st := fold_left sumStep hand (0, O) in
  reduceAces (fst st) (snd st).

(** ** blackjackLogic.js *)

Module blackjackLogic.

Definition calcValue (hand : Hand) : Z := fst (totalState hand).

(** Loop of [isSoft]: Aces count 1 in [base]. *)
Definition softStep (st : Z * nat) (c : Card) : Z * nat :=
  if isAce c then (fst st + 1, S (snd st)) else (fst st + value c, snd st).

Definition isSoft (hand : Hand) : bool :=
  let st := fold_left softStep hand (0, O) in
  (0 <? snd st)%nat && (fst st + 10 <=? 21).

Definition isBlackjack (hand : Hand) : bool :=
  (length hand =? 2)%nat && (calcValue hand =? 21).

(** *** Dealer draw loop (lines 74-89)

    [rest] is [dealerHand.slice(dealerIdx)]: the test
    [dealerIdx >= dealerHand.length] is [rest = []], and
    [dealerHand[dealerIdx]; dealerIdx += 1] takes its head. *)
Definition mustDraw (dealerHitsSoft17 : bool) (dVal : Z) (dealerShown : Hand) : bool :=
  (dVal <? 17) || ((dVal =? 17) && dealerHitsSoft17 && isSoft dealerShown).

Fixpoint drawLoop (dealerHitsSoft17 : bool) (rest : list Card)
    (dealerShown : Hand) (dVal : Z) : Hand * Z :=
  if mustDraw dealerHitsSoft17 dVal dealerShown then
    match rest with
    | [] => (dealerShown, dVal)
    | c :: rest' =>
        let dealerShown' := dealerShown ++ [c] in
        drawLoop dealerHitsSoft17 rest' dealerShown' (calcValue dealerShown')
    end
  else (dealerShown, dVal).

(** [dealerHand.slice(0, Math.min(2, dealerHand.length))], the cards from
    index [dealerIdx = 2] on, and the initial [dVal = calcValue(dealerHand)]. *)
Definition dealerDraw (dealerHitsSoft17 : bool) (dealerHand : Hand) : Hand * Z :=
  drawLoop dealerHitsSoft17 (drop 2 dealerHand)
    (take (Nat.min 2 (length dealerHand)) dealerHand) (calcValue dealerHand).

(** *** Outcomes and the result object *)

Record Outcome : Type := mkOutcome {
  result : Result;
  bet : Q;
  playerValue : Z
}.

Record RoundResult : Type := mkRoundResult {
  bankroll : Q;
  outcomes : list Outcome;
  dealerFinalHand : Hand;
  dealerValue : Z
}.

(** *** Normal resolution (lines 137-162)

    One iteration of the [for] loop; the state is
    ([totalPayout], [outcomes]) and [outcomes.push] appends. *)
Definition settleHand (dVal : Z) (bet : Q) (hand : Hand)
    (st : Q * list Outcome) : Q * list Outcome :=
  let pVal := calcValue hand in
  if 21 <? pVal then
    (fst st, snd st ++ [mkOutcome bust bet pVal])
  else if 21 <? dVal then
    ((fst st + bet * 2)%Q, snd st ++ [mkOutcome win bet pVal])
  else if dVal <? pVal then
    ((fst st + bet * 2)%Q, snd st ++ [mkOutcome win bet pVal])
  else if pVal <? dVal then
    (fst st, snd st ++ [mkOutcome loss bet pVal])
  else
    ((fst st + bet)%Q, snd st ++ [mkOutcome push bet pVal]).

(** [for (let i = 0; i < playerHands.length; i++)]: [rest] is
    [playerHands.slice(i)]; [handBets[i] ?? defaultBet] is the lookup with
    its default. *)
Fixpoint settleLoop (handBets : list Q) (defaultBet : Q) (dVal : Z)
    (i : nat) (rest : list Hand) (st : Q * list Outcome) : Q * list Outcome :=
  match rest with
  | [] => st
  | hand :: rest' =>
      settleLoop handBets defaultBet dVal (S i) rest'
        (settleHand dVal (default defaultBet (handBets !! i)) hand st)
  end.

(** [Math.max(0, x)] *)
Definition mathMax0 (x : Q) : Q := Qmax 0 x.

(** Lines 137-169: the loop from empty [outcomes] and zero [totalPayout],
    and the final [return]. *)
Definition normalResolution (playerHands : list Hand) (bankroll : Q)
    (handBets : list Q) (defaultBet : Q) (dealerShown : Hand) (dVal : Z)
    : RoundResult :=
  let st := settleLoop handBets defaultBet dVal 0 playerHands (0%Q, []) in
  mkRoundResult (mathMax0 (bankroll + fst st)%Q) (snd st) dealerShown dVal.

(** The function itself. The optional parameters ([handBets = []],
    [defaultBet = 25], [dealerHitsSoft17 = true],
    [considerNaturalBlackjack = true]) are passed explicitly. *)
Definition resolveBlackjackRound
    (playerHands : list Hand) (dealerHand : Hand) (bankroll : Q)
    (handBets : list Q) (defaultBet : Q)
    (dealerHitsSoft17 considerNaturalBlackjack : bool)
    : completion RoundResult :=
  let drawn := dealerDraw dealerHitsSoft17 dealerHand in
  let dealerShown := fst drawn in
  let dVal := snd drawn in
  let outcomes0 : list Outcome := [] in
  let totalPayout0 : Q := 0%Q in
  let dealerNatural := considerNaturalBlackjack && isBlackjack dealerShown in
  treatAsInitial <-
    andC (considerNaturalBlackjack && (length playerHands =? 1)%nat)
         (len0 <- prop (playerHands !! 0%nat) (@length Card) ;;;
          Normal (len0 =? 2)%nat) ;;;
  let normal :=
    Normal (normalResolution playerHands bankroll handBets defaultBet
              dealerShown dVal) in
  if treatAsInitial then
    let bet0 := default defaultBet (handBets !! 0%nat) in
    playerNatural <- prop (playerHands !! 0%nat) isBlackjack ;;;
    if playerNatural && dealerNatural then
      let totalPayout := (totalPayout0 + bet0)%Q in
      Normal (mkRoundResult (mathMax0 (bankroll + totalPayout)%Q)
                (outcomes0 ++ [mkOutcome push bet0 21]) dealerHand dVal)
    else if playerNatural && negb dealerNatural then
      let totalPayout := (totalPayout0 + bet0 * (5 # 2))%Q in
      Normal (mkRoundResult (mathMax0 (bankroll + totalPayout)%Q)
                (outcomes0 ++ [mkOutcome blackjack bet0 21]) dealerHand dVal)
    else normal
  else normal.

End blackjackLogic.

(** ** App.jsx: hand values and the strategy engine *)

Module App.

(** [calculateHandValue]: the two loops, then the [isNaN] safety check, which
    no sum of numbers reaches. *)
Definition calculateHandValue (hand : Hand) : Z := fst (totalState hand).

(** Loop of [isSoftHand]: [value += card.value; if (card.rank === 'A') hasAce = true]. *)
Definition softHandStep (st : Z * bool) (card : Card) : Z * bool :=
  (fst st + value card, if isAce card then true else snd st).

(** [return hasAce && value <= 21 && hand.some(card => card.rank === 'A')] *)
Definition isSoftHand (hand : Hand) : bool :=
  let st := fold_left softHandStep hand (0, false) in
  snd st && (fst st <=? 21) && existsb isAce hand.

(** [hand.length === 2 && hand[0].rank === hand[1].rank] *)
Definition sameRankPair (hand : Hand) : completion bool :=
  andC (length hand =? 2)%nat
       (r0 <- prop (hand !! 0%nat) rank ;;;
        r1 <- prop (hand !! 1%nat) rank ;;;
        Normal (String.eqb r0 r1)).

Definition canSplit (hand : Hand) : completion bool := sameRankPair hand.

(** [[a, b, ...].includes(x)] on numbers, [[r, s].includes(rank)] on strings *)
Definition includes (l : list Z) (x : Z) : bool := existsb (Z.eqb x) l.
Definition includesStr (l : list string) (x : string) : bool := existsb (String.eqb x) l.

(** The pair-splitting block (lines 225-239): [Some split] when one of its
    [return 'split'] is taken, [None] when control falls out of the block. *)
Definition pairRule (rank : string) (dealerValue : Z) : option Action :=
  if String.eqb rank "A" || String.eqb rank "8" then Some split
  else if String.eqb rank "9" && negb (includes [7; 10; 11] dealerValue) then Some split
  else if String.eqb rank "7" && (dealerValue <=? 7) then Some split
  else if String.eqb rank "6" && (dealerValue <=? 6) then Some split
  else if includesStr ["2"; "3"]%string rank && (dealerValue <=? 7) then Some split
  else if String.eqb rank "4" && includes [5; 6] dealerValue then Some split
  else None.

(** The soft block (lines 243-260). *)
Definition softRule (playerValue dealerValue : Z) (canDouble : bool) : Action :=
  if 19 <=? playerValue then stand
  else if playerValue =? 18 then
    if canDouble && includes [3; 4; 5; 6] dealerValue then double
    else if 9 <=? dealerValue then hit
    else stand
  else if (17 <=? playerValue) && canDouble && includes [3; 4; 5; 6] dealerValue then double
  else if (15 <=? playerValue) && canDouble && includes [4; 5; 6] dealerValue then double
  else if (13 <=? playerValue) && canDouble && includes [5; 6] dealerValue then double
  else hit.

(** The hard block (lines 266-291); [len] is [playerHand.length]. *)
Definition hardRule (playerValue dealerValue : Z) (len : nat)
    (canDouble canSurrender : bool) : Action :=
  if 17 <=? playerValue then stand
  else if (13 <=? playerValue) && (dealerValue <=? 6) then stand
  else if (playerValue =? 12) && includes [4; 5; 6] dealerValue then stand
  else if (playerValue =? 11) && canDouble then double
  else if (playerValue =? 10) && canDouble && (dealerValue <=? 9) then double
  else if (playerValue =? 9) && canDouble && includes [3; 4; 5; 6] dealerValue then double
  else if canSurrender && (len =? 2)%nat
          && (playerValue =? 16) && includes [9; 10; 11] dealerValue then surrenderAction
  else if canSurrender && (len =? 2)%nat
          && (playerValue =? 15) && (dealerValue =? 10) then surrenderAction
  else hit.

(** [dealerUpCard.value === 11 ? (dealerUpCard.rank === 'A' ? 11 : dealerUpCard.value)
                              : dealerUpCard.value] *)
Definition upCardValue (dealerUpCard : Card) : Z :=
  if value dealerUpCard =? 11 then
    (if isAce dealerUpCard then 11 else value dealerUpCard)
  else value dealerUpCard.

(** [getOptimalAction(playerHand, dealerUpCard, canDouble = true,
    canSplit = true, canSurrender = true)]; a [null]/[undefined] argument is
    [None]. *)
Definition getOptimalAction (playerHand : option Hand) (dealerUpCard : option Card)
    (canDouble canSplit canSurrender : bool) : completion Action :=
  match playerHand, dealerUpCard with
  | None, _ | _, None => Normal hit
  | Some playerHand, Some dealerUpCard =>
    if (length playerHand =? 0)%nat then Normal hit else
    let playerValue := calculateHandValue playerHand in
    let dealerValue := upCardValue dealerUpCard in
    let isSoft := isSoftHand playerHand in
    isPair <- sameRankPair playerHand ;;;
    splitting <-
      (if isPair && canSplit then
         rank0 <- prop (playerHand !! 0%nat) rank ;;;
         Normal (pairRule rank0 dealerValue)
       else Normal None) ;;;
    match splitting with
    | Some a => Normal a
    | None =>
        if isSoft then Normal (softRule playerValue dealerValue canDouble)
        else Normal (hardRule playerValue dealerValue (length playerHand)
                       canDouble canSurrender)
    end
  end.

(** *** Dealer automation (lines 562-582)

    [currentDeck.pop()] takes the last card of the deck: [supply] is the deck
    in draw order (the deck reversed), and [currentDeck.length === 0] is
    [supply = []]. The loop ends with the dealer hand, its value and the
    cards left. *)
Definition dealerMustHit (dealerHitsSoft17 : bool) (dealerValue : Z)
    (newDealerHand : Hand) : bool :=
  (dealerValue <? 17)
  || ((dealerValue =? 17) && dealerHitsSoft17 && isSoftHand newDealerHand).

Fixpoint dealerLoop (dealerHitsSoft17 : bool) (supply : list Card)
    (newDealerHand : Hand) (dealerValue : Z) : Hand * Z * list Card :=
  if dealerMustHit dealerHitsSoft17 dealerValue newDealerHand then
    match supply with
    | [] => (newDealerHand, dealerValue, supply)
    | newCard :: supply' =>
        let newDealerHand' := newDealerHand ++ [newCard] in
        dealerLoop dealerHitsSoft17 supply' newDealerHand'
          (calculateHandValue newDealerHand')
    end
  else (newDealerHand, dealerValue, supply).

(** The new dealer hand and the new deck that [dealerPlay] stores. *)
Definition dealerPlay (dealerHitsSoft17 : bool) (dealerHand : Hand)
    (deck : list Card) : Hand * list Card :=
  let r := dealerLoop dealerHitsSoft17 (rev deck) dealerHand
             (calculateHandValue dealerHand) in
  (fst (fst r), rev (snd r)).

(** *** End of hand (lines 592-629)

    One call of the [forEach] callback: the state is [totalWinnings] and the
    [updateStats(result, betAmount, netChange)] calls made so far. *)
Definition finishStep (dealerValue : Z) (handBet : Q) (hand : Hand)
    (st : Q * list (Result * Q * Q)) : Q * list (Result * Q * Q) :=
  let playerValue := calculateHandValue hand in
  if 21 <? playerValue then
    (fst st, snd st ++ [(loss, handBet, (- handBet)%Q)])
  else if 21 <? dealerValue then
    ((fst st + handBet * 2)%Q, snd st ++ [(win, handBet, handBet)])
  else if dealerValue <? playerValue then
    ((fst st + handBet * 2)%Q, snd st ++ [(win, handBet, handBet)])
  else if playerValue <? dealerValue then
    (fst st, snd st ++ [(loss, handBet, (- handBet)%Q)])
  else if playerValue =? dealerValue then
    ((fst st + handBet)%Q, snd st ++ [(push, handBet, 0%Q)])
  else st.

Fixpoint finishLoop (handBets : list Q) (currentBet : Q) (dealerValue : Z)
    (index : nat) (rest : list Hand) (st : Q * list (Result * Q * Q))
    : Q * list (Result * Q * Q) :=
  match rest with
  | [] => st
  | hand :: rest' =>
      finishLoop handBets currentBet dealerValue (S index) rest'
        (finishStep dealerValue (default currentBet (handBets !! index)) hand st)
  end.

(** The bankroll [finishHand] stores: [Math.max(0, prev + totalWinnings)]. *)
Definition finishHand (playerHands : list Hand) (dealerHand : Hand)
    (handBets : list Q) (currentBet : Q) (prev : Q) : Q :=
  let st := finishLoop handBets currentBet (calculateHandValue dealerHand)
              0 playerHands (0%Q, []) in
  Qmax 0 (prev + fst st)%Q.

(** *** Decision recorder (lines 655-708) *)

(** The [action] strings the handlers pass. *)
Definition actionName (a : Action) : string :=
  match a with
  | hit => "hit"
  | stand => "stand"
  | double => "double"
  | split => "split"
  | surrenderAction => "surrender"
  end.

Record Decision : Type := mkDecision {
  timestamp : Z;
  playerHand : Hand;
  dealerUpCard : Card;
  playerValue : Z;
  dealerValue : Z;
  action : Action;
  optimalAction : Action;
  scenarioKey : string;
  isOptimal : bool
}.

Record Scenario : Type := mkScenario {
  count : Z;
  actions : gmap string Z;
  scenarioOptimalAction : Action;
  correctDecisions : Z
}.

Record Recorder : Type := mkRecorder {
  decisionHistory : list Decision;
  scenarioStats : gmap string Scenario
}.

Definition Action_eqb (a b : Action) : bool :=
  match a, b with
  | hit, hit | stand, stand | double, double | split, split
  | surrenderAction, surrenderAction => true
  | _, _ => false
  end.

(** The template literals of lines 666-672; [${playerValue}] prints the
    number in decimal. *)
Definition makeScenarioKey (hand : Hand) (upCard : Card) : completion string :=
  let playerValue := calculateHandValue hand in
  let isSoft := isSoftHand hand in
  isPair <- sameRankPair hand ;;;
  if isPair then
    rank0 <- prop (hand !! 0%nat) rank ;;;
    Normal ("pair_" +:+ rank0 +:+ "_vs_" +:+ rank upCard)
  else if isSoft then
    Normal ("soft_" +:+ pretty playerValue +:+ "_vs_" +:+ rank upCard)
  else
    Normal ("hard_" +:+ pretty playerValue +:+ "_vs_" +:+ rank upCard).

(** The [setScenarioStats] updater, run once per recorded decision. The
    source increments the fields of the scenario object in place before it
    stores it under its key; the store after the update is the one below. *)
Definition updateScenario (key : string) (act opt : Action)
    (prev : gmap string Scenario) : gmap string Scenario :=
  let scenario := default (mkScenario 0 ∅ opt 0) (prev !! key) in
  let name := actionName act in
  <[key := mkScenario
             (count scenario + 1)
             (<[name := default 0 (actions scenario !! name) + 1]> (actions scenario))
             (scenarioOptimalAction scenario)
             (if Action_eqb act opt then correctDecisions scenario + 1
              else correctDecisions scenario)]> prev.

(** [recordDecision(playerHand, dealerUpCard, action)]; [now] is [Date.now()]. *)
Definition recordDecision (now : Z) (hand : option Hand) (upCard : option Card)
    (act : Action) (st : Recorder) : completion Recorder :=
  match upCard, hand with
  | None, _ | _, None => Normal st
  | Some upCard, Some hand =>
    if (length hand =? 0)%nat then Normal st else
    key <- makeScenarioKey hand upCard ;;;
    opt <- getOptimalAction (Some hand) (Some upCard) true true true ;;;
    let decision :=
      mkDecision now hand upCard (calculateHandValue hand) (value upCard)
        act opt key (Action_eqb act opt) in
    Normal (mkRecorder (decisionHistory st ++ [decision])
              (updateScenario key act opt (scenarioStats st)))
  end.

(** *** What each action handler hands to [recordDecision]

    The guards of the handler and the arguments of its call, [None] when the
    handler returns before recording. The handler's other state updates
    (hands, bets, deck, bankroll) are outside these definitions. *)
Definition RecordCall : Type := (option Hand * option Card * Action)%type.

(** [hit(handIndex)] (lines 353-392) *)
Definition hit_records (playerHands : list Hand) (handIndex : nat)
    (dealerHand : Hand) (deck : list Card) : option RecordCall :=
  if (length deck =? 0)%nat || (length playerHands <=? handIndex)%nat then None
  else match playerHands !! handIndex with
       | None => None
       | Some h =>
           if (0 <? length dealerHand)%nat
           then Some (Some h, dealerHand !! 0%nat, hit) else None
       end.

(** [stand()] (lines 395-417) *)
Definition stand_records (playerHands : list Hand) (currentHandIndex : nat)
    (dealerHand : Hand) : option RecordCall :=
  if (length playerHands <=? currentHandIndex)%nat then None
  else match playerHands !! currentHandIndex with
       | None => None
       | Some h =>
           if (0 <? length dealerHand)%nat
           then Some (Some h, dealerHand !! 0%nat, stand) else None
       end.

(** [double()] (lines 420-474); [bankroll < currentBet] returns early. *)
Definition double_records (playerHands : list Hand) (currentHandIndex : nat)
    (dealerHand : Hand) (bankroll currentBet : Q) (deck : list Card)
    : option RecordCall :=
  if negb (Qle_bool currentBet bankroll) then None
  else if (length playerHands <=? currentHandIndex)%nat then None
  else match playerHands !! currentHandIndex, last deck with
       | Some h, Some _ =>
           if (0 <? length dealerHand)%nat
           then Some (Some h, dealerHand !! 0%nat, double) else None
       | _, _ => None
       end.

(** [surrender()] (lines 534-552) *)
Definition surrender_records (surrenderAllowed : bool) (playerHands : list Hand)
    (currentHandIndex : nat) (dealerHand : Hand) : option RecordCall :=
  if negb surrenderAllowed then None
  else match playerHands !! currentHandIndex with
       | None => None
       | Some h =>
           if negb (length h =? 2)%nat then None
           else if (0 <? length dealerHand)%nat
           then Some (Some h, dealerHand !! 0%nat, surrenderAction) else None
       end.

(** [split()] (lines 477-531): [canSplit(playerHands[currentHandIndex])]
    throws on a missing hand and the handler's [catch] swallows it; the call
    is [recordDecision([currentHand[0]], dealerHand[0], 'split')]. *)
Definition split_records (playerHands : list Hand) (currentHandIndex : nat)
    (dealerHand : Hand) (bankroll currentBet : Q) (deck : list Card)
    : option RecordCall :=
  match prop (playerHands !! currentHandIndex) canSplit with
  | Normal (Normal true) =>
      if negb (Qle_bool currentBet bankroll) then None
      else match playerHands !! currentHandIndex, last deck with
           | Some currentHand, Some _ =>
               if negb (length currentHand =? 2)%nat then None
               else match currentHand !! 0%nat with
                    | Some c0 =>
                        if (0 <? length dealerHand)%nat
                        then Some (Some [c0], dealerHand !! 0%nat, split)
                        else None
                    | None => None
                    end
           | _, _ => None
           end
  | _ => None
  end.

(** A handler followed by the recorder. *)
Definition recordCall (now : Z) (call : option RecordCall) (st : Recorder)
    : completion Recorder :=
  match call with
  | None => Normal st
  | Some (h, d, a) => recordDecision now h d a st
  end.

End App.


(** ** The resolver over a store of objects

    [resolveBlackjackRound] once more, with its arrays and cards as objects
    of a store, so that reading, allocating and writing are told apart. The
    operations on objects are the ones the source uses: reads ([for ... of],
    [length], [a[i]], property reads), [slice], [concat] and the literal
    [[]], which allocate a new array, and [push], which writes to one. The
    locals ([dVal], [totalPayout], indices) are values, as in the source.
    Loops run on fuel: the store decides when they stop. *)

Module Store.

Definition loc : Type := positive.

Inductive object : Type :=
  | CardObj (c : Card)
  | CardArray (cards : list loc)
  | HandArray (hands : list loc)
  | NumberArray (nums : list Q)
  | OutcomeArray (os : list blackjackLogic.Outcome).

Abbreviation heap := (gmap loc object).

(** A run ends with a value and a store, with a thrown TypeError, or out of
    fuel. *)
Inductive run (A : Type) : Type :=
  | Done (a : A) (h : heap)
  | Thrown
  | OutOfFuel.
Arguments Done {A} a h.
Arguments Thrown {A}.
Arguments OutOfFuel {A}.

Definition M (A : Type) : Type := heap -> run A.

Definition ret {A} (a : A) : M A := fun h => Done a h.

Definition bind {A B} (m : M A) (k : A -> M B) : M B :=
  fun h => match m h with
           | Done a h' => k a h'
           | Thrown => Thrown
           | OutOfFuel => OutOfFuel
           end.

Definition throw {A} : M A := fun _ => Thrown.

Notation "x <<- m ;;; k" := (bind m (fun x => k))
  (at level 100, m at next level, right associativity).

(** *** Reading

    The cards a card array holds, read through the store. *)
Fixpoint cardsAt (h : heap) (cards : list loc) : option Hand :=
  match cards with
  | [] => Some []
  | c :: cards' =>
      match h !! c, cardsAt h cards' with
      | Some (CardObj card), Some hand => Some (card :: hand)
      | _, _ => None
      end
  end.

Definition handAt (h : heap) (l : loc) : option Hand :=
  match h !! l with
  | Some (CardArray cards) => cardsAt h cards
  | _ => None
  end.

(** [for (const c of hand) { ... c.value ... c.rank ... }] and [hand.length]:
    the hand at [l] with its cards. *)
Definition readHand (l : loc) : M Hand :=
  fun h => match handAt h l with
           | Some hand => Done hand h
           | None => Thrown
           end.

Definition cardsOf (l : loc) : M (list loc) :=
  fun h => match h !! l with
           | Some (CardArray cards) => Done cards h
           | _ => Thrown
           end.

Definition handsOf (l : loc) : M (list loc) :=
  fun h => match h !! l with
           | Some (HandArray hands) => Done hands h
           | _ => Thrown
           end.

Definition numsOf (l : loc) : M (list Q) :=
  fun h => match h !! l with
           | Some (NumberArray nums) => Done nums h
           | _ => Thrown
           end.

Definition calcValue (l : loc) : M Z :=
  hand <<- readHand l ;;; ret (blackjackLogic.calcValue hand).

Definition isSoft (l : loc) : M bool :=
  hand <<- readHand l ;;; ret (blackjackLogic.isSoft hand).

Definition isBlackjack (l : loc) : M bool :=
  hand <<- readHand l ;;; ret (blackjackLogic.isBlackjack hand).

(** *** Allocating and writing *)

(** A new object, at a location the store does not use. *)
Definition alloc (o : object) : M loc :=
  fun h => let l := fresh (dom h) in Done l (<[l := o]> h).

(** [a.slice(0, n)] *)
Definition slice (l : loc) (n : nat) : M loc :=
  cards <<- cardsOf l ;;; alloc (CardArray (take n cards)).

(** [a.concat(c)] for a card [c] *)
Definition concat (l : loc) (c : loc) : M loc :=
  cards <<- cardsOf l ;;; alloc (CardArray (cards ++ [c])).

(** [outcomes.push(o)]: the one operation that writes to an existing object. *)
Definition pushOutcome (l : loc) (o : blackjackLogic.Outcome) : M unit :=
  fun h => match h !! l with
           | Some (OutcomeArray os) => Done tt (<[l := OutcomeArray (os ++ [o])]> h)
           | _ => Thrown
           end.

(** *** The dealer loop (lines 78-89) *)
Fixpoint drawLoop (fuel : nat) (dealerHitsSoft17 : bool) (dealerHand : loc)
    (dealerIdx : nat) (dealerShown : loc) (dVal : Z) : M (loc * Z) :=
  match fuel with
  | O => fun _ => OutOfFuel
  | S fuel' =>
      go <<- (if dVal <? 17 then ret true
              else if (dVal =? 17) && dealerHitsSoft17 then isSoft dealerShown
              else ret false) ;;;
      if go : bool then
        cards <<- cardsOf dealerHand ;;;
        match cards !! dealerIdx with
        | None => ret (dealerShown, dVal)
        | Some c =>
            dealerShown' <<- concat dealerShown c ;;;
            dVal' <<- calcValue dealerShown' ;;;
            drawLoop fuel' dealerHitsSoft17 dealerHand (S dealerIdx)
              dealerShown' dVal'
        end
      else ret (dealerShown, dVal)
  end.

(** *** Normal resolution (lines 137-162): one iteration, and the loop *)
Definition settleHand (dVal : Z) (bet : Q) (hand : loc) (outcomes : loc)
    (totalPayout : Q) : M Q :=
  pVal <<- calcValue hand ;;;
  if 21 <? pVal then
    _ <<- pushOutcome outcomes (blackjackLogic.mkOutcome bust bet pVal) ;;;
    ret totalPayout
  else if 21 <? dVal then
    _ <<- pushOutcome outcomes (blackjackLogic.mkOutcome win bet pVal) ;;;
    ret (totalPayout + bet * 2)%Q
  else if dVal <? pVal then
    _ <<- pushOutcome outcomes (blackjackLogic.mkOutcome win bet pVal) ;;;
    ret (totalPayout + bet * 2)%Q
  else if pVal <? dVal then
    _ <<- pushOutcome outcomes (blackjackLogic.mkOutcome loss bet pVal) ;;;
    ret totalPayout
  else
    _ <<- pushOutcome outcomes (blackjackLogic.mkOutcome push bet pVal) ;;;
    ret (totalPayout + bet)%Q.

Fixpoint settleLoop (fuel : nat) (playerHands handBets : loc) (defaultBet : Q)
    (dVal : Z) (outcomes : loc) (i : nat) (totalPayout : Q) : M Q :=
  match fuel with
  | O => fun _ => OutOfFuel
  | S fuel' =>
      hands <<- handsOf playerHands ;;;
      match hands !! i with
      | None => ret totalPayout
      | Some hand =>
          bets <<- numsOf handBets ;;;
          totalPayout' <<- settleHand dVal (default defaultBet (bets !! i))
                             hand outcomes totalPayout ;;;
          settleLoop fuel' playerHands handBets defaultBet dVal outcomes
            (S i) totalPayout'
      end
  end.

(** *** The function *)

Record RoundResult : Type := mkRoundResult {
  bankroll : Q;
  outcomes : loc;
  dealerFinalHand : loc;
  dealerValue : Z
}.

(** [playerHands[0].p] *)
Definition firstHand {A} (playerHands : loc) (p : loc -> M A) : M A :=
  hands <<- handsOf playerHands ;;;
  match hands !! 0%nat with
  | Some hand0 => p hand0
  | None => throw
  end.

Definition resolveBlackjackRound (fuel : nat)
    (playerHands dealerHand : loc) (bankroll : Q) (handBets : loc)
    (defaultBet : Q) (dealerHitsSoft17 considerNaturalBlackjack : bool)
    : M RoundResult :=
  cards <<- cardsOf dealerHand ;;;
  dealerShown0 <<- slice dealerHand (Nat.min 2 (length cards)) ;;;
  dVal0 <<- calcValue dealerHand ;;;
  drawn <<- drawLoop fuel dealerHitsSoft17 dealerHand 2 dealerShown0 dVal0 ;;;
  let dealerShown := fst drawn in
  let dVal := snd drawn in
  outcomes <<- alloc (OutcomeArray []) ;;;
  let totalPayout0 : Q := 0%Q in
  dealerNatural <<- (if considerNaturalBlackjack then isBlackjack dealerShown
                     else ret false) ;;;
  treatAsInitial <<-
    (if considerNaturalBlackjack then
       hands <<- handsOf playerHands ;;;
       if (length hands =? 1)%nat then
         firstHand playerHands
           (fun hand0 => cards0 <<- cardsOf hand0 ;;; ret (length cards0 =? 2)%nat)
       else ret false
     else ret false) ;;;
  let normal :=
    totalPayout <<- settleLoop fuel playerHands handBets defaultBet dVal
                      outcomes 0 totalPayout0 ;;;
    ret (mkRoundResult (blackjackLogic.mathMax0 (bankroll + totalPayout)%Q)
           outcomes dealerShown dVal) in
  if treatAsInitial : bool then
    bets <<- numsOf handBets ;;;
    let bet0 := default defaultBet (bets !! 0%nat) in
    playerNatural <<- firstHand playerHands isBlackjack ;;;
    if playerNatural && dealerNatural then
      let totalPayout := (totalPayout0 + bet0)%Q in
      _ <<- pushOutcome outcomes (blackjackLogic.mkOutcome push bet0 21) ;;;
      ret (mkRoundResult (blackjackLogic.mathMax0 (bankroll + totalPayout)%Q)
             outcomes dealerHand dVal)
    else if playerNatural && negb dealerNatural then
      let totalPayout := (totalPayout0 + bet0 * (5 # 2))%Q in
      _ <<- pushOutcome outcomes (blackjackLogic.mkOutcome blackjack bet0 21) ;;;
      ret (mkRoundResult (blackjackLogic.mathMax0 (bankroll + totalPayout)%Q)
             outcomes dealerHand dVal)
    else normal
  else normal.

(** The hands an array of hands holds, read through the store. *)
Fixpoint handsAt (h : heap) (hands : list loc) : option (list Hand) :=
  match hands with
  | [] => Some []
  | l :: hands' =>
      match handAt h l, handsAt h hands' with
      | Some hand, Some rest => Some (hand :: rest)
      | _, _ => None
      end
  end.

End Store.

(** ** App.jsx: the deck, the deal and the statistics *)

Module Game.

(** *** [createDeck] (lines 123-148) *)

Definition suits : list string := ["♠"; "♥"; "♦"; "♣"]%string.

Definition ranks : list string :=
  ["A"; "2"; "3"; "4"; "5"; "6"; "7"; "8"; "9"; "10"; "J"; "Q"; "K"]%string.

(** [parseInt] on a string of decimal digits (the ranks it is applied to):
    the number the leading digits spell, [None] (NaN) when there is none. *)
Definition digitOf (a : Ascii.ascii) : option Z :=
  let n := Z.of_nat (Ascii.nat_of_ascii a) in
  if (48 <=? n) && (n <=? 57) then Some (n - 48) else None.

Fixpoint parseDigits (acc : option Z) (s : string) : option Z :=
  match s with
  | EmptyString => acc
  | String a s' =>
      match digitOf a with
      | Some d => parseDigits (Some (10 * default 0 acc + d)) s'
      | None => acc
      end
  end.

Definition parseInt (s : string) : option Z := parseDigits None s.

(** [rank === 'A' ? 11 : ['J', 'Q', 'K'].includes(rank) ? 10 : parseInt(rank)];
    a NaN value is [None]. *)
Definition rankValue (rank : string) : option Z :=
  if String.eqb rank "A" then Some 11
  else if App.includesStr ["J"; "Q"; "K"]%string rank then Some 10
  else parseInt rank.

(** The two nested [for ... of] loops: the deck before the shuffle. A rank
    whose value is NaN yields no card here; no rank of [ranks] is one. *)
Definition cardsOfSuit (suit : string) : list Card :=
  omap (fun rank => (fun v => mkCard rank v (Some suit)) <$> rankValue rank) ranks.

Definition orderedDeck : list Card := suits ≫= cardsOfSuit.

(** [[deck[i], deck[j]] = [deck[j], deck[i]]]: both cells are read, then
    both are written. The indices of the shuffle are in range; out of range
    nothing is swapped here. *)
Definition swap (deck : list Card) (i j : nat) : list Card :=
  match deck !! i, deck !! j with
  | Some ci, Some cj => <[j := ci]> (<[i := cj]> deck)
  | _, _ => deck
  end.

(** The Fisher-Yates loop, [for (let i = deck.length - 1; i > 0; i--)].
    [random i] stands for the draw of [Math.random()] at index [i]:
    [Math.floor(Math.random() * (i + 1))] is some index from 0 to [i], here
    [random i mod (i + 1)]. *)
Fixpoint shuffleFrom (random : nat -> nat) (i : nat) (deck : list Card) : list Card :=
  match i with
  | O => deck
  | S i' => shuffleFrom random i' (swap deck i (random i mod (i + 1)))
  end.

Definition createDeck (random : nat -> nat) : list Card :=
  shuffleFrom random (length orderedDeck - 1) orderedDeck.

(** *** Game statistics (lines 94-107 and 639-652) *)

Record GameStats : Type := mkGameStats {
  totalHands : Z;
  handsWon : Z;
  handsLost : Z;
  handsPush : Z;
  totalWagered : Q;
  netWinnings : Q;
  blackjacks : Z;
  busts : Z;
  surrenders : Z;
  doubles : Z;
  splits : Z;
  insurances : Z
}.

(** The initial state, which is also the state "Reset All Data" stores. *)
Definition initialGameStats : GameStats :=
  mkGameStats 0 0 0 0 0 0 0 0 0 0 0 0.

Definition Result_eqb (a b : Result) : bool :=
  match a, b with
  | win, win | loss, loss | push, push | blackjack, blackjack
  | bust, bust | surrender, surrender => true
  | _, _ => false
  end.

(** [result === r ? 1 : 0] and [result === r || result === r' ? 1 : 0] *)
Definition oneIf (b : bool) : Z := if b then 1 else 0.

(** [updateStats(result, betAmount, netChange)]: the updater it hands to
    [setGameStats]. The spread [...prev] keeps [doubles], [splits] and
    [insurances]. *)
Definition updateStats (result : Result) (betAmount netChange : Q)
    (prev : GameStats) : GameStats :=
  mkGameStats
    (totalHands prev + 1)
    (handsWon prev + oneIf (Result_eqb result win || Result_eqb result blackjack))
    (handsLost prev + oneIf (Result_eqb result loss || Result_eqb result bust))
    (handsPush prev + oneIf (Result_eqb result push))
    (totalWagered prev + betAmount)
    (netWinnings prev + netChange)
    (blackjacks prev + oneIf (Result_eqb result blackjack))
    (busts prev + oneIf (Result_eqb result bust))
    (surrenders prev + oneIf (Result_eqb result surrender))
    (doubles prev)
    (splits prev)
    (insurances prev).

(** The [setGameStats] updaters of a sequence of [updateStats] calls, run in
    the order of the calls. *)
Definition applyStats (calls : list (Result * Q * Q)) (s : GameStats)
    : GameStats :=
  fold_left (fun s call => updateStats (fst (fst call)) (snd (fst call))
                             (snd call) s) calls s.

(** *** The state of the component (lines 27-72 and 151)

    [handBets] is a JavaScript array of numbers that the handlers assign by
    index: a cell is [None] where the array has a hole or [undefined]. The
    decision history and the scenario statistics are the [App.Recorder]; the
    handlers' calls of [recordDecision] are [App.hit_records] and the like,
    they touch no field below. *)
Inductive Phase : Type := betting | playing | finished.

Record State : Type := mkState {
  gameState : Phase;
  playerHands : list Hand;
  handBets : list (option Q);
  dealerHand : Hand;
  currentHandIndex : nat;
  bankroll : Q;
  currentBet : Q;
  handsToPlay : Z;
  dealerHitsSoft17 : bool;
  surrenderAllowed : bool;
  insuranceOffered : bool;
  deck : list Card;
  gameStats : GameStats
}.

(** The state of the first render; [random] shuffles the first deck. *)
Definition initialState (random : nat -> nat) : State :=
  mkState betting [[]] [] [] 0 1000 25 1 true true false (createDeck random)
    initialGameStats.

(** The state setters. [setX v] stores [v]; the source's [setX(prev => e)]
    is [setX e'] with [prev] read from the state the update is applied to. *)
Definition setGameState (v : Phase) (s : State) : State :=
  mkState v (playerHands s) (handBets s) (dealerHand s) (currentHandIndex s)
    (bankroll s) (currentBet s) (handsToPlay s) (dealerHitsSoft17 s)
    (surrenderAllowed s) (insuranceOffered s) (deck s) (gameStats s).
Definition setPlayerHands (v : list Hand) (s : State) : State :=
  mkState (gameState s) v (handBets s) (dealerHand s) (currentHandIndex s)
    (bankroll s) (currentBet s) (handsToPlay s) (dealerHitsSoft17 s)
    (surrenderAllowed s) (insuranceOffered s) (deck s) (gameStats s).
Definition setHandBets (v : list (option Q)) (s : State) : State :=
  mkState (gameState s) (playerHands s) v (dealerHand s) (currentHandIndex s)
    (bankroll s) (currentBet s) (handsToPlay s) (dealerHitsSoft17 s)
    (surrenderAllowed s) (insuranceOffered s) (deck s) (gameStats s).
Definition setDealerHand (v : Hand) (s : State) : State :=
  mkState (gameState s) (playerHands s) (handBets s) v (currentHandIndex s)
    (bankroll s) (currentBet s) (handsToPlay s) (dealerHitsSoft17 s)
    (surrenderAllowed s) (insuranceOffered s) (deck s) (gameStats s).
Definition setCurrentHandIndex (v : nat) (s : State) : State :=
  mkState (gameState s) (playerHands s) (handBets s) (dealerHand s) v
    (bankroll s) (currentBet s) (handsToPlay s) (dealerHitsSoft17 s)
    (surrenderAllowed s) (insuranceOffered s) (deck s) (gameStats s).
Definition setBankroll (v : Q) (s : State) : State :=
  mkState (gameState s) (playerHands s) (handBets s) (dealerHand s)
    (currentHandIndex s) v (currentBet s) (handsToPlay s) (dealerHitsSoft17 s)
    (surrenderAllowed s) (insuranceOffered s) (deck s) (gameStats s).
Definition setCurrentBet (v : Q) (s : State) : State :=
  mkState (gameState s) (playerHands s) (handBets s) (dealerHand s)
    (currentHandIndex s) (bankroll s) v (handsToPlay s) (dealerHitsSoft17 s)
    (surrenderAllowed s) (insuranceOffered s) (deck s) (gameStats s).
Definition setHandsToPlay (v : Z) (s : State) : State :=
  mkState (gameState s) (playerHands s) (handBets s) (dealerHand s)
    (currentHandIndex s) (bankroll s) (currentBet s) v (dealerHitsSoft17 s)
    (surrenderAllowed s) (insuranceOffered s) (deck s) (gameStats s).
Definition setDealerHitsSoft17 (v : bool) (s : State) : State :=
  mkState (gameState s) (playerHands s) (handBets s) (dealerHand s)
    (currentHandIndex s) (bankroll s) (currentBet s) (handsToPlay s) v
    (surrenderAllowed s) (insuranceOffered s) (deck s) (gameStats s).
Definition setSurrenderAllowed (v : bool) (s : State) : State :=
  mkState (gameState s) (playerHands s) (handBets s) (dealerHand s)
    (currentHandIndex s) (bankroll s) (currentBet s) (handsToPlay s)
    (dealerHitsSoft17 s) v (insuranceOffered s) (deck s) (gameStats s).
Definition setInsuranceOffered (v : bool) (s : State) : State :=
  mkState (gameState s) (playerHands s) (handBets s) (dealerHand s)
    (currentHandIndex s) (bankroll s) (currentBet s) (handsToPlay s)
    (dealerHitsSoft17 s) (surrenderAllowed s) v (deck s) (gameStats s).
Definition setDeck (v : list Card) (s : State) : State :=
  mkState (gameState s) (playerHands s) (handBets s) (dealerHand s)
    (currentHandIndex s) (bankroll s) (currentBet s) (handsToPlay s)
    (dealerHitsSoft17 s) (surrenderAllowed s) (insuranceOffered s) v
    (gameStats s).
Definition setGameStats (v : GameStats) (s : State) : State :=
  mkState (gameState s) (playerHands s) (handBets s) (dealerHand s)
    (currentHandIndex s) (bankroll s) (currentBet s) (handsToPlay s)
    (dealerHitsSoft17 s) (surrenderAllowed s) (insuranceOffered s) (deck s) v.

(** *** Handlers

    A handler is a closure of one render: the state variables it reads are
    those of that render, its snapshot [snap], whatever has been stored
    since; what it stores is seen by later renders only. So a handler is a
    function from its snapshot to an [Update], the composition of its
    setter calls in the order it makes them, applied to the state current
    when it runs.

    [useCallback(f, deps)] keeps the closure of an earlier render until one
    of [deps] changes: the snapshot of the handler a button calls agrees with
    the state on the screen on the handler's dependencies, and may be older
    on the rest. A callback a handler calls or defers ([finishHand] from
    [hit], [dealerPlay] from [stand] and [double], [finishHand] from the
    timer of [dealerPlay]) is the one of the handler's render, with a
    snapshot of its own: it is a further argument here. The [...Deps]
    relations are the dependency arrays; numbers are compared by value. *)
Definition Update : Type := State -> State.

Definition startNewHandDeps (snap s : State) : Prop :=
  deck snap = deck s /\ (currentBet snap == currentBet s)%Q.

Definition hitDeps (snap s : State) : Prop :=
  currentHandIndex snap = currentHandIndex s /\ deck snap = deck s
  /\ playerHands snap = playerHands s /\ handsToPlay snap = handsToPlay s
  /\ dealerHand snap = dealerHand s.

Definition standDeps (snap s : State) : Prop :=
  currentHandIndex snap = currentHandIndex s
  /\ handsToPlay snap = handsToPlay s
  /\ playerHands snap = playerHands s /\ dealerHand snap = dealerHand s.

Definition doubleDeps (snap s : State) : Prop :=
  (currentBet snap == currentBet s)%Q /\ (bankroll snap == bankroll s)%Q
  /\ deck snap = deck s /\ playerHands snap = playerHands s
  /\ currentHandIndex snap = currentHandIndex s
  /\ handsToPlay snap = handsToPlay s /\ dealerHand snap = dealerHand s.

Definition splitDeps (snap s : State) : Prop :=
  playerHands snap = playerHands s
  /\ currentHandIndex snap = currentHandIndex s
  /\ (bankroll snap == bankroll s)%Q /\ (currentBet snap == currentBet s)%Q
  /\ deck snap = deck s /\ dealerHand snap = dealerHand s.

Definition surrenderDeps (snap s : State) : Prop :=
  surrenderAllowed snap = surrenderAllowed s
  /\ playerHands snap = playerHands s
  /\ currentHandIndex snap = currentHandIndex s
  /\ (currentBet snap == currentBet s)%Q /\ dealerHand snap = dealerHand s.

Definition dealerPlayDeps (snap s : State) : Prop :=
  dealerHand snap = dealerHand s
  /\ dealerHitsSoft17 snap = dealerHitsSoft17 s /\ deck snap = deck s.

Definition finishHandDeps (snap s : State) : Prop :=
  dealerHand snap = dealerHand s /\ playerHands snap = playerHands s
  /\ (currentBet snap == currentBet s)%Q /\ handBets snap = handBets s.

(** [a.pop()]: the last element, [undefined] on the empty array; and the
    array it leaves. *)
Definition pop (a : list Card) : option Card * list Card :=
  (last a, removelast a).

(** [handBets[index] ?? currentBet] *)
Definition betAt (handBets : list (option Q)) (currentBet : Q) (index : nat) : Q :=
  match handBets !! index with
  | Some (Some bet) => bet
  | _ => currentBet
  end.

(** [a[i] = v] on a JavaScript array: past the end, the array is extended
    and the cells between are holes. *)
Definition assign (i : nat) (v : Q) (a : list (option Q)) : list (option Q) :=
  if (i <? length a)%nat then <[i := Some v]> a
  else a ++ replicate (i - length a) None ++ [Some v].

(** [finishHand(reason)] (lines 592-629); the argument is not read. The
    [forEach] is [App.finishStep] on each hand, [totalWinnings] and the
    [updateStats] calls its state. *)
Fixpoint finishLoop (handBets : list (option Q)) (currentBet : Q)
    (dealerValue : Z) (index : nat) (rest : list Hand)
    (st : Q * list (Result * Q * Q)) : Q * list (Result * Q * Q) :=
  match rest with
  | [] => st
  | hand :: rest' =>
      finishLoop handBets currentBet dealerValue (S index) rest'
        (App.finishStep dealerValue (betAt handBets currentBet index) hand st)
  end.

Definition finishHand (snap : State) : Update := fun cur =>
  let dealerValue := App.calculateHandValue (dealerHand snap) in
  let st := finishLoop (handBets snap) (currentBet snap) dealerValue 0
              (playerHands snap) (0%Q, []) in
  setBankroll (Qmax 0 (bankroll cur + fst st)%Q)
    (setGameStats (applyStats (snd st) (gameStats cur))
       (setGameState finished cur)).

(** [dealerPlay()] (lines 562-582): what it stores at once, and what its
    timer does a second later; [snapF] is the snapshot of its [finishHand]. *)
Definition dealerPlay (snap snapF : State) : Update * Update :=
  let r := App.dealerPlay (dealerHitsSoft17 snap) (dealerHand snap) (deck snap) in
  (fun cur => setDealerHand (fst r) (setDeck (snd r) cur), finishHand snapF).

(** [startNewHand()] (lines 302-349). First the part after the four cards
    are popped: what it stores at once, and what the timer it sets on a
    player total of 21 does half a second later. The empty hands stored
    before the deal are replaced in the same update. *)
Definition dealt (currentBet : Q)
    (playerCard1 dealerCard1 playerCard2 dealerCard2 : Card)
    (currentDeck : list Card) : Update * option Update :=
  let deal : Update := fun cur =>
    setBankroll (bankroll cur - currentBet)%Q
      (setHandBets [Some currentBet]
         (setDeck currentDeck
            (setDealerHand [dealerCard1; dealerCard2]
               (setPlayerHands [[playerCard1; playerCard2]]
                  (setInsuranceOffered false
                     (setHandsToPlay 1
                        (setCurrentHandIndex 0
                           (setGameState playing cur)))))))) in
  let playerValue := App.calculateHandValue [playerCard1; playerCard2] in
  if playerValue =? 21 then
    let timer : Update := fun cur =>
      let dealerValue := App.calculateHandValue [dealerCard1; dealerCard2] in
      if dealerValue =? 21 then
        setGameStats (updateStats push currentBet 0 (gameStats cur))
          (setBankroll (bankroll cur + currentBet)%Q
             (setGameState finished cur))
      else
        let winnings := (currentBet * (5 # 2))%Q in
        setGameStats
          (updateStats blackjack currentBet (winnings - currentBet)%Q
             (gameStats cur))
          (setBankroll (bankroll cur + winnings)%Q
             (setGameState finished cur)) in
    (deal, Some timer)
  else if String.eqb (rank dealerCard1) "A" then
    (fun cur => setInsuranceOffered true (deal cur), None)
  else (deal, None).

(** The whole handler. [random] shuffles a deck built by the first
    [createDeck()], [random'] one built by the second. [None] stands for a
    deal with an [undefined] card, which no list of cards holds. *)
Definition startNewHand (random random' : nat -> nat) (snap : State)
    : option (Update * option Update) :=
  let currentDeck :=
    if (length (deck snap) <? 20)%nat then createDeck random else deck snap in
  let currentDeck :=
    if (length currentDeck <? 4)%nat then createDeck random' else currentDeck in
  let '(playerCard1, currentDeck) := pop currentDeck in
  let '(dealerCard1, currentDeck) := pop currentDeck in
  let '(playerCard2, currentDeck) := pop currentDeck in
  let '(dealerCard2, currentDeck) := pop currentDeck in
  match playerCard1, dealerCard1, playerCard2, dealerCard2 with
  | Some playerCard1, Some dealerCard1, Some playerCard2, Some dealerCard2 =>
      Some (dealt (currentBet snap) playerCard1 dealerCard1 playerCard2
              dealerCard2 currentDeck)
  | _, _, _, _ => None
  end.

(** [hit(handIndex)] (lines 353-392); the button calls it without argument,
    [handIndex] is then the [currentHandIndex] of the snapshot. [snapF] is
    the snapshot of its [finishHand]. *)
Definition hit (handIndex : nat) (snap snapF : State) : Update := fun cur =>
  if (length (deck snap) =? 0)%nat then cur else
  match playerHands snap !! handIndex with
  | None => cur
  | Some hand =>
      match pop (deck snap) with
      | (None, _) => cur
      | (Some newCard, newDeck) =>
          let newHand := hand ++ [newCard] in
          let newHands := <[handIndex := newHand]> (playerHands snap) in
          let cur := setDeck newDeck (setPlayerHands newHands cur) in
          if 21 <? App.calculateHandValue newHand then
            if Z.of_nat handIndex <? handsToPlay snap - 1
            then setCurrentHandIndex (handIndex + 1) cur
            else finishHand snapF cur
          else cur
      end
  end.

(** [stand()] (lines 395-417): the update and, when the dealer plays, the
    update of the timer. [snapD] is the snapshot of its [dealerPlay],
    [snapF] that of the [finishHand] of that [dealerPlay]. *)
Definition stand (snap snapD snapF : State) : Update * option Update :=
  match playerHands snap !! currentHandIndex snap with
  | None => (fun cur => cur, None)
  | Some _ =>
      if Z.of_nat (currentHandIndex snap) <? handsToPlay snap - 1
      then (setCurrentHandIndex (currentHandIndex snap + 1), None)
      else (fst (dealerPlay snapD snapF), Some (snd (dealerPlay snapD snapF)))
  end.

(** [double()] (lines 420-474), with the snapshots [snapD] and [snapF] as in
    [stand]. *)
Definition double (snap snapD snapF : State) : Update * option Update :=
  if negb (Qle_bool (currentBet snap) (bankroll snap)) then (fun cur => cur, None)
  else
  match playerHands snap !! currentHandIndex snap with
  | None => (fun cur => cur, None)
  | Some hand =>
      let baseBet := betAt (handBets snap) (currentBet snap) (currentHandIndex snap) in
      let newHandBets := assign (currentHandIndex snap) (baseBet * 2)%Q (handBets snap) in
      let bet : Update := fun cur =>
        setHandBets newHandBets (setBankroll (bankroll cur - baseBet)%Q cur) in
      match pop (deck snap) with
      | (None, _) => (bet, None)
      | (Some newCard, newDeck) =>
          let newHands :=
            <[currentHandIndex snap := hand ++ [newCard]]> (playerHands snap) in
          let card : Update := fun cur =>
            setDeck newDeck (setPlayerHands newHands (bet cur)) in
          if Z.of_nat (currentHandIndex snap) <? handsToPlay snap - 1
          then (fun cur => setCurrentHandIndex (currentHandIndex snap + 1) (card cur),
                None)
          else (fun cur => fst (dealerPlay snapD snapF) (card cur),
                Some (snd (dealerPlay snapD snapF)))
      end
  end.

(** [split()] (lines 477-531). [canSplit] of a missing hand throws and the
    handler's [catch] ends it with nothing stored. The array [newHands] is
    stored before the new card is pushed on its current hand, and is the
    array the push changes: the stored hands hold the card. On an empty deck
    the handler returns after the bet and the hands are stored. *)
Definition split (snap : State) : Update :=
  match playerHands snap !! currentHandIndex snap with
  | Some [card0; card1] =>
      if negb (String.eqb (rank card0) (rank card1))
         || negb (Qle_bool (currentBet snap) (bankroll snap))
      then fun cur => cur
      else
        let bets : Update := fun cur =>
          let next := handBets cur in
          let next :=
            assign (currentHandIndex snap)
              (betAt next (currentBet snap) (currentHandIndex snap)) next in
          setHandBets (next ++ [Some (currentBet snap)])
            (setBankroll (bankroll cur - currentBet snap)%Q cur) in
        let hands (first : Hand) : Update := fun cur =>
          setHandsToPlay (handsToPlay cur + 1)
            (setPlayerHands
               (<[currentHandIndex snap := first]> (playerHands snap) ++ [[card1]])
               (bets cur)) in
        match pop (deck snap) with
        | (None, _) => hands [card0]
        | (Some newCard, newDeck) =>
            fun cur => setDeck newDeck (hands [card0; newCard] cur)
        end
  | _ => fun cur => cur
  end.

(** [surrender()] (lines 534-552); [Math.floor(currentBet / 2)] *)
Definition halfBet (currentBet : Q) : Q := inject_Z (Qfloor (currentBet / 2)).

Definition surrender (snap : State) : Update :=
  if negb (surrenderAllowed snap) then fun cur => cur else
  match playerHands snap !! currentHandIndex snap with
  | None => fun cur => cur
  | Some hand =>
      if negb (length hand =? 2)%nat then fun cur => cur
      else fun cur =>
        setGameState finished
          (setGameStats
             (updateStats surrender (currentBet snap)
                (- halfBet (currentBet snap))%Q (gameStats cur))
             (setBankroll (bankroll cur + halfBet (currentBet snap))%Q cur))
  end.

(** *** Buttons (lines 850-1053, 1509, 1523 and 1571-1591)

    The bet typed in the input: [Math.max(5, Math.min(500,
    parseInt(e.target.value) || 5))]; [typed] is what [parseInt] returns,
    [None] for [NaN]. *)
Definition betInput (typed : option Z) : Z :=
  let n := match typed with
           | Some n => if n =? 0 then 5 else n
           | None => 5
           end in
  Z.max 5 (Z.min 500 n).

(** The conditions under which the buttons are shown and enabled.
    [playerHands[currentHandIndex].length] throws on a missing hand: the
    render of the playing phase has a result only when the hand is there. *)
Definition dealEnabled (s : State) : bool :=
  match gameState s with
  | betting => Qle_bool (currentBet s) (bankroll s)
  | _ => false
  end.

Definition actionsShown (s : State) : bool :=
  match gameState s with
  | playing => negb (insuranceOffered s)
  | _ => false
  end.

Definition doubleEnabled (s : State) : completion bool :=
  prop (playerHands s !! currentHandIndex s)
    (fun hand => (length hand =? 2)%nat && Qle_bool (currentBet s) (bankroll s)).

Definition splitEnabled (s : State) : completion bool :=
  canSplit <- prop (playerHands s !! currentHandIndex s) App.canSplit ;;;
  canSplit <- canSplit ;;;
  Normal (canSplit && Qle_bool (currentBet s) (bankroll s)).

Definition surrenderEnabled (s : State) : completion bool :=
  if surrenderAllowed s
  then prop (playerHands s !! currentHandIndex s) (fun hand => (length hand =? 2)%nat)
  else Normal false.

(** "Reset All Data", confirmed. *)
Definition resetAll : Update := fun cur =>
  setBankroll 1000 (setGameStats initialGameStats cur).

(** A handler's update followed by that of the timer it sets, if any: the
    timer runs before the next click. *)
Definition settled (u : Update * option Update) (s : State) : State :=
  match snd u with
  | Some timer => timer (fst u s)
  | None => fst u s
  end.

(** What a click does, on the buttons the screen shows enabled; the handler
    it runs has a snapshot that agrees with the screen on its dependencies.
    Importing a file and loading the saved data store what they read and
    are not clicks of this relation. *)
Inductive click (s : State) : State -> Prop :=
  | click_quickBet (bet : Z) :
      gameState s <> playing -> bet ∈ [5; 25; 50; 100] ->
      click s (setCurrentBet (inject_Z bet) s)
  | click_betInput (typed : option Z) :
      gameState s = betting ->
      click s (setCurrentBet (inject_Z (betInput typed)) s)
  | click_deal (random random' : nat -> nat) (snap : State) u :
      dealEnabled s = true -> startNewHandDeps snap s ->
      startNewHand random random' snap = Some u ->
      click s (settled u s)
  | click_insurance :
      gameState s = playing -> insuranceOffered s = true ->
      click s (setInsuranceOffered false s)
  | click_hit (snap snapF : State) :
      actionsShown s = true -> hitDeps snap s -> finishHandDeps snapF snap ->
      click s (hit (currentHandIndex snap) snap snapF s)
  | click_stand (snap snapD snapF : State) :
      actionsShown s = true -> standDeps snap s ->
      dealerPlayDeps snapD snap -> finishHandDeps snapF snapD ->
      click s (settled (stand snap snapD snapF) s)
  | click_double (snap snapD snapF : State) :
      actionsShown s = true -> doubleEnabled s = Normal true ->
      doubleDeps snap s -> dealerPlayDeps snapD snap ->
      finishHandDeps snapF snapD ->
      click s (settled (double snap snapD snapF) s)
  | click_split (snap : State) :
      actionsShown s = true -> splitEnabled s = Normal true ->
      splitDeps snap s ->
      click s (split snap s)
  | click_surrender (snap : State) :
      actionsShown s = true -> surrenderEnabled s = Normal true ->
      surrenderDeps snap s ->
      click s (surrender snap s)
  | click_newHand :
      gameState s = finished -> click s (setGameState betting s)
  | click_addMoney :
      (bankroll s < 100)%Q -> click s (setBankroll (bankroll s + 500)%Q s)
  | click_dealerHitsSoft17 :
      click s (setDealerHitsSoft17 (negb (dealerHitsSoft17 s)) s)
  | click_surrenderAllowed :
      click s (setSurrenderAllowed (negb (surrenderAllowed s)) s)
  | click_reset :
      click s (resetAll s).

End Game.

(** * Vocabulary of the specification

    Notions the specification uses to state its properties; they are not part
    of the program. *)

(** Sum of the nominal card values, number of Aces, and the sum with every
    Ace counted 1. *)
Definition nominal (hand : Hand) : Z := fold_right (fun c acc => value c + acc) 0 hand.
Definition aceCount (hand : Hand) : nat := length (List.filter isAce hand).
Definition aceLow (hand : Hand) : Z :=
  fold_right (fun c acc => (if isAce c then 1 else value c) + acc) 0 hand.

(** Cards as the deck builds them: an Ace is worth 11 nominally. *)
Definition wellFormed (hand : Hand) : Prop :=
  Forall (fun c => isAce c = true -> value c = 11) hand.

(** Soft hand, in the specification's words: the hand holds an Ace and,
    after the reduction of the hand total, an Ace is still counted as 11. *)
Definition softAfterReduction (hand : Hand) : bool :=
  (0 <? aceCount hand)%nat && (0 <? snd (totalState hand))%nat.

(** The same, as the closed formula of the specification: the total with all
    Aces at 11, less 10 for each Ace except one, is at most 21. *)
Definition softByFormula (hand : Hand) : bool :=
  (0 <? aceCount hand)%nat
  && (nominal hand - 10 * (Z.of_nat (aceCount hand) - 1) <=? 21).

(** What an outcome pays back: twice the bet for a win, the bet for a push,
    two and a half times the bet for a blackjack, nothing otherwise. *)
Definition payoutOf (o : blackjackLogic.Outcome) : Q :=
  match blackjackLogic.result o with
  | win => blackjackLogic.bet o * 2
  | push => blackjackLogic.bet o
  | blackjack => blackjackLogic.bet o * (5 # 2)
  | loss | bust | surrender => 0
  end.

Definition sumQ (l : list Q) : Q := fold_right Qplus 0%Q l.

(** The per-hand settlement rules of the specification, on the two totals. *)
Definition classify (pVal dVal : Z) : Result :=
  if 21 <? pVal then bust
  else if 21 <? dVal then win
  else if dVal <? pVal then win
  else if pVal <? dVal then loss
  else push.

Definition outcomeAt (handBets : list Q) (defaultBet : Q) (dVal : Z)
    (i : nat) (hand : Hand) : blackjackLogic.Outcome :=
  blackjackLogic.mkOutcome (classify (blackjackLogic.calcValue hand) dVal)
    (default defaultBet (handBets !! i)) (blackjackLogic.calcValue hand).

(** A plain card of the given rank and value, for examples. *)
Definition card (r : string) (v : Z) : Card := mkCard r v None.

(** The settlement rule as the specification states it: in every round that
    reaches normal settlement, each hand is classified on its own total and
    the total of the hand the dealer ends with. *)
Definition settlementAsStated : Prop :=
  forall (playerHands : list Hand) (dealerHand : Hand) (bankroll0 : Q)
         (handBets : list Q) (defaultBet : Q)
         (dealerHitsSoft17 considerNaturalBlackjack : bool)
         (r : blackjackLogic.RoundResult),
    (forall h, considerNaturalBlackjack = true -> playerHands = [h] ->
               blackjackLogic.isBlackjack h = false) ->
    blackjackLogic.resolveBlackjackRound playerHands dealerHand bankroll0
      handBets defaultBet dealerHitsSoft17 considerNaturalBlackjack = Normal r ->
    forall (i : nat) (hand : Hand) (o : blackjackLogic.Outcome),
      playerHands !! i = Some hand ->
      blackjackLogic.outcomes r !! i = Some o ->
      blackjackLogic.result o
      = classify (blackjackLogic.calcValue hand)
          (blackjackLogic.calcValue (blackjackLogic.dealerFinalHand r)).

(** The rule of the two naturals as the specification states it: on an
    initial deal with naturals considered, a player natural against a dealer
    whose two cards are a natural is a push that returns the stake. *)
Definition naturalsAsStated : Prop :=
  forall (h dealerHand : Hand) (bankroll0 : Q) (handBets : list Q)
         (defaultBet : Q) (dealerHitsSoft17 : bool)
         (r : blackjackLogic.RoundResult),
    blackjackLogic.isBlackjack h = true ->
    blackjackLogic.isBlackjack (take 2 dealerHand) = true ->
    blackjackLogic.resolveBlackjackRound [h] dealerHand bankroll0 handBets
      defaultBet dealerHitsSoft17 true = Normal r ->
    blackjackLogic.outcomes r
    = [blackjackLogic.mkOutcome push (default defaultBet (handBets !! 0%nat)) 21]
    /\ (blackjackLogic.bankroll r
        == Qmax 0 (bankroll0 + default defaultBet (handBets !! 0%nat)))%Q.

(** A hand takes the pair-splitting branch of the strategy: a pair, splitting
    allowed, and a rule of the pair table fires. *)
Definition takesSplit (hand : Hand) (dealerValue : Z) (canSplit : bool) : bool :=
  match hand with
  | [a; b] =>
      String.eqb (rank a) (rank b) && canSplit
      && match App.pairRule (rank a) dealerValue with
         | Some _ => true
         | None => false
         end
  | _ => false
  end.

(** The soft-hand table in the words of the specification: [canDouble] is
    asked for on soft 18 only. *)
Definition softRuleClaimed (p d : Z) (canDouble : bool) : Action :=
  if 19 <=? p then stand
  else if p =? 18 then
    if App.includes [3; 4; 5; 6] d && canDouble then double
    else if 9 <=? d then hit
    else stand
  else if (p =? 17) && App.includes [3; 4; 5; 6] d then double
  else if (15 <=? p) && (p <=? 16) && App.includes [4; 5; 6] d then double
  else if (13 <=? p) && (p <=? 14) && App.includes [5; 6] d then double
  else hit.

(** The same table with [canDouble] asked for by every doubling rule. *)
Definition softRuleAmended (p d : Z) (canDouble : bool) : Action :=
  if 19 <=? p then stand
  else if p =? 18 then
    if App.includes [3; 4; 5; 6] d && canDouble then double
    else if 9 <=? d then hit
    else stand
  else if (p =? 17) && App.includes [3; 4; 5; 6] d && canDouble then double
  else if (15 <=? p) && (p <=? 16) && App.includes [4; 5; 6] d && canDouble then double
  else if (13 <=? p) && (p <=? 14) && App.includes [5; 6] d && canDouble then double
  else hit.

(** The soft-hand claim as the specification states it: for every hand that
    is soft and does not take the pair-splitting branch, and every dealer
    up-card, the optimal action is the one of the table. *)
Definition softStrategyAsStated : Prop :=
  forall (hand : Hand) (upCard : Card) (canDouble canSplit canSurrender : bool),
    softAfterReduction hand = true ->
    takesSplit hand (value upCard) canSplit = false ->
    App.getOptimalAction (Some hand) (Some upCard) canDouble canSplit canSurrender
    = Normal (softRuleClaimed (App.calculateHandValue hand) (value upCard) canDouble).

(** The shape of a hand as the recorder classifies it: a pair by its rank,
    else soft or hard (by [isSoftHand]) with its total. *)
Inductive Shape : Type :=
  | PairOf (r : string)
  | SoftOf (total : Z)
  | HardOf (total : Z).

Definition shapeOf (hand : Hand) : Shape :=
  match hand with
  | [a; b] =>
      if String.eqb (rank a) (rank b) then PairOf (rank a)
      else if App.isSoftHand hand then SoftOf (App.calculateHandValue hand)
      else HardOf (App.calculateHandValue hand)
  | _ =>
      if App.isSoftHand hand then SoftOf (App.calculateHandValue hand)
      else HardOf (App.calculateHandValue hand)
  end.

Definition keyOfShape (s : Shape) (dealerRank : string) : string :=
  match s with
  | PairOf r => "pair_" +:+ r +:+ "_vs_" +:+ dealerRank
  | SoftOf t => "soft_" +:+ pretty t +:+ "_vs_" +:+ dealerRank
  | HardOf t => "hard_" +:+ pretty t +:+ "_vs_" +:+ dealerRank
  end.

(** The draw law of the specification, for a loop that starts from the hand
    [shown] with the supply [rest] and ends with the hand [shown'] valued
    [v']: the cards drawn are a prefix of the supply, a card was drawn each
    time the rule demanded one, and at the end either the rule demands no
    card or the supply is exhausted. [must] is the rule, [total] the hand
    total. *)
Definition drawLaw (must : Z -> Hand -> bool) (total : Hand -> Z)
    (rest : list Card) (shown shown' : Hand) (v' : Z) : Prop :=
  exists k : nat,
    (k <= length rest)%nat
    /\ shown' = shown ++ take k rest
    /\ v' = total shown'
    /\ (forall j : nat, (j < k)%nat ->
        must (total (shown ++ take j rest)) (shown ++ take j rest) = true)
    /\ (must v' shown' = false \/ k = length rest).

(** A store holding the arguments of a round: the cards 10, K, 6, 7, 4, the
    player hand [10, K] in an array of hands, the dealer array [6, 7, 4] and
    the bets [25]. *)
Definition sampleStore : gmap Store.loc Store.object :=
  list_to_map
    [(1%positive, Store.CardObj (card "10" 10));
     (2%positive, Store.CardObj (card "K" 10));
     (3%positive, Store.CardObj (card "6" 6));
     (4%positive, Store.CardObj (card "7" 7));
     (5%positive, Store.CardObj (card "4" 4));
     (6%positive, Store.CardArray [1%positive; 2%positive]);
     (7%positive, Store.HandArray [6%positive]);
     (8%positive, Store.CardArray [3%positive; 4%positive; 5%positive]);
     (9%positive, Store.NumberArray [25%Q])].

(** The inductive step of the draw law: one more card drawn in front of a
    run that obeys the law. *)
Ltac draw_law_step IH c rest :=
  let k := fresh "k" in
  let Hk := fresh "Hk" in
  let Hs := fresh "Hs" in
  let Hv := fresh "Hv" in
  let Hd := fresh "Hd" in
  let He := fresh "He" in
  destruct IH as (k & Hk & Hs & Hv & Hd & He);
  exists (S k); cbn [take length];
  repeat split;
  [ lia
  | rewrite Hs, <- app_assoc; reflexivity
  | exact Hv
  | intros [|j] Hj;
    [ rewrite take_0, app_nil_r; assumption
    | cbn [take];
      let H := fresh "H" in
      assert (H := Hd j ltac:(lia)); rewrite <- app_assoc in H; exact H ]
  | destruct He as [He | He]; [left; exact He | right; lia] ].

(** ** Further vocabulary: decidable equality of cards *)

#[global] Instance Card_eq_dec : EqDecision Card.
Proof. solve_decision. Defined.

(** A card as [createDeck] builds it: its value is the value of its rank,
    between 2 and 11, and 11 exactly for an Ace. *)
Definition standardCard (c : Card) : bool :=
  bool_decide (Game.rankValue (rank c) = Some (value c))
  && (2 <=? value c) && (value c <=? 11)
  && Bool.eqb (isAce c) (value c =? 11).

(** Statistics that add up: every hand counted is a win, a loss, a push or
    a surrender, the blackjacks are among the wins and the busts among the
    losses. *)
Definition statsSound (g : Game.GameStats) : Prop :=
  Game.handsWon g + Game.handsLost g + Game.handsPush g + Game.surrenders g
  = Game.totalHands g
  /\ 0 <= Game.blackjacks g <= Game.handsWon g
  /\ 0 <= Game.busts g <= Game.handsLost g
  /\ 0 <= Game.handsPush g /\ 0 <= Game.surrenders g.

(** The bets and the net changes of a sequence of [updateStats] calls. *)
Definition betsOf (calls : list (Result * Q * Q)) : list Q :=
  (fun call => snd (fst call)) <$> calls.
Definition netsOf (calls : list (Result * Q * Q)) : list Q :=
  (fun call => snd call) <$> calls.

(** ** Further vocabulary: the game in play *)



(** The bet is a whole number of dollars within the table limits. *)
Definition betWithinLimits (s : Game.State) : Prop :=
  exists b : Z, 5 <= b <= 500 /\ Game.currentBet s = inject_Z b.

(** What [finishHand] does with one hand, on the two totals and the bet: the
    [updateStats] call it makes and the amount it adds to [totalWinnings]. *)
Definition tallyOf (pVal dVal : Z) (bet : Q) : Result * Q * Q :=
  match classify pVal dVal with
  | win => (win, bet, bet)
  | push => (push, bet, 0%Q)
  | _ => (loss, bet, (- bet)%Q)
  end.

Definition returnOf (pVal dVal : Z) (bet : Q) : Q :=
  match classify pVal dVal with
  | win => (bet * 2)%Q
  | push => bet
  | _ => 0%Q
  end.

(** The calls and the returns of a whole [finishHand], hand by hand. *)
Definition talliesOf (handBets : list (option Q)) (currentBet : Q)
    (dVal : Z) (hands : list Hand) : list (Result * Q * Q) :=
  imap (fun i hand => tallyOf (App.calculateHandValue hand) dVal
                        (Game.betAt handBets currentBet i)) hands.

Definition returnsOf (handBets : list (option Q)) (currentBet : Q)
    (dVal : Z) (hands : list Hand) : list Q :=
  imap (fun i hand => returnOf (App.calculateHandValue hand) dVal
                        (Game.betAt handBets currentBet i)) hands.

(** A state in the playing phase, for examples: the hands, one bet of 25 on
    each, the dealer's two cards, the deck and the bankroll. *)
Definition table (hands : list Hand) (dealer : Hand) (deck : list Card)
    (bankroll : Q) : Game.State :=
  Game.mkState Game.playing hands ((fun _ => Some 25%Q) <$> hands) dealer 0
    bankroll 25 (Z.of_nat (length hands)) true true false deck
    Game.initialGameStats.

(** The state after the first deal of a session whose shuffle leaves the
    deck in the order it was built. *)
Definition firstDeal : Game.State :=
  match Game.startNewHand (fun i => i) (fun i => i)
          (Game.initialState (fun i => i)) with
  | Some u => Game.settled u (Game.initialState (fun i => i))
  | None => Game.initialState (fun i => i)
  end.

(** ** Further vocabulary: the recorder against its history *)

(** A sequence of [recordDecision] calls, applied in order. *)
Definition recordAll (calls : list (Z * Hand * Card * Action)) (st : App.Recorder)
    : completion App.Recorder :=
  fold_left
    (fun acc call =>
       st' <- acc ;;;
       App.recordDecision (fst (fst (fst call))) (Some (snd (fst (fst call))))
         (Some (snd (fst call))) (snd call) st')
    calls (Normal st).

(** The decisions of a history filed under a key. *)
Definition decisionsAt (key : string) (history : list App.Decision)
    : list App.Decision :=
  List.filter (fun d => String.eqb (App.scenarioKey d) key) history.

(** What the statistics store says about a key, against a history: no entry
    when no decision was filed under it; else the number of those decisions,
    the number of them that were optimal, the number taken with each action,
    and the optimal action of the first of them. *)
Definition consistentAt (key : string) (st : App.Recorder) : Prop :=
  let ds := decisionsAt key (App.decisionHistory st) in
  match App.scenarioStats st !! key with
  | None => ds = []
  | Some sc =>
      App.count sc = Z.of_nat (length ds)
      /\ App.correctDecisions sc
         = Z.of_nat (length (List.filter App.isOptimal ds))
      /\ (forall a, default 0 (App.actions sc !! App.actionName a)
                    = Z.of_nat (length (List.filter
                        (fun d => App.Action_eqb (App.action d) a) ds)))
      /\ (App.optimalAction <$> head ds) = Some (App.scenarioOptimalAction sc)
  end.

(** Every key of the store is consistent with the history. *)
Definition recorderConsistent (st : App.Recorder) : Prop :=
  forall key, consistentAt key st.

(** The calls that record something: those with a hand that holds a card. *)
Definition recording (calls : list (Z * Hand * Card * Action))
    : list (Z * Hand * Card * Action) :=
  List.filter (fun call => negb (length (snd (fst (fst call))) =? 0)%nat) calls.

(** * Properties *)
(** ** Hand totals *)

Section HandTotals.

Lemma nominal_cons (c : Card) (hand : Hand) :
  nominal (c :: hand) = value c + nominal hand.
Proof. reflexivity. Qed.

Lemma aceLow_cons (c : Card) (hand : Hand) :
  aceLow (c :: hand) = (if isAce c then 1 else value c) + aceLow hand.
Proof. reflexivity. Qed.

Lemma aceCount_cons (c : Card) (hand : Hand) :
  aceCount (c :: hand) = ((if isAce c then 1 else 0) + aceCount hand)%nat.
Proof. unfold aceCount. cbn [List.filter]. destruct (isAce c); reflexivity. Qed.

Lemma sumStep_fold (hand : Hand) (st : Z * nat) :
  fold_left sumStep hand st = (fst st + nominal hand, (snd st + aceCount hand)%nat).
Proof.
  revert st. induction hand as [|c hand IH]; intros [v a]; cbn [fold_left].
  - cbn. f_equal; lia.
  - rewrite IH, nominal_cons, aceCount_cons. unfold sumStep. cbn [fst snd].
    destruct (isAce c); f_equal; lia.
Qed.

Lemma totalState_eq (hand : Hand) :
  totalState hand = reduceAces (nominal hand) (aceCount hand).
Proof. unfold totalState. rewrite sumStep_fold. reflexivity. Qed.

(** [base] of [isSoft]: the nominal sum with every Ace counted 1. *)
Lemma softStep_fold (hand : Hand) (st : Z * nat) :
  fold_left blackjackLogic.softStep hand st
  = (fst st + aceLow hand, (snd st + aceCount hand)%nat).
Proof.
  revert st. induction hand as [|c hand IH]; intros [b a]; cbn [fold_left].
  - cbn. f_equal; lia.
  - rewrite IH, aceLow_cons, aceCount_cons. unfold blackjackLogic.softStep.
    destruct (isAce c); cbn [fst snd]; f_equal; lia.
Qed.

Lemma softHandStep_fold (hand : Hand) (st : Z * bool) :
  fold_left App.softHandStep hand st
  = (fst st + nominal hand, snd st || existsb isAce hand).
Proof.
  revert st. induction hand as [|c hand IH]; intros [v b]; cbn [fold_left].
  - cbn. f_equal; [lia | by rewrite orb_false_r].
  - rewrite IH, nominal_cons. unfold App.softHandStep. cbn [fst snd existsb].
    f_equal; [lia | destruct (isAce c), b; reflexivity].
Qed.

(** The reduction loop: what it returns, in closed form. *)
Lemma reduceAces_value_le (v : Z) (a : nat) :
  fst (reduceAces v a) <= v.
Proof.
  revert v. induction a as [|a IH]; intros v; simpl; [lia|].
  destruct (21 <? v); simpl; [|lia]. specialize (IH (v - 10)). lia.
Qed.

Lemma reduceAces_le21 (v : Z) (a : nat) :
  v <= 21 -> reduceAces v a = (v, a).
Proof.
  intros H. destruct a; simpl; [reflexivity|].
  destruct (Z.ltb_spec 21 v); [lia | reflexivity].
Qed.

(** An Ace stays at 11 exactly when demoting all Aces but one is enough. *)
Lemma reduceAces_keeps_ace (v : Z) (a : nat) :
  (0 < snd (reduceAces v a))%nat <-> (0 < a)%nat /\ v - 10 * (Z.of_nat a - 1) <= 21.
Proof.
  revert v. induction a as [|a IH]; intros v; simpl.
  - split; [lia | intros [? _]; lia].
  - destruct (Z.ltb_spec 21 v); simpl.
    + rewrite IH. split.
      * intros [Ha Hv]. split; [lia|]. lia.
      * intros [_ Hv]. destruct a as [|a]; [simpl in Hv; lia|]. split; lia.
    + split; [intros _; split; lia | lia].
Qed.

End HandTotals.

(** ** Round resolution: settlement, naturals, bankroll *)

Section Settlement.

Import blackjackLogic.

Variables (handBets : list Q) (defaultBet : Q) (dVal : Z).

Lemma settleHand_outcomes (b : Q) (hand : Hand) (st : Q * list Outcome) :
  snd (settleHand dVal b hand st)
  = snd st ++ [mkOutcome (classify (calcValue hand) dVal) b (calcValue hand)].
Proof.
  unfold settleHand, classify.
  destruct (21 <? calcValue hand), (21 <? dVal),
    (dVal <? calcValue hand), (calcValue hand <? dVal); reflexivity.
Qed.

(** One iteration adds to [totalPayout] what the pushed outcome pays. *)
Lemma settleHand_total (b : Q) (hand : Hand) (st : Q * list Outcome) :
  (fst (settleHand dVal b hand st)
   == fst st + payoutOf (mkOutcome (classify (calcValue hand) dVal) b (calcValue hand)))%Q.
Proof.
  unfold settleHand, classify, payoutOf.
  destruct (21 <? calcValue hand), (21 <? dVal),
    (dVal <? calcValue hand), (calcValue hand <? dVal); cbn [fst result bet]; ring.
Qed.

Lemma settleLoop_outcomes (rest : list Hand) (i : nat) (st : Q * list Outcome) :
  snd (settleLoop handBets defaultBet dVal i rest st)
  = snd st ++ imap (fun j => outcomeAt handBets defaultBet dVal (i + j)) rest.
Proof.
  revert i st. induction rest as [|hand rest IH]; intros i st; cbn [settleLoop imap].
  - by rewrite app_nil_r.
  - rewrite IH, settleHand_outcomes, <- app_assoc. cbn [app]. do 2 f_equal.
    + unfold outcomeAt. by rewrite Nat.add_0_r.
    + apply imap_ext. intros j h _. cbn. by rewrite Nat.add_succ_r.
Qed.

Lemma settleLoop_total (rest : list Hand) (i : nat) (st : Q * list Outcome) :
  (fst (settleLoop handBets defaultBet dVal i rest st)
   == fst st + sumQ (map payoutOf
        (imap (fun j => outcomeAt handBets defaultBet dVal (i + j)) rest)))%Q.
Proof.
  revert i st. induction rest as [|hand rest IH]; intros i st; cbn [settleLoop imap].
  - cbn. ring.
  - rewrite IH, settleHand_total. cbn [map sumQ fold_right].
    rewrite Nat.add_0_r. fold (outcomeAt handBets defaultBet dVal i hand).
    rewrite <- Qplus_assoc. apply Qplus_comp; [reflexivity|].
    apply Qplus_comp; [reflexivity|].
    f_equiv. f_equal. apply imap_ext. intros j h _. cbn. by rewrite Nat.add_succ_r.
Qed.

End Settlement.

Section Resolve.

Import blackjackLogic.

Variables (playerHands : list Hand) (dealerHand : Hand) (bankroll0 : Q)
  (handBets : list Q) (defaultBet : Q)
  (dealerHitsSoft17 considerNaturalBlackjack : bool).

Abbreviation dealerShown := (fst (dealerDraw dealerHitsSoft17 dealerHand)).
Abbreviation dVal := (snd (dealerDraw dealerHitsSoft17 dealerHand)).
Abbreviation normal :=
  (normalResolution playerHands bankroll0 handBets defaultBet dealerShown dVal).

(** The three return paths of [resolveBlackjackRound]; no path throws. *)
Lemma resolve_unfold :
  resolveBlackjackRound playerHands dealerHand bankroll0 handBets defaultBet
    dealerHitsSoft17 considerNaturalBlackjack
  = Normal
      (match playerHands with
       | [h] =>
           if considerNaturalBlackjack && (length h =? 2)%nat && isBlackjack h then
             let bet0 := default defaultBet (handBets !! 0%nat) in
             if considerNaturalBlackjack && isBlackjack dealerShown then
               mkRoundResult (mathMax0 (bankroll0 + (0 + bet0))%Q)
                 [mkOutcome push bet0 21] dealerHand dVal
             else
               mkRoundResult (mathMax0 (bankroll0 + (0 + bet0 * (5 # 2)))%Q)
                 [mkOutcome blackjack bet0 21] dealerHand dVal
           else normal
       | _ => normal
       end).
Proof.
  unfold resolveBlackjackRound.
  destruct playerHands as [|h [|h' hs]]; cbn.
  - by rewrite andb_false_r.
  - destruct considerNaturalBlackjack; cbn; [|reflexivity].
    destruct (length h =? 2)%nat; cbn; [|reflexivity].
    destruct (isBlackjack h); cbn; [|reflexivity].
    destruct (isBlackjack _); reflexivity.
  - by rewrite andb_false_r.
Qed.

Lemma normal_outcomes :
  outcomes normal = imap (outcomeAt handBets defaultBet dVal) playerHands.
Proof.
  unfold normalResolution. cbn [outcomes].
  rewrite settleLoop_outcomes. cbn [snd app]. apply imap_ext. by intros.
Qed.

Lemma normal_bankroll :
  (bankroll normal
   == Qmax 0 (bankroll0 + sumQ (map payoutOf (outcomes normal))))%Q.
Proof.
  rewrite normal_outcomes. unfold normalResolution, mathMax0.
  cbn [bankroll]. rewrite settleLoop_total. cbn [fst].
  apply Q.max_compat; [reflexivity|].
  rewrite Qplus_0_l. apply Qplus_comp; [reflexivity|].
  f_equiv. reflexivity.
Qed.

Lemma classify_normal (p d : Z) :
  classify p d <> blackjack /\ classify p d <> surrender.
Proof.
  unfold classify.
  destruct (21 <? p), (21 <? d), (d <? p), (p <? d); split; discriminate.
Qed.

End Resolve.

(** Settlement against the dealer value the call returns. Whenever
    [resolveBlackjackRound] reaches normal settlement (natural
    handling does not end the round: it is not the case that naturals are
    considered, there is exactly one player hand and it is a natural), the
    call returns, with exactly one outcome per player hand, in input order;
    the outcome of hand [i] carries that hand's own bet
    ([handBets[i] ?? defaultBet]) and total, and is classified on its own,
    against the [dealerValue] of the result (which is the total of the
    dealer's final hand only when the draw loop started on that total):
    total over 21 is a bust paying 0; otherwise a dealer value over 21 is a
    win paying twice the bet; otherwise a higher total is a win paying twice
    the bet, a lower one a loss paying 0, an equal one a push paying the bet.
    The returned bankroll is the input bankroll plus the sum of these
    payouts, clamped at 0, and every outcome that is not a bust is a loss, a
    push or a win paying 0, the bet or twice the bet. *)
Theorem normal_settlement_per_hand
    (playerHands : list Hand) (dealerHand : Hand) (bankroll0 : Q)
    (handBets : list Q) (defaultBet : Q)
    (dealerHitsSoft17 considerNaturalBlackjack : bool) :
  (forall h, considerNaturalBlackjack = true -> playerHands = [h] ->
             blackjackLogic.isBlackjack h = false) ->
  exists r,
    blackjackLogic.resolveBlackjackRound playerHands dealerHand bankroll0
      handBets defaultBet dealerHitsSoft17 considerNaturalBlackjack = Normal r
    /\ length (blackjackLogic.outcomes r) = length playerHands
    /\ (forall (i : nat) (hand : Hand), playerHands !! i = Some hand ->
        exists o, blackjackLogic.outcomes r !! i = Some o
          /\ blackjackLogic.bet o = default defaultBet (handBets !! i)
          /\ blackjackLogic.playerValue o = blackjackLogic.calcValue hand
          /\ let p := blackjackLogic.calcValue hand in
             let d := blackjackLogic.dealerValue r in
             let b := blackjackLogic.bet o in
             let res := blackjackLogic.result o in
             (21 < p -> res = bust /\ (payoutOf o == 0)%Q)
             /\ (p <= 21 -> 21 < d -> res = win /\ (payoutOf o == b * 2)%Q)
             /\ (p <= 21 -> d <= 21 -> d < p -> res = win /\ (payoutOf o == b * 2)%Q)
             /\ (p <= 21 -> d <= 21 -> p < d -> res = loss /\ (payoutOf o == 0)%Q)
             /\ (p <= 21 -> d <= 21 -> p = d -> res = push /\ (payoutOf o == b)%Q))
    /\ (blackjackLogic.bankroll r
        == Qmax 0 (bankroll0 + sumQ (map payoutOf (blackjackLogic.outcomes r))))%Q
    /\ (forall o, o ∈ blackjackLogic.outcomes r ->
        blackjackLogic.result o <> bust ->
        (blackjackLogic.result o = loss /\ (payoutOf o == 0)%Q)
        \/ (blackjackLogic.result o = push /\ (payoutOf o == blackjackLogic.bet o)%Q)
        \/ (blackjackLogic.result o = win /\ (payoutOf o == blackjackLogic.bet o * 2)%Q)).
Proof.
  intros Hnormal.
  set (dVal := snd (blackjackLogic.dealerDraw dealerHitsSoft17 dealerHand)).
  set (dealerShown := fst (blackjackLogic.dealerDraw dealerHitsSoft17 dealerHand)).
  set (r := blackjackLogic.normalResolution playerHands bankroll0 handBets
              defaultBet dealerShown dVal).
  assert (Hr : blackjackLogic.resolveBlackjackRound playerHands dealerHand
                 bankroll0 handBets defaultBet dealerHitsSoft17
                 considerNaturalBlackjack = Normal r).
  { rewrite resolve_unfold. fold dVal dealerShown r.
    destruct playerHands as [|h [|h' hs]]; try reflexivity.
    destruct considerNaturalBlackjack; [|reflexivity].
    rewrite (Hnormal h eq_refl eq_refl), andb_false_r. reflexivity. }
  assert (Ho : blackjackLogic.outcomes r
               = imap (outcomeAt handBets defaultBet dVal) playerHands)
    by apply normal_outcomes.
  exists r. split; [exact Hr|]. split; [by rewrite Ho, length_imap|].
  split; [|split].
  - intros i hand Hi.
    exists (outcomeAt handBets defaultBet dVal i hand).
    split; [by rewrite Ho, list_lookup_imap, Hi|].
    split; [reflexivity|]. split; [reflexivity|].
    change (blackjackLogic.dealerValue r) with dVal.
    unfold outcomeAt, payoutOf, classify. cbn.
    destruct (Z.ltb_spec 21 (blackjackLogic.calcValue hand)),
      (Z.ltb_spec 21 dVal),
      (Z.ltb_spec dVal (blackjackLogic.calcValue hand)),
      (Z.ltb_spec (blackjackLogic.calcValue hand) dVal);
      repeat split; intros; try lia; try reflexivity.
  - apply normal_bankroll.
  - intros o Hin Hnb. rewrite Ho in Hin.
    apply list_elem_of_lookup in Hin as [i Hi].
    rewrite list_lookup_imap in Hi.
    destruct (playerHands !! i) as [hand|]; [|discriminate].
    injection Hi as <-. revert Hnb.
    unfold outcomeAt, payoutOf, classify. cbn.
    destruct (21 <? blackjackLogic.calcValue hand), (21 <? dVal),
      (dVal <? blackjackLogic.calcValue hand),
      (blackjackLogic.calcValue hand <? dVal); cbn; intros Hnb;
      try congruence; auto 6 using Qeq_refl.
Qed.

(** The repository's own sample call ([4, Q, K] against [6, 7], bet 25,
    bankroll 975) reaches normal settlement. *)
Lemma normal_settlement_witness :
  exists r,
    blackjackLogic.resolveBlackjackRound
      [[card "4" 4; card "Q" 10; card "K" 10]] [card "6" 6; card "7" 7]
      975%Q [25%Q] 25%Q true true = Normal r
    /\ length (blackjackLogic.outcomes r) = 1%nat.
Proof.
  destruct (normal_settlement_per_hand
              [[card "4" 4; card "Q" 10; card "K" 10]] [card "6" 6; card "7" 7]
              975%Q [25%Q] 25%Q true true) as (r & Hr & Hlen & _).
  - intros h _ [= <-]. reflexivity.
  - exists r. split; [exact Hr | exact Hlen].
Defined.

Lemma dealerDraw_short (dealerHitsSoft17 : bool) (dealerHand : Hand) :
  (length dealerHand <= 2)%nat ->
  blackjackLogic.dealerDraw dealerHitsSoft17 dealerHand
  = (dealerHand, blackjackLogic.calcValue dealerHand).
Proof.
  intros Hlen. unfold blackjackLogic.dealerDraw.
  rewrite drop_ge by done. rewrite Nat.min_r by done.
  rewrite take_ge by done. cbn.
  destruct (blackjackLogic.mustDraw _ _ _); reflexivity.
Qed.

(** Natural handling, with the dealer's natural judged as the code judges
    it. It applies exactly when naturals are considered, there
    is one player hand and it has two cards. Then: player and dealer both
    natural is a push returning the stake; a player natural alone is a
    blackjack returning 2.5 times the stake; otherwise the round is settled
    by the normal rules. When it does not apply (several hands, a hand of
    another length, or naturals not considered) the round is settled by the
    normal rules, and normal settlement never yields a blackjack outcome.
    The dealer's natural is judged on the dealer's hand as the draw loop
    leaves it, which is [dealerHand] itself when that has at most two cards
    and may differ from the two cards dealt when it has more. *)
Theorem natural_blackjack_handling
    (playerHands : list Hand) (dealerHand : Hand) (bankroll0 : Q)
    (handBets : list Q) (defaultBet : Q)
    (dealerHitsSoft17 considerNaturalBlackjack : bool) :
  let dealerShown := fst (blackjackLogic.dealerDraw dealerHitsSoft17 dealerHand) in
  let dVal := snd (blackjackLogic.dealerDraw dealerHitsSoft17 dealerHand) in
  let bet0 := default defaultBet (handBets !! 0%nat) in
  let r := blackjackLogic.resolveBlackjackRound playerHands dealerHand bankroll0
             handBets defaultBet dealerHitsSoft17 considerNaturalBlackjack in
  let normal := blackjackLogic.normalResolution playerHands bankroll0 handBets
                  defaultBet dealerShown dVal in
  (forall h, considerNaturalBlackjack = true -> playerHands = [h] ->
     length h = 2%nat ->
     (blackjackLogic.isBlackjack h = true ->
      blackjackLogic.isBlackjack dealerShown = true ->
      exists res, r = Normal res
        /\ blackjackLogic.outcomes res = [blackjackLogic.mkOutcome push bet0 21]
        /\ (blackjackLogic.bankroll res == Qmax 0 (bankroll0 + bet0))%Q)
     /\ (blackjackLogic.isBlackjack h = true ->
         blackjackLogic.isBlackjack dealerShown = false ->
         exists res, r = Normal res
           /\ blackjackLogic.outcomes res
              = [blackjackLogic.mkOutcome blackjack bet0 21]
           /\ (blackjackLogic.bankroll res
               == Qmax 0 (bankroll0 + bet0 * (5 # 2)))%Q)
     /\ (blackjackLogic.isBlackjack h = false -> r = Normal normal))
  /\ (considerNaturalBlackjack = false
      \/ length playerHands <> 1%nat
      \/ (exists h, playerHands = [h] /\ length h <> 2%nat) ->
      r = Normal normal)
  /\ (forall o, o ∈ blackjackLogic.outcomes normal ->
      blackjackLogic.result o <> blackjack)
  /\ ((length dealerHand <= 2)%nat -> dealerShown = dealerHand).
Proof.
  intros dealerShown dVal bet0 r normal.
  assert (Hr := resolve_unfold playerHands dealerHand bankroll0 handBets
                  defaultBet dealerHitsSoft17 considerNaturalBlackjack).
  fold r dealerShown dVal normal in Hr.
  split; [|split; [|split]].
  - intros h -> -> Hlen. rewrite Hr.
    apply Nat.eqb_eq in Hlen. rewrite Hlen. cbn [andb].
    split; [|split].
    + intros -> ->. eexists. split; [reflexivity|]. split; [reflexivity|].
      cbn [blackjackLogic.bankroll]. unfold blackjackLogic.mathMax0.
      apply Q.max_compat; [reflexivity|]. fold bet0. ring.
    + intros -> ->. eexists. split; [reflexivity|]. split; [reflexivity|].
      cbn [blackjackLogic.bankroll]. unfold blackjackLogic.mathMax0.
      apply Q.max_compat; [reflexivity|]. fold bet0. ring.
    + intros ->. reflexivity.
  - intros [-> | [Hlen | (h & -> & Hlen)]]; rewrite Hr.
    + destruct playerHands as [|h [|h' hs]]; reflexivity.
    + destruct playerHands as [|h [|h' hs]]; try reflexivity. by cbn in Hlen.
    + apply Nat.eqb_neq in Hlen. rewrite Hlen, andb_false_r. reflexivity.
  - intros o Hin. unfold normal, dealerShown, dVal in Hin.
    rewrite normal_outcomes in Hin.
    apply list_elem_of_lookup in Hin as [i Hi].
    rewrite list_lookup_imap in Hi.
    destruct (playerHands !! i) as [hand|]; [|discriminate].
    injection Hi as <-. apply classify_normal.
  - intros Hlen. unfold dealerShown. by rewrite dealerDraw_short.
Qed.

(** The specification's own scenario: a player natural [A, K] against a
    dealer [6, 9] is a blackjack, and 975 + 25 * 2.5 = 1037.5. *)
Lemma natural_blackjack_witness :
  exists res,
    blackjackLogic.resolveBlackjackRound [[card "A" 11; card "K" 10]]
      [card "6" 6; card "9" 9] 975%Q [25%Q] 25%Q true true = Normal res
    /\ blackjackLogic.outcomes res = [blackjackLogic.mkOutcome blackjack 25%Q 21]
    /\ (blackjackLogic.bankroll res == 2075 # 2)%Q.
Proof.
  destruct (natural_blackjack_handling [[card "A" 11; card "K" 10]]
              [card "6" 6; card "9" 9] 975%Q [25%Q] 25%Q true true)
    as (H & _).
  destruct (H [card "A" 11; card "K" 10] eq_refl eq_refl eq_refl)
    as (_ & Hbj & _).
  destruct (Hbj eq_refl eq_refl) as (res & Hres & Hout & Hbank).
  exists res. split; [exact Hres|]. split; [exact Hout|].
  rewrite Hbank. reflexivity.
Defined.

(** C4. On every return path of [resolveBlackjackRound] (the two natural
    returns included) the returned bankroll is the input bankroll plus the
    sum of the payouts of the returned outcomes, clamped at 0; it is never
    negative. *)
Theorem bankroll_clamped_at_zero
    (playerHands : list Hand) (dealerHand : Hand) (bankroll0 : Q)
    (handBets : list Q) (defaultBet : Q)
    (dealerHitsSoft17 considerNaturalBlackjack : bool) :
  exists r,
    blackjackLogic.resolveBlackjackRound playerHands dealerHand bankroll0
      handBets defaultBet dealerHitsSoft17 considerNaturalBlackjack = Normal r
    /\ (blackjackLogic.bankroll r
        == Qmax 0 (bankroll0 + sumQ (map payoutOf (blackjackLogic.outcomes r))))%Q
    /\ (0 <= blackjackLogic.bankroll r)%Q.
Proof.
  rewrite resolve_unfold. eexists. split; [reflexivity|].
  assert (Hpos : forall x, (0 <= blackjackLogic.mathMax0 x)%Q)
    by (intros x; apply Q.le_max_l).
  assert (Hnormal := normal_bankroll playerHands dealerHand bankroll0 handBets
                       defaultBet dealerHitsSoft17).
  destruct playerHands as [|h [|h' hs]];
    [split; [exact Hnormal | apply Hpos] | | split; [exact Hnormal | apply Hpos]].
  destruct (considerNaturalBlackjack && (length h =? 2)%nat
            && blackjackLogic.isBlackjack h);
    [|split; [exact Hnormal | apply Hpos]].
  cbv zeta.
  destruct (considerNaturalBlackjack && blackjackLogic.isBlackjack _);
    (split; [|apply Hpos]); cbn [blackjackLogic.bankroll blackjackLogic.outcomes];
    unfold blackjackLogic.mathMax0; (apply Q.max_compat; [reflexivity|]);
    unfold payoutOf; cbn; ring.
Qed.

(** ** The dealer's forced draw *)

(** Started on the value of the hand it holds, the resolver's loop obeys the
    draw law. *)
Lemma drawLoop_law (dealerHitsSoft17 : bool) (rest : list Card) (shown : Hand) :
  let r := blackjackLogic.drawLoop dealerHitsSoft17 rest shown
             (blackjackLogic.calcValue shown) in
  drawLaw (blackjackLogic.mustDraw dealerHitsSoft17) blackjackLogic.calcValue
    rest shown (fst r) (snd r).
Proof.
  revert shown. induction rest as [|c rest IH]; intros shown; cbn.
  - exists 0%nat. cbn. rewrite app_nil_r.
    destruct (blackjackLogic.mustDraw _ _ _) eqn:E; cbn;
      repeat split; auto; intros; lia.
  - destruct (blackjackLogic.mustDraw dealerHitsSoft17 _ shown) eqn:E.
    + specialize (IH (shown ++ [c])). cbv zeta in IH.
      draw_law_step IH c rest.
    + exists 0%nat. cbn. rewrite app_nil_r. repeat split; auto; intros; lia.
Qed.

(** The interactive dealer of App.jsx always starts on the value of the hand
    it holds, and obeys the draw law (with its own soft test). *)
Lemma dealerLoop_law (dealerHitsSoft17 : bool) (supply : list Card) (hand : Hand) :
  let r := App.dealerLoop dealerHitsSoft17 supply hand
             (App.calculateHandValue hand) in
  drawLaw (App.dealerMustHit dealerHitsSoft17) App.calculateHandValue
    supply hand (fst (fst r)) (snd (fst r)).
Proof.
  revert hand. induction supply as [|c rest IH]; intros hand; cbn.
  - exists 0%nat. cbn. rewrite app_nil_r.
    destruct (App.dealerMustHit _ _ _) eqn:E; cbn;
      repeat split; auto; intros; lia.
  - destruct (App.dealerMustHit dealerHitsSoft17 _ hand) eqn:E.
    + specialize (IH (hand ++ [c])). cbv zeta in IH.
      draw_law_step IH c rest.
    + exists 0%nat. cbn. rewrite app_nil_r. repeat split; auto; intros; lia.
Qed.

(** The resolver obeys the law when the total of the whole [dealerHand] array
    is the total of the two cards shown, for one when no supply follows. *)
Lemma dealerDraw_law (dealerHitsSoft17 : bool) (dealerHand : Hand) :
  blackjackLogic.calcValue dealerHand
  = blackjackLogic.calcValue (take 2 dealerHand) ->
  let r := blackjackLogic.dealerDraw dealerHitsSoft17 dealerHand in
  drawLaw (blackjackLogic.mustDraw dealerHitsSoft17) blackjackLogic.calcValue
    (drop 2 dealerHand) (take 2 dealerHand) (fst r) (snd r).
Proof.
  intros Hv. unfold blackjackLogic.dealerDraw.
  replace (take (Nat.min 2 (length dealerHand)) dealerHand)
    with (take 2 dealerHand).
  - rewrite Hv. apply drawLoop_law.
  - destruct dealerHand as [|a [|b l]]; reflexivity.
Qed.

(** C2, at the inputs where the code departs from it. The resolver starts
    its loop on the total of the whole [dealerHand] array, supply included,
    and not on the total of the two cards shown. With [6, 7] shown and a 4
    to draw, the array totals 17: the loop never runs, the dealer keeps
    [6, 7], a hand of 13, with a card left in the supply, and the value
    returned, 17, is not the value of the hand returned. With [10, 7] shown
    and a 5 in the supply, the dealer stands on 17 but is valued 22, so a
    player's 16 is paid as a win. *)
Theorem dealer_draw_starts_on_whole_array :
  let six := card "6" 6 in
  let seven := card "7" 7 in
  let four := card "4" 4 in
  let ten := card "10" 10 in
  let five := card "5" 5 in
  blackjackLogic.dealerDraw true [six; seven; four] = ([six; seven], 17)
  /\ blackjackLogic.mustDraw true (blackjackLogic.calcValue [six; seven])
       [six; seven] = true
  /\ drop 2 [six; seven; four] = [four]
  /\ ~ drawLaw (blackjackLogic.mustDraw true) blackjackLogic.calcValue
         [four] [six; seven]
         (fst (blackjackLogic.dealerDraw true [six; seven; four]))
         (snd (blackjackLogic.dealerDraw true [six; seven; four]))
  /\ blackjackLogic.dealerDraw true [ten; seven; five] = ([ten; seven], 22)
  /\ blackjackLogic.resolveBlackjackRound [[ten; six]] [ten; seven; five]
       975%Q [25%Q] 25%Q true true
     = Normal (blackjackLogic.mkRoundResult (Qmax 0 (975 + (0 + 25 * 2)))
                 [blackjackLogic.mkOutcome win 25%Q 16] [ten; seven] 22)
  /\ App.dealerPlay true [six; seven] [four] = ([six; seven; four], []).
Proof.
  cbv zeta. repeat split; try reflexivity.
  intros (k & Hk & Hs & Hv & Hd & He). cbn in *.
  destruct He as [He | He]; [discriminate|]. subst k.
  cbn in Hs. discriminate.
Qed.

(** C1, at an input where the code departs from it. The dealer total the
    settlement loop compares with is the one the draw loop leaves, and that
    loop starts on the total of the whole [dealerHand] array. With [10, 7]
    dealt to the dealer and a 5 next in the supply, the array totals 22: the
    dealer draws nothing and ends with [10, 7], a hand of 17, but a player's
    [10, 6], a hand of 16, is classified against 22: a win paying twice the
    bet of 25, and a bankroll of 1025, where the rule of the specification
    (player total below dealer total) gives a loss paying 0 and a bankroll of
    975. So the rule does not hold of every round that reaches normal
    settlement. *)
Theorem settlement_reads_array_total :
  let ten := card "10" 10 in
  let six := card "6" 6 in
  let seven := card "7" 7 in
  let five := card "5" 5 in
  (exists r,
     blackjackLogic.resolveBlackjackRound [[ten; six]] [ten; seven; five]
       975%Q [25%Q] 25%Q true true = Normal r
     /\ blackjackLogic.dealerFinalHand r = [ten; seven]
     /\ blackjackLogic.calcValue (blackjackLogic.dealerFinalHand r) = 17
     /\ blackjackLogic.calcValue [ten; six] = 16
     /\ classify 16 17 = loss
     /\ blackjackLogic.dealerValue r = 22
     /\ blackjackLogic.outcomes r = [blackjackLogic.mkOutcome win 25%Q 16]
     /\ (sumQ (map payoutOf (blackjackLogic.outcomes r)) == 50)%Q
     /\ (blackjackLogic.bankroll r == 1025)%Q)
  /\ ~ settlementAsStated.
Proof.
  cbv zeta. split.
  - eexists. repeat split.
  - intros H.
    specialize (H [[card "10" 10; card "6" 6]]
                  [card "10" 10; card "7" 7; card "5" 5]
                  975%Q [25%Q] 25%Q true true _
                  ltac:(intros h _ [= <-]; reflexivity) eq_refl
                  0%nat _ _ eq_refl eq_refl).
    discriminate H.
Qed.

(** C3, at an input where the code departs from it. The dealer's natural is
    judged on the hand the draw loop leaves, and that loop starts on the
    total of the whole [dealerHand] array. A dealer dealt [A, K], a natural,
    with a 5 next in the supply, totals 16 as an array: the loop draws the 5,
    the dealer no longer holds two cards, and a player natural [A, Q] is paid
    as a blackjack, 2.5 times the bet of 25 and a bankroll of 1037.5, where
    the specification (player and dealer both natural) gives a push that
    returns the stake, a bankroll of 1000. *)
Theorem dealer_natural_lost_to_supply :
  let ace := card "A" 11 in
  let king := card "K" 10 in
  let queen := card "Q" 10 in
  let five := card "5" 5 in
  blackjackLogic.isBlackjack [ace; queen] = true
  /\ take 2 [ace; king; five] = [ace; king]
  /\ blackjackLogic.isBlackjack [ace; king] = true
  /\ blackjackLogic.dealerDraw true [ace; king; five] = ([ace; king; five], 16)
  /\ (exists r,
        blackjackLogic.resolveBlackjackRound [[ace; queen]] [ace; king; five]
          975%Q [25%Q] 25%Q true true = Normal r
        /\ blackjackLogic.outcomes r = [blackjackLogic.mkOutcome blackjack 25%Q 21]
        /\ (blackjackLogic.bankroll r == 2075 # 2)%Q
        /\ blackjackLogic.dealerFinalHand r = [ace; king; five]
        /\ blackjackLogic.dealerValue r = 16)
  /\ ~ naturalsAsStated.
Proof.
  cbv zeta. repeat split.
  - eexists. repeat split.
  - intros H.
    destruct (H [card "A" 11; card "Q" 10]
                [card "A" 11; card "K" 10; card "5" 5]
                975%Q [25%Q] 25%Q true _ eq_refl eq_refl eq_refl) as [Ho _].
    discriminate Ho.
Qed.

(** ** Soft hands *)

Lemma aceCount_pos (hand : Hand) :
  (0 <? aceCount hand)%nat = existsb isAce hand.
Proof.
  induction hand as [|c hand IH]; [reflexivity|].
  rewrite aceCount_cons. cbn [existsb]. destruct (isAce c); [reflexivity|].
  exact IH.
Qed.

Lemma nominal_aceLow (hand : Hand) :
  wellFormed hand -> nominal hand = aceLow hand + 10 * Z.of_nat (aceCount hand).
Proof.
  induction 1 as [|c hand Hc _ IH]; [reflexivity|].
  rewrite nominal_cons, aceLow_cons, aceCount_cons, IH.
  destruct (isAce c); [rewrite Hc by reflexivity|]; lia.
Qed.

(** [isSoftHand] of App.jsx: an Ace, and the total with every Ace at 11 is
    at most 21. *)
Lemma isSoftHand_eq (hand : Hand) :
  App.isSoftHand hand = existsb isAce hand && (nominal hand <=? 21).
Proof.
  unfold App.isSoftHand. rewrite softHandStep_fold. cbn [fst snd orb].
  rewrite Z.add_0_l.
  destruct (existsb isAce hand), (nominal hand <=? 21); reflexivity.
Qed.

(** [isSoft] of blackjackLogic.js: an Ace, and the total with every Ace at 1,
    plus 10, is at most 21. *)
Lemma isSoft_eq (hand : Hand) :
  blackjackLogic.isSoft hand = (0 <? aceCount hand)%nat && (aceLow hand + 10 <=? 21).
Proof. unfold blackjackLogic.isSoft. rewrite softStep_fold. reflexivity. Qed.

Lemma softAfterReduction_formula (hand : Hand) :
  softAfterReduction hand = softByFormula hand.
Proof.
  unfold softAfterReduction, softByFormula. rewrite totalState_eq.
  apply eq_true_iff_eq. rewrite !andb_true_iff, Z.leb_le, !Nat.ltb_lt.
  rewrite reduceAces_keeps_ace. tauto.
Qed.

(** The resolver's [isSoft] is the soft test of the specification, in both
    of its readings, on hands whose Aces are worth 11. *)
Lemma isSoft_correct (hand : Hand) :
  wellFormed hand ->
  blackjackLogic.isSoft hand = softAfterReduction hand
  /\ blackjackLogic.isSoft hand = softByFormula hand.
Proof.
  intros Hwf.
  assert (H : blackjackLogic.isSoft hand = softByFormula hand).
  { rewrite isSoft_eq. unfold softByFormula. rewrite (nominal_aceLow hand Hwf).
    f_equal. apply eq_true_iff_eq. rewrite !Z.leb_le. lia. }
  split; [by rewrite softAfterReduction_formula | exact H].
Qed.

(** [isSoftHand] never calls a hard hand soft. *)
Lemma isSoftHand_sound (hand : Hand) :
  App.isSoftHand hand = true -> softAfterReduction hand = true.
Proof.
  rewrite isSoftHand_eq, andb_true_iff, Z.leb_le. intros [Hace Hv].
  unfold softAfterReduction. rewrite totalState_eq, aceCount_pos, Hace.
  rewrite reduceAces_le21 by exact Hv. cbn [snd andb].
  by rewrite aceCount_pos.
Qed.

(** C5, at the input where the code departs from it. A pair of Aces totals
    12 with one Ace still counted as 11: it is soft in the words of the
    specification and by its formula, and the resolver's [isSoft] says so;
    [isSoftHand] of App.jsx compares the total with both Aces at 11 (22)
    against 21 and answers false. *)
Theorem isSoftHand_misses_second_ace :
  let hand := [card "A" 11; card "A" 11] in
  App.isSoftHand hand = false
  /\ App.calculateHandValue hand = 12
  /\ totalState hand = (12, 1%nat)
  /\ softAfterReduction hand = true
  /\ softByFormula hand = true
  /\ blackjackLogic.isSoft hand = true.
Proof. cbv zeta. repeat split. Qed.

(** ** The soft-hand table of the strategy *)

Lemma upCardValue_eq (c : Card) : App.upCardValue c = value c.
Proof.
  unfold App.upCardValue. destruct (Z.eqb_spec (value c) 11) as [->|];
    [destruct (isAce c)|]; reflexivity.
Qed.

Lemma sameRankPair_eq (hand : Hand) :
  App.sameRankPair hand
  = Normal (match hand with
            | [a; b] => String.eqb (rank a) (rank b)
            | _ => false
            end).
Proof. destruct hand as [|a [|b [|c l]]]; reflexivity. Qed.

Lemma softRule_amended (p d : Z) (canDouble : bool) :
  App.softRule p d canDouble = softRuleAmended p d canDouble.
Proof.
  unfold App.softRule, softRuleAmended, App.includes. cbn [existsb].
  destruct canDouble;
    destruct (Z.leb_spec 19 p), (Z.eqb_spec p 18), (Z.leb_spec 17 p),
      (Z.eqb_spec p 17), (Z.leb_spec 15 p), (Z.leb_spec p 16),
      (Z.leb_spec 13 p), (Z.leb_spec p 14); try lia; cbn;
    destruct (Z.eqb_spec d 3), (Z.eqb_spec d 4), (Z.eqb_spec d 5),
      (Z.eqb_spec d 6); try lia; cbn; reflexivity.
Qed.

(** C6 as stated fails: soft 17 (Ace, 6) against a dealer 4 with doubling not
    available is answered "hit", where the table as stated says "double". *)
Lemma soft_strategy_as_stated_fails : ~ softStrategyAsStated.
Proof.
  intros H.
  specialize (H [card "A" 11; card "6" 6] (card "4" 4) false true true
                eq_refl eq_refl).
  discriminate H.
Qed.

(** C6, amended. For every hand that [isSoftHand] classifies as soft (an Ace,
    and at most 21 with every Ace at 11) and that does not take the
    pair-splitting branch, and every dealer up-card: stand on 19 or more; on
    18 double against 3 to 6 when doubling is available, else hit against 9
    or more, else stand; on 17 double against 3 to 6, on 15 and 16 against 4
    to 6, on 13 and 14 against 5 and 6, each when doubling is available;
    otherwise hit. *)
Theorem soft_strategy_amended
    (hand : Hand) (upCard : Card) (canDouble canSplit canSurrender : bool) :
  App.isSoftHand hand = true ->
  takesSplit hand (value upCard) canSplit = false ->
  App.getOptimalAction (Some hand) (Some upCard) canDouble canSplit canSurrender
  = Normal (softRuleAmended (App.calculateHandValue hand) (value upCard) canDouble).
Proof.
  intros Hsoft Hsplit. unfold App.getOptimalAction.
  destruct hand as [|a hand]; [discriminate Hsoft|]. cbn [length Nat.eqb].
  rewrite sameRankPair_eq, upCardValue_eq, Hsoft. cbn [bindC].
  rewrite <- softRule_amended.
  destruct hand as [|b [|c l]]; cbn [andb bindC]; try reflexivity.
  cbn [takesSplit] in Hsplit.
  destruct (String.eqb (rank a) (rank b)), canSplit; cbn [andb bindC] in *;
    try reflexivity.
  cbn [lookup list_lookup prop bindC].
  destruct (App.pairRule (rank a) (value upCard)); [discriminate|reflexivity].
Qed.

(** Soft 18 (Ace, 7) against a dealer 9: hit. *)
Lemma soft_strategy_witness :
  App.getOptimalAction (Some [card "A" 11; card "7" 7]) (Some (card "9" 9))
    true true true = Normal hit.
Proof.
  exact (soft_strategy_amended [card "A" 11; card "7" 7] (card "9" 9)
           true true true eq_refl eq_refl).
Defined.

(** ** No operation throws *)

Lemma canSplit_total (hand : Hand) : exists b, App.canSplit hand = Normal b.
Proof. unfold App.canSplit. rewrite sameRankPair_eq. eauto. Qed.

Lemma getOptimalAction_total (playerHand : option Hand) (dealerUpCard : option Card)
    (canDouble canSplit canSurrender : bool) :
  exists a, App.getOptimalAction playerHand dealerUpCard canDouble canSplit
              canSurrender = Normal a.
Proof.
  unfold App.getOptimalAction.
  destruct playerHand as [hand|], dealerUpCard as [up|]; eauto.
  destruct (length hand =? 0)%nat; eauto.
  rewrite sameRankPair_eq.
  destruct hand as [|a [|b [|c l]]]; cbn [bindC andb]; eauto;
    try (destruct (App.isSoftHand _); eauto; fail).
  destruct (String.eqb (rank a) (rank b) && canSplit); cbn [bindC];
    [cbn [lookup list_lookup prop bindC];
     destruct (App.pairRule _ _); eauto|];
    destruct (App.isSoftHand _); eauto.
Qed.

Lemma makeScenarioKey_total (hand : Hand) (upCard : Card) :
  exists key, App.makeScenarioKey hand upCard = Normal key.
Proof.
  unfold App.makeScenarioKey. rewrite sameRankPair_eq.
  destruct hand as [|a [|b [|c l]]]; cbn [bindC];
    try (destruct (App.isSoftHand _); eauto; fail).
  destruct (String.eqb (rank a) (rank b)); cbn; eauto.
  destruct (App.isSoftHand _); eauto.
Qed.

Lemma recordDecision_total (now : Z) (hand : option Hand) (upCard : option Card)
    (act : Action) (st : App.Recorder) :
  exists st', App.recordDecision now hand upCard act st = Normal st'.
Proof.
  unfold App.recordDecision.
  destruct upCard as [up|], hand as [h|]; eauto.
  destruct (length h =? 0)%nat; eauto.
  destruct (makeScenarioKey_total h up) as [key ->].
  destruct (getOptimalAction_total (Some h) (Some up) true true true) as [opt ->].
  cbn [bindC]. eauto.
Qed.

(** C9. The empty hand has total 0 and is neither soft, nor a pair, nor a
    natural, in both files; [getOptimalAction] answers "hit" for an empty
    hand and for a missing hand or up-card; and the pair test, the strategy
    engine, the recorder and the round resolver return a value, and never
    throw, on every input of their types. *)
Theorem missing_input_never_raises :
  blackjackLogic.calcValue [] = 0
  /\ App.calculateHandValue [] = 0
  /\ blackjackLogic.isSoft [] = false
  /\ App.isSoftHand [] = false
  /\ App.canSplit [] = Normal false
  /\ blackjackLogic.isBlackjack [] = false
  /\ (forall d canDouble canSplit canSurrender,
        App.getOptimalAction (Some []) d canDouble canSplit canSurrender
        = Normal hit)
  /\ (forall h canDouble canSplit canSurrender,
        App.getOptimalAction h None canDouble canSplit canSurrender
        = Normal hit)
  /\ (forall d canDouble canSplit canSurrender,
        App.getOptimalAction None d canDouble canSplit canSurrender
        = Normal hit)
  /\ (forall hand, exists b, App.canSplit hand = Normal b)
  /\ (forall h d canDouble canSplit canSurrender,
        exists a, App.getOptimalAction h d canDouble canSplit canSurrender
                  = Normal a)
  /\ (forall now h d act st,
        exists st', App.recordDecision now h d act st = Normal st')
  /\ (forall playerHands dealerHand bankroll0 handBets defaultBet
             dealerHitsSoft17 considerNaturalBlackjack,
        exists r, blackjackLogic.resolveBlackjackRound playerHands dealerHand
                    bankroll0 handBets defaultBet dealerHitsSoft17
                    considerNaturalBlackjack = Normal r).
Proof.
  do 6 (split; [reflexivity|]).
  split; [intros [d|] ? ? ?; reflexivity|].
  split; [intros [h|] ? ? ?; reflexivity|].
  split; [intros [d|] ? ? ?; reflexivity|].
  split; [exact canSplit_total|].
  split; [exact getOptimalAction_total|].
  split; [exact recordDecision_total|].
  intros. rewrite resolve_unfold. eauto.
Qed.

(** ** The decision recorder *)

(** The scenario key is a function of the recorder's own classification of
    the hand and of the dealer's rank: suits, card order and the cards that
    make up a total play no part. *)
Lemma makeScenarioKey_shape (hand : Hand) (upCard : Card) :
  App.makeScenarioKey hand upCard = Normal (keyOfShape (shapeOf hand) (rank upCard)).
Proof.
  unfold App.makeScenarioKey, shapeOf. rewrite sameRankPair_eq.
  destruct hand as [|a [|b [|c l]]]; cbn [bindC];
    try (destruct (App.isSoftHand _); reflexivity).
  destruct (String.eqb (rank a) (rank b)); cbn [bindC];
    [reflexivity | destruct (App.isSoftHand _); reflexivity].
Qed.

Lemma makeScenarioKey_stable (h1 h2 : Hand) (d1 d2 : Card) :
  shapeOf h1 = shapeOf h2 -> rank d1 = rank d2 ->
  App.makeScenarioKey h1 d1 = App.makeScenarioKey h2 d2.
Proof. intros Hs Hd. by rewrite !makeScenarioKey_shape, Hs, Hd. Qed.

(** Hard 16 as [10, 6] and as [7, 9] against a dealer 10: one key. *)
Example hard16_keys_agree :
  App.makeScenarioKey [card "10" 10; card "6" 6] (card "10" 10) = Normal "hard_16_vs_10"
  /\ App.makeScenarioKey [card "7" 7; card "9" 9] (card "10" 10) = Normal "hard_16_vs_10".
Proof. split; vm_compute; reflexivity. Qed.

(** What one recorded decision does to the statistics: the scenario of the
    hand it is given gains one occurrence and one use of the action, and one
    correct decision exactly when the action is the optimal one; every other
    scenario and every other action count is untouched. *)
Lemma recordDecision_counts (now : Z) (hand : Hand) (upCard : Card)
    (act : Action) (st : App.Recorder) :
  hand <> [] ->
  exists key opt st',
    App.makeScenarioKey hand upCard = Normal key
    /\ App.getOptimalAction (Some hand) (Some upCard) true true true = Normal opt
    /\ App.recordDecision now (Some hand) (Some upCard) act st = Normal st'
    /\ let old := default (App.mkScenario 0 ∅ opt 0) (App.scenarioStats st !! key) in
       exists sc, App.scenarioStats st' !! key = Some sc
         /\ App.count sc = App.count old + 1
         /\ App.actions sc !! App.actionName act
            = Some (default 0 (App.actions old !! App.actionName act) + 1)
         /\ (forall name, name <> App.actionName act ->
             App.actions sc !! name = App.actions old !! name)
         /\ App.correctDecisions sc
            = (if App.Action_eqb act opt then App.correctDecisions old + 1
               else App.correctDecisions old)
         /\ (forall k, k <> key ->
             App.scenarioStats st' !! k = App.scenarioStats st !! k).
Proof.
  intros Hne.
  destruct (makeScenarioKey_total hand upCard) as [key Hkey].
  destruct (getOptimalAction_total (Some hand) (Some upCard) true true true)
    as [opt Hopt].
  unfold App.recordDecision. rewrite Hkey, Hopt.
  destruct hand as [|c hand]; [done|]. cbn [length Nat.eqb bindC].
  exists key, opt. eexists. do 3 (split; [reflexivity|]).
  cbn [App.scenarioStats]. unfold App.updateScenario.
  eexists. split; [apply lookup_insert_eq|].
  cbn [App.count App.actions App.correctDecisions].
  split; [reflexivity|]. split; [apply lookup_insert_eq|].
  split; [intros name Hname; by apply lookup_insert_ne|].
  split; [reflexivity|]. intros k Hk. by apply lookup_insert_ne.
Qed.

(** C7, at the input where the code departs from it. Splitting a pair of 8s
    against a dealer 7: the hand at the moment of the decision is the pair,
    its scenario is [pair_8_vs_7] and its optimal action is "split". The
    [split] handler hands [recordDecision] the one-card hand [8]: the
    decision is filed under [hard_8_vs_7], compared against "hit", and not
    counted as correct. The [hit] handler, on the same state, passes the
    whole hand. *)
Theorem split_records_one_card :
  let pair := [card "8" 8; card "8" 8] in
  let up := card "7" 7 in
  let dealer := [up; card "K" 10] in
  let deck := [card "5" 5] in
  let call := App.split_records [pair] 0 dealer 1000%Q 25%Q deck in
  App.makeScenarioKey pair up = Normal "pair_8_vs_7"
  /\ App.getOptimalAction (Some pair) (Some up) true true true = Normal split
  /\ call = Some (Some [card "8" 8], Some up, split)
  /\ App.hit_records [pair] 0 dealer deck = Some (Some pair, Some up, hit)
  /\ exists st', App.recordCall 0 call (App.mkRecorder [] ∅) = Normal st'
       /\ (App.scenarioKey <$> App.decisionHistory st') = ["hard_8_vs_7"]
       /\ (App.optimalAction <$> App.decisionHistory st') = [hit]
       /\ (App.isOptimal <$> App.decisionHistory st') = [false]
       /\ App.scenarioStats st' !! "pair_8_vs_7" = None
       /\ (App.count <$> App.scenarioStats st' !! "hard_8_vs_7") = Some 1
       /\ (App.correctDecisions <$> App.scenarioStats st' !! "hard_8_vs_7") = Some 0.
Proof.
  cbv zeta. do 4 (split; [vm_compute; reflexivity|]).
  eexists. split; [vm_compute; reflexivity|].
  repeat split; vm_compute; reflexivity.
Qed.

(** C8, at the input where the code departs from it. [A, 7] and [A, A, 6]
    are both soft 18 (an Ace still counted as 11, total 18) and neither is a
    pair; against the same dealer 10 the recorder files the first under
    [soft_18_vs_10] and the second, which [isSoftHand] takes for a hard hand,
    under [hard_18_vs_10]. *)
Theorem soft18_keys_differ :
  let h1 := [card "A" 11; card "7" 7] in
  let h2 := [card "A" 11; card "A" 11; card "6" 6] in
  let up := card "10" 10 in
  softAfterReduction h1 = true /\ softAfterReduction h2 = true
  /\ App.calculateHandValue h1 = 18 /\ App.calculateHandValue h2 = 18
  /\ App.sameRankPair h1 = Normal false /\ App.sameRankPair h2 = Normal false
  /\ App.makeScenarioKey h1 up = Normal "soft_18_vs_10"
  /\ App.makeScenarioKey h2 up = Normal "hard_18_vs_10"
  /\ App.makeScenarioKey h1 up <> App.makeScenarioKey h2 up.
Proof.
  cbv zeta. do 8 (split; [vm_compute; reflexivity|]).
  vm_compute. discriminate.
Qed.

(** ** The resolver writes to nothing it was given *)

Section StoreReads.

Import Store.

Implicit Types (h : heap) (l c : loc).

Lemma cardsAt_mono h h' (cards : list loc) (hand : Hand) :
  h ⊆ h' -> cardsAt h cards = Some hand -> cardsAt h' cards = Some hand.
Proof.
  intros Hsub. revert hand. induction cards as [|c cards IH]; intros hand; cbn; [done|].
  destruct (h !! c) as [[card| | | |]|] eqn:Hc; try discriminate.
  destruct (cardsAt h cards) as [rest|]; [|discriminate].
  intros [= <-]. rewrite (lookup_weaken _ _ _ _ Hc Hsub), (IH rest eq_refl).
  reflexivity.
Qed.

Lemma handAt_mono h h' l (hand : Hand) :
  h ⊆ h' -> handAt h l = Some hand -> handAt h' l = Some hand.
Proof.
  intros Hsub. unfold handAt.
  destruct (h !! l) as [[|cards| | |]|] eqn:Hl; try discriminate.
  rewrite (lookup_weaken _ _ _ _ Hl Hsub). by apply cardsAt_mono.
Qed.

Lemma handsAt_mono h h' (hands : list loc) (phs : list Hand) :
  h ⊆ h' -> handsAt h hands = Some phs -> handsAt h' hands = Some phs.
Proof.
  intros Hsub. revert phs. induction hands as [|l hands IH]; intros phs; cbn; [done|].
  destruct (handAt h l) as [hand|] eqn:Hl; [|discriminate].
  destruct (handsAt h hands) as [rest|]; [|discriminate].
  intros [= <-]. rewrite (handAt_mono _ _ _ _ Hsub Hl), (IH rest eq_refl).
  reflexivity.
Qed.

(** Writing an outcome array over an outcome array changes no hand. *)
Lemma cardsAt_outcomes h l (os os' : list blackjackLogic.Outcome) (cards : list loc) :
  h !! l = Some (OutcomeArray os) ->
  cardsAt (<[l := OutcomeArray os']> h) cards = cardsAt h cards.
Proof.
  intros Hl. induction cards as [|c cards IH]; cbn; [done|]. rewrite IH.
  destruct (decide (l = c)) as [->|Hne].
  - by rewrite lookup_insert_eq, Hl.
  - by rewrite lookup_insert_ne.
Qed.

Lemma handAt_outcomes h l (os os' : list blackjackLogic.Outcome) (l' : loc) :
  h !! l = Some (OutcomeArray os) ->
  handAt (<[l := OutcomeArray os']> h) l' = handAt h l'.
Proof.
  intros Hl. unfold handAt. destruct (decide (l = l')) as [->|Hne].
  - by rewrite lookup_insert_eq, Hl.
  - rewrite lookup_insert_ne by done.
    destruct (h !! l') as [[| | | |]|]; try done. by eapply cardsAt_outcomes.
Qed.

Lemma handsAt_outcomes h l (os os' : list blackjackLogic.Outcome) (hands : list loc) :
  h !! l = Some (OutcomeArray os) ->
  handsAt (<[l := OutcomeArray os']> h) hands = handsAt h hands.
Proof.
  intros Hl. induction hands as [|l' hands IH]; cbn; [done|].
  by rewrite IH, (handAt_outcomes _ _ _ _ _ Hl).
Qed.

Lemma cardsAt_length h (cards : list loc) (hand : Hand) :
  cardsAt h cards = Some hand -> length hand = length cards.
Proof.
  revert hand. induction cards as [|c cards IH]; intros hand; cbn.
  - by intros [= <-].
  - destruct (h !! c) as [[card| | | |]|]; try discriminate.
    destruct (cardsAt h cards) as [rest|]; [|discriminate].
    intros [= <-]. cbn. by rewrite (IH rest).
Qed.

Lemma cardsAt_lookup h (cards : list loc) (hand : Hand) (i : nat) c :
  cardsAt h cards = Some hand -> cards !! i = Some c ->
  exists card, h !! c = Some (CardObj card) /\ hand !! i = Some card.
Proof.
  revert hand i. induction cards as [|c' cards IH]; intros hand i; cbn; [done|].
  destruct (h !! c') as [[card| | | |]|] eqn:Hc; try discriminate.
  destruct (cardsAt h cards) as [rest|]; [|discriminate].
  intros [= <-]. destruct i as [|i]; cbn.
  - intros [= <-]. eauto.
  - intros Hi. by apply (IH rest).
Qed.

Lemma cardsAt_snoc h (cards : list loc) (hand : Hand) c (card : Card) :
  cardsAt h cards = Some hand -> h !! c = Some (CardObj card) ->
  cardsAt h (cards ++ [c]) = Some (hand ++ [card]).
Proof.
  revert hand. induction cards as [|c' cards IH]; intros hand; cbn.
  - intros [= <-] ->. reflexivity.
  - destruct (h !! c') as [[card'| | | |]|]; try discriminate.
    destruct (cardsAt h cards) as [rest|]; [|discriminate].
    intros [= <-] Hc. by rewrite (IH rest eq_refl Hc).
Qed.

Lemma cardsAt_take h (cards : list loc) (hand : Hand) (n : nat) :
  cardsAt h cards = Some hand -> cardsAt h (take n cards) = Some (take n hand).
Proof.
  revert hand n. induction cards as [|c cards IH]; intros hand n; cbn.
  - intros [= <-]. by destruct n.
  - destruct (h !! c) as [[card| | | |]|] eqn:Hc; try discriminate.
    destruct (cardsAt h cards) as [rest|]; [|discriminate].
    intros [= <-]. destruct n as [|n]; cbn; [done|].
    by rewrite Hc, (IH rest n eq_refl).
Qed.

Lemma handsAt_lookup h (hands : list loc) (phs : list Hand) (i : nat) :
  handsAt h hands = Some phs ->
  match hands !! i with
  | Some l => exists hand, handAt h l = Some hand /\ phs !! i = Some hand
  | None => phs !! i = None
  end.
Proof.
  revert phs i. induction hands as [|l hands IH]; intros phs i; cbn.
  - intros [= <-]. done.
  - destruct (handAt h l) as [hand|] eqn:Hl; [|discriminate].
    destruct (handsAt h hands) as [rest|]; [|discriminate].
    intros [= <-]. destruct i as [|i]; cbn; [eauto|]. by apply (IH rest).
Qed.

Lemma handsAt_length h (hands : list loc) (phs : list Hand) :
  handsAt h hands = Some phs -> length phs = length hands.
Proof.
  revert phs. induction hands as [|l hands IH]; intros phs; cbn.
  - by intros [= <-].
  - destruct (handAt h l) as [hand|]; [|discriminate].
    destruct (handsAt h hands) as [rest|]; [|discriminate].
    intros [= <-]. cbn. by rewrite (IH rest).
Qed.

(** Allocation: a location the store does not use, and nothing else changes. *)
Lemma alloc_fresh h (o : object) :
  let l := fresh (dom h) in
  alloc o h = Done l (<[l := o]> h) /\ h !! l = None /\ h ⊆ <[l := o]> h.
Proof.
  cbv zeta. assert (Hl : h !! fresh (dom h) = None).
  { apply not_elem_of_dom. apply is_fresh. }
  split; [reflexivity|]. split; [exact Hl|]. by apply insert_subseteq.
Qed.

End StoreReads.

Section StoreLoops.

Import Store.

Implicit Types (h : heap) (l c : loc).

Lemma readHand_ok h l (hand : Hand) :
  handAt h l = Some hand -> readHand l h = Done hand h.
Proof. intros H. unfold readHand. by rewrite H. Qed.

(** The store-level dealer loop computes what the list-level loop computes,
    allocates the hands it builds, and writes to nothing that exists. *)
Lemma drawLoop_sim (dealerHitsSoft17 : bool) (dealerHand : loc)
    (cards : list loc) (dh : Hand) (fuel : nat) :
  forall (idx : nat) (shown : loc) (shownHand : Hand) (dVal : Z) h,
    h !! dealerHand = Some (CardArray cards) ->
    cardsAt h cards = Some dh ->
    handAt h shown = Some shownHand ->
    (length dh - idx < fuel)%nat ->
    let pure := blackjackLogic.drawLoop dealerHitsSoft17 (drop idx dh)
                  shownHand dVal in
    exists shown' h',
      drawLoop fuel dealerHitsSoft17 dealerHand idx shown dVal h
      = Done (shown', snd pure) h'
      /\ h ⊆ h'
      /\ handAt h' shown' = Some (fst pure)
      /\ (shown' = shown \/ h !! shown' = None).
Proof.
  induction fuel as [|fuel IH]; intros idx shown shownHand dVal h Hd Hcs Hs Hfuel;
    [lia|].
  cbv zeta. cbn [drawLoop].
  assert (Hgo : (if dVal <? 17 then ret true
                 else if (dVal =? 17) && dealerHitsSoft17 then isSoft shown
                 else ret false) h
                = Done (blackjackLogic.mustDraw dealerHitsSoft17 dVal shownHand) h).
  { unfold blackjackLogic.mustDraw, isSoft, bind.
    destruct (dVal <? 17); [reflexivity|].
    destruct ((dVal =? 17) && dealerHitsSoft17); [|reflexivity].
    by rewrite (readHand_ok _ _ _ Hs). }
  unfold bind at 1. rewrite Hgo.
  assert (Hend : forall rest,
            (if blackjackLogic.mustDraw dealerHitsSoft17 dVal shownHand
             then match rest with
                  | [] => (shownHand, dVal)
                  | c :: rest' =>
                      blackjackLogic.drawLoop dealerHitsSoft17 rest'
                        (shownHand ++ [c])
                        (blackjackLogic.calcValue (shownHand ++ [c]))
                  end
             else (shownHand, dVal))
            = blackjackLogic.drawLoop dealerHitsSoft17 rest shownHand dVal)
    by (intros [|? ?]; reflexivity).
  rewrite <- Hend.
  destruct (blackjackLogic.mustDraw dealerHitsSoft17 dVal shownHand).
  2:{ exists shown, h. repeat split; auto. }
  unfold bind at 1, cardsOf. rewrite Hd.
  destruct (cards !! idx) as [c|] eqn:Hidx.
  - destruct (cardsAt_lookup _ _ _ _ _ Hcs Hidx) as (card & Hc & Hcard).
    rewrite (drop_S _ _ _ Hcard).
    unfold handAt in Hs.
    destruct (h !! shown) as [[|scards| | |]|] eqn:Hshown; try discriminate.
    unfold concat, bind, cardsOf. rewrite Hshown.
    destruct (alloc_fresh h (CardArray (scards ++ [c]))) as (-> & Hfresh & Hsub).
    set (l1 := fresh (dom h)) in *.
    set (h1 := <[l1 := CardArray (scards ++ [c])]> h) in *.
    assert (Hs1 : handAt h1 l1 = Some (shownHand ++ [card])).
    { unfold handAt, h1. rewrite lookup_insert_eq. fold h1.
      apply cardsAt_snoc.
      - by apply (cardsAt_mono h).
      - by apply (lookup_weaken h). }
    unfold calcValue, bind. rewrite (readHand_ok _ _ _ Hs1). unfold ret.
    destruct (IH (S idx) l1 (shownHand ++ [card])
                (blackjackLogic.calcValue (shownHand ++ [card])) h1)
      as (shown' & h' & Hrun & Hsub' & Hs' & Hfr).
    + by apply (lookup_weaken h).
    + by apply (cardsAt_mono h).
    + exact Hs1.
    + apply lookup_lt_Some in Hcard. lia.
    + cbv zeta in Hrun. exists shown', h'. split; [exact Hrun|].
      split; [by etrans|]. split; [exact Hs'|]. right.
      destruct Hfr as [-> | Hnone]; [exact Hfresh|].
      destruct (h !! shown') eqn:E; [|done].
      by rewrite (lookup_weaken h h1 _ _ E Hsub) in Hnone.
  - apply lookup_ge_None in Hidx.
    rewrite drop_ge by (rewrite (cardsAt_length _ _ _ Hcs); lia).
    exists shown, h. repeat split; auto.
Qed.

End StoreLoops.

Section StoreSettle.

Import Store.

Implicit Types (h : heap) (l c : loc).

Lemma settleHand_sim (dVal : Z) (b : Q) (hand : loc) (ph : Hand) (lo : loc)
    (total : Q) (os : list blackjackLogic.Outcome) h :
  handAt h hand = Some ph ->
  h !! lo = Some (OutcomeArray os) ->
  let pure := blackjackLogic.settleHand dVal b ph (total, os) in
  settleHand dVal b hand lo total h
  = Done (fst pure) (<[lo := OutcomeArray (snd pure)]> h).
Proof.
  intros Hh Hlo. cbv zeta.
  unfold settleHand, calcValue, bind. rewrite (readHand_ok _ _ _ Hh).
  unfold ret, blackjackLogic.settleHand, pushOutcome. cbn [fst snd].
  destruct (21 <? blackjackLogic.calcValue ph), (21 <? dVal),
    (dVal <? blackjackLogic.calcValue ph), (blackjackLogic.calcValue ph <? dVal);
    rewrite Hlo; reflexivity.
Qed.

(** The store-level settlement loop computes what the list-level loop
    computes, and the only object it writes is the outcome array. *)
Lemma settleLoop_sim (playerHands handBets lo : loc) (defaultBet : Q) (dVal : Z)
    (hands : list loc) (phs : list Hand) (hbs : list Q) (fuel : nat) :
  forall (i : nat) (total : Q) (os : list blackjackLogic.Outcome) h,
    h !! playerHands = Some (HandArray hands) ->
    handsAt h hands = Some phs ->
    h !! handBets = Some (NumberArray hbs) ->
    h !! lo = Some (OutcomeArray os) ->
    (length phs - i < fuel)%nat ->
    let pure := blackjackLogic.settleLoop hbs defaultBet dVal i (drop i phs)
                  (total, os) in
    settleLoop fuel playerHands handBets defaultBet dVal lo i total h
    = Done (fst pure) (<[lo := OutcomeArray (snd pure)]> h).
Proof.
  induction fuel as [|fuel IH]; intros i total os h Hp Hhs Hb Hlo Hfuel; [lia|].
  cbv zeta. cbn [settleLoop]. unfold bind at 1, handsOf. rewrite Hp.
  pose proof (handsAt_lookup _ _ _ i Hhs) as Hi.
  destruct (hands !! i) as [hand|] eqn:Hhand.
  - destruct Hi as (ph & Hph & Hphs).
    rewrite (drop_S _ _ _ Hphs). cbn [blackjackLogic.settleLoop].
    unfold bind at 1, numsOf. rewrite Hb. unfold bind.
    rewrite (settleHand_sim _ _ _ _ _ _ _ _ Hph Hlo).
    set (st := blackjackLogic.settleHand dVal (default defaultBet (hbs !! i))
                 ph (total, os)).
    assert (Hne1 : lo <> playerHands) by (intros ->; congruence).
    assert (Hne2 : lo <> handBets) by (intros ->; congruence).
    rewrite (IH (S i) (fst st) (snd st)).
    + rewrite insert_insert_eq. by destruct st.
    + by rewrite lookup_insert_ne.
    + by rewrite (handsAt_outcomes _ _ _ _ _ Hlo).
    + by rewrite lookup_insert_ne.
    + apply lookup_insert_eq.
    + apply lookup_lt_Some in Hphs. lia.
  - rewrite drop_ge by (apply lookup_ge_None; exact Hi). cbn.
    unfold ret. by rewrite insert_id.
Qed.

End StoreSettle.

Section StoreResolve.

Import Store.

Implicit Types (h : heap) (l c : loc).

Lemma bind_done {A B} (m : M A) (k : A -> M B) h (a : A) h' :
  m h = Done a h' -> bind m k h = k a h'.
Proof. intros H. unfold bind. by rewrite H. Qed.

Lemma handAt_cards h l (hand : Hand) :
  handAt h l = Some hand ->
  exists cards, h !! l = Some (CardArray cards) /\ cardsAt h cards = Some hand.
Proof.
  unfold handAt. destruct (h !! l) as [[|cards| | |]|]; try discriminate. eauto.
Qed.

(** C10. Run on a store that holds its arguments (the array of player
    hands with each hand and its cards, the dealer hand, the array of bets),
    with fuel beyond the lengths of the two arrays it walks,
    [resolveBlackjackRound] returns what the list-level function returns,
    and every object of the store before the call is the same object after
    it: the array of hands, each hand, the dealer hand, the bets and the
    cards are unchanged. The outcomes array is an array the call allocated,
    and the dealer's final hand is either one the call allocated or, on the
    two natural returns, the [dealerHand] argument itself, unchanged. *)
Theorem resolve_leaves_arguments_unchanged
    h (playerHands dealerHand handBets : loc) (bankroll0 defaultBet : Q)
    (dealerHitsSoft17 considerNaturalBlackjack : bool)
    (hands : list loc) (phs : list Hand) (dh : Hand) (hbs : list Q) (fuel : nat) :
  h !! playerHands = Some (HandArray hands) ->
  handsAt h hands = Some phs ->
  handAt h dealerHand = Some dh ->
  h !! handBets = Some (NumberArray hbs) ->
  (length dh < fuel)%nat -> (length phs < fuel)%nat ->
  exists r h' pure,
    resolveBlackjackRound fuel playerHands dealerHand bankroll0 handBets
      defaultBet dealerHitsSoft17 considerNaturalBlackjack h = Done r h'
    /\ blackjackLogic.resolveBlackjackRound phs dh bankroll0 hbs defaultBet
         dealerHitsSoft17 considerNaturalBlackjack = Normal pure
    /\ (forall l o, h !! l = Some o -> h' !! l = Some o)
    /\ h !! outcomes r = None
    /\ h' !! outcomes r = Some (OutcomeArray (blackjackLogic.outcomes pure))
    /\ (h !! dealerFinalHand r = None \/ dealerFinalHand r = dealerHand)
    /\ handAt h' (dealerFinalHand r) = Some (blackjackLogic.dealerFinalHand pure)
    /\ bankroll r = blackjackLogic.bankroll pure
    /\ dealerValue r = blackjackLogic.dealerValue pure.
Proof.
  intros Hp Hhs Hd Hb Hfd Hfp.
  destruct (handAt_cards _ _ _ Hd) as (cards & Hdc & Hcs).
  remember (resolveBlackjackRound fuel playerHands dealerHand bankroll0 handBets
              defaultBet dealerHitsSoft17 considerNaturalBlackjack h)
    as run eqn:Hrun.
  remember (blackjackLogic.resolveBlackjackRound phs dh bankroll0 hbs defaultBet
              dealerHitsSoft17 considerNaturalBlackjack) as pr eqn:Hpr.
  unfold resolveBlackjackRound in Hrun.
  (* dealerHand.slice(0, Math.min(2, dealerHand.length)) *)
  assert (Hc : cardsOf dealerHand h = Done cards h)
    by (unfold cardsOf; by rewrite Hdc).
  rewrite (bind_done _ _ _ _ _ Hc) in Hrun.
  destruct (alloc_fresh h (CardArray (take (Nat.min 2 (length cards)) cards)))
    as (Ha0 & Hfresh0 & Hsub0).
  set (l0 := fresh (dom h)) in *.
  set (h1 := <[l0 := _]> h) in *.
  assert (Hslice : slice dealerHand (Nat.min 2 (length cards)) h = Done l0 h1)
    by (unfold slice; by rewrite (bind_done _ _ _ _ _ Hc)).
  rewrite (bind_done _ _ _ _ _ Hslice) in Hrun.
  assert (Hs0 : handAt h1 l0 = Some (take (Nat.min 2 (length dh)) dh)).
  { unfold handAt, h1. rewrite lookup_insert_eq. fold h1.
    rewrite (cardsAt_length _ _ _ Hcs). apply cardsAt_take.
    by apply (cardsAt_mono h). }
  (* calcValue(dealerHand) and the loop *)
  assert (Hd1 : handAt h1 dealerHand = Some dh) by by apply (handAt_mono h).
  assert (Hv0 : calcValue dealerHand h1 = Done (blackjackLogic.calcValue dh) h1)
    by (unfold calcValue; by rewrite (bind_done _ _ _ _ _ (readHand_ok _ _ _ Hd1))).
  rewrite (bind_done _ _ _ _ _ Hv0) in Hrun.
  destruct (drawLoop_sim dealerHitsSoft17 dealerHand cards dh fuel 2 l0
              (take (Nat.min 2 (length dh)) dh) (blackjackLogic.calcValue dh) h1)
    as (shown & h2 & Hdraw & Hsub1 & Hshown & Hfr);
    [by apply (lookup_weaken h) | by apply (cardsAt_mono h) | exact Hs0 | lia |].
  fold (blackjackLogic.dealerDraw dealerHitsSoft17 dh) in Hdraw, Hshown.
  set (drawn := blackjackLogic.dealerDraw dealerHitsSoft17 dh) in *.
  rewrite (bind_done _ _ _ _ _ Hdraw) in Hrun. cbn [fst snd] in Hrun.
  (* const outcomes = [] *)
  destruct (alloc_fresh h2 (OutcomeArray [])) as (Ha1 & Hfresh1 & Hsub2).
  set (lo := fresh (dom h2)) in *.
  set (h3 := <[lo := OutcomeArray []]> h2) in *.
  rewrite (bind_done _ _ _ _ _ Ha1) in Hrun.
  assert (Hsub : h ⊆ h2) by by etrans.
  assert (Hshown3 : handAt h3 shown = Some (fst drawn)) by by apply (handAt_mono h2).
  assert (Hp3 : h3 !! playerHands = Some (HandArray hands))
    by (apply (lookup_weaken h); [done | by etrans]).
  assert (Hb3 : h3 !! handBets = Some (NumberArray hbs))
    by (apply (lookup_weaken h); [done | by etrans]).
  assert (Hhs3 : handsAt h3 hands = Some phs)
    by (apply (handsAt_mono h); [by etrans | done]).
  assert (Hlo3 : h3 !! lo = Some (OutcomeArray [])) by apply lookup_insert_eq.
  assert (Hfinal : forall os, h ⊆ <[lo := OutcomeArray os]> h3).
  { intros os. unfold h3. rewrite insert_insert_eq. etrans; [exact Hsub|].
    by apply insert_subseteq. }
  assert (Hlo0 : h !! lo = None).
  { destruct (h !! lo) eqn:E; [|done].
    by rewrite (lookup_weaken h h2 _ _ E Hsub) in Hfresh1. }
  assert (Hshown0 : h !! shown = None).
  { destruct Hfr as [-> | Hnone]; [exact Hfresh0|].
    destruct (h !! shown) eqn:E; [|done].
    by rewrite (lookup_weaken h h1 _ _ E Hsub0) in Hnone. }
  (* dealerNatural *)
  assert (Hdn : (if considerNaturalBlackjack then isBlackjack shown else ret false) h3
                = Done (considerNaturalBlackjack
                        && blackjackLogic.isBlackjack (fst drawn)) h3).
  { destruct considerNaturalBlackjack; [|reflexivity].
    unfold isBlackjack. by rewrite (bind_done _ _ _ _ _ (readHand_ok _ _ _ Hshown3)). }
  rewrite (bind_done _ _ _ _ _ Hdn) in Hrun.
  (* treatAsInitial *)
  assert (Hhands : handsOf playerHands h3 = Done hands h3)
    by (unfold handsOf; by rewrite Hp3).
  assert (Hfirst : forall (A : Type) (p : loc -> M A) (q : Hand -> A) ph phs',
            phs = ph :: phs' ->
            (forall l, handAt h3 l = Some ph -> p l h3 = Done (q ph) h3) ->
            firstHand playerHands p h3 = Done (q ph) h3).
  { intros A p q ph phs' -> Hpq. unfold firstHand.
    rewrite (bind_done _ _ _ _ _ Hhands).
    pose proof (handsAt_lookup _ _ _ 0%nat Hhs3) as H0.
    destruct (hands !! 0%nat) as [hand0|]; [|discriminate H0].
    destruct H0 as (ph0 & Hph0 & [= <-]). by apply Hpq. }
  assert (Hti : (if considerNaturalBlackjack
                 then hands <<- handsOf playerHands ;;;
                      (if (length hands =? 1)%nat
                       then firstHand playerHands
                              (fun hand0 => cards0 <<- cardsOf hand0 ;;;
                                            ret (length cards0 =? 2)%nat)
                       else ret false)
                 else ret false) h3
                = Done (considerNaturalBlackjack
                        && match phs with
                           | [ph] => (length ph =? 2)%nat
                           | _ => false
                           end) h3).
  { destruct considerNaturalBlackjack; [|reflexivity]. cbn [andb].
    rewrite (bind_done _ _ _ _ _ Hhands).
    rewrite <- (handsAt_length _ _ _ Hhs3).
    destruct phs as [|ph [|ph' phs']]; cbn [length Nat.eqb]; try reflexivity.
    apply (Hfirst _ _ (fun ph => (length ph =? 2)%nat) ph [] eq_refl).
    intros l Hl. destruct (handAt_cards _ _ _ Hl) as (cs0 & Hc0 & Hcs0).
    assert (Hc0' : cardsOf l h3 = Done cs0 h3) by (unfold cardsOf; by rewrite Hc0).
    rewrite (bind_done _ _ _ _ _ Hc0'). unfold ret.
    by rewrite (cardsAt_length _ _ _ Hcs0). }
  rewrite (bind_done _ _ _ _ _ Hti) in Hrun.
  rewrite resolve_unfold in Hpr. fold drawn in Hpr.
  (* the normal path *)
  assert (Hnormal :
    exists r h',
      bind (settleLoop fuel playerHands handBets defaultBet (snd drawn) lo 0 0%Q)
        (fun totalPayout =>
           ret (mkRoundResult (blackjackLogic.mathMax0 (bankroll0 + totalPayout)%Q)
                  lo shown (snd drawn))) h3 = Done r h'
      /\ (forall l o, h !! l = Some o -> h' !! l = Some o)
      /\ h !! outcomes r = None
      /\ h' !! outcomes r
         = Some (OutcomeArray (blackjackLogic.outcomes
              (blackjackLogic.normalResolution phs bankroll0 hbs defaultBet
                 (fst drawn) (snd drawn))))
      /\ (h !! dealerFinalHand r = None \/ dealerFinalHand r = dealerHand)
      /\ handAt h' (dealerFinalHand r) = Some (fst drawn)
      /\ bankroll r = blackjackLogic.mathMax0
           (bankroll0 + fst (blackjackLogic.settleLoop hbs defaultBet (snd drawn)
                               0 phs (0%Q, [])))
      /\ dealerValue r = snd drawn).
  { pose proof (settleLoop_sim playerHands handBets lo defaultBet (snd drawn)
                  hands phs hbs fuel 0 0%Q [] h3 Hp3 Hhs3 Hb3 Hlo3) as Hloop.
    rewrite drop_0 in Hloop. cbv zeta in Hloop.
    rewrite (bind_done _ _ _ _ _ (Hloop ltac:(lia))). unfold ret.
    eexists _, _. split; [reflexivity|]. cbn [outcomes dealerFinalHand bankroll dealerValue].
    split; [intros l o Hl; eapply lookup_weaken; [exact Hl | apply Hfinal]|].
    split; [exact Hlo0|]. split; [apply lookup_insert_eq|].
    split; [left; exact Hshown0|].
    split; [|split; reflexivity].
    rewrite (handAt_outcomes _ _ _ _ _ Hlo3). exact Hshown3. }
  assert (Hnormal' :
    run = bind (settleLoop fuel playerHands handBets defaultBet (snd drawn) lo 0 0%Q)
            (fun totalPayout =>
               ret (mkRoundResult
                      (blackjackLogic.mathMax0 (bankroll0 + totalPayout)%Q)
                      lo shown (snd drawn))) h3 ->
    pr = Normal (blackjackLogic.normalResolution phs bankroll0 hbs defaultBet
                   (fst drawn) (snd drawn)) ->
    exists r h' pure, run = Done r h' /\ pr = Normal pure
      /\ (forall l o, h !! l = Some o -> h' !! l = Some o)
      /\ h !! outcomes r = None
      /\ h' !! outcomes r = Some (OutcomeArray (blackjackLogic.outcomes pure))
      /\ (h !! dealerFinalHand r = None \/ dealerFinalHand r = dealerHand)
      /\ handAt h' (dealerFinalHand r) = Some (blackjackLogic.dealerFinalHand pure)
      /\ bankroll r = blackjackLogic.bankroll pure
      /\ dealerValue r = blackjackLogic.dealerValue pure).
  { intros -> ->. destruct Hnormal as (r & h' & Hr & H1 & H2 & H3 & H4 & H5 & H6 & H7).
    exists r, h'. eexists. split; [exact Hr|]. split; [reflexivity|].
    split; [exact H1|]. split; [exact H2|]. split; [exact H3|].
    split; [exact H4|]. split; [exact H5|]. split; [exact H6 | exact H7]. }
  assert (Hnatural : forall (res : Result) (b pay : Q),
    run = bind (pushOutcome lo (blackjackLogic.mkOutcome res b 21))
            (fun _ => ret (mkRoundResult (blackjackLogic.mathMax0 (bankroll0 + pay)%Q)
                             lo dealerHand (snd drawn))) h3 ->
    pr = Normal (blackjackLogic.mkRoundResult
                   (blackjackLogic.mathMax0 (bankroll0 + pay)%Q)
                   [blackjackLogic.mkOutcome res b 21] dh (snd drawn)) ->
    exists r h' pure, run = Done r h' /\ pr = Normal pure
      /\ (forall l o, h !! l = Some o -> h' !! l = Some o)
      /\ h !! outcomes r = None
      /\ h' !! outcomes r = Some (OutcomeArray (blackjackLogic.outcomes pure))
      /\ (h !! dealerFinalHand r = None \/ dealerFinalHand r = dealerHand)
      /\ handAt h' (dealerFinalHand r) = Some (blackjackLogic.dealerFinalHand pure)
      /\ bankroll r = blackjackLogic.bankroll pure
      /\ dealerValue r = blackjackLogic.dealerValue pure).
  { intros res b pay -> ->. unfold bind, pushOutcome. rewrite Hlo3. unfold ret.
    eexists _, _, _. split; [reflexivity|]. split; [reflexivity|].
    cbn [outcomes dealerFinalHand bankroll dealerValue blackjackLogic.outcomes
         blackjackLogic.dealerFinalHand blackjackLogic.bankroll
         blackjackLogic.dealerValue].
    split; [intros l o Hl; eapply lookup_weaken; [exact Hl | apply Hfinal]|].
    split; [exact Hlo0|]. split; [apply lookup_insert_eq|].
    split; [by right|]. split; [|split; reflexivity].
    eapply handAt_mono; [apply Hfinal | exact Hd]. }
  destruct phs as [|ph [|ph' phs']];
    [apply Hnormal'; [by rewrite andb_false_r in Hrun | exact Hpr]
    | | apply Hnormal'; [by rewrite andb_false_r in Hrun | exact Hpr]].
  destruct considerNaturalBlackjack; cbn [andb] in Hrun, Hpr;
    [|by apply Hnormal'].
  destruct (length ph =? 2)%nat; cbn [andb] in Hpr; [|by apply Hnormal'].
  assert (Hnums : numsOf handBets h3 = Done hbs h3)
    by (unfold numsOf; by rewrite Hb3).
  rewrite (bind_done _ _ _ _ _ Hnums) in Hrun.
  assert (Hpn : firstHand playerHands isBlackjack h3
                = Done (blackjackLogic.isBlackjack ph) h3).
  { apply (Hfirst _ _ blackjackLogic.isBlackjack ph [] eq_refl).
    intros l Hl. unfold isBlackjack.
    by rewrite (bind_done _ _ _ _ _ (readHand_ok _ _ _ Hl)). }
  rewrite (bind_done _ _ _ _ _ Hpn) in Hrun.
  destruct (blackjackLogic.isBlackjack ph); cbn [andb negb] in Hrun, Hpr;
    [|by apply Hnormal'].
  cbv zeta in Hpr.
  destruct (blackjackLogic.isBlackjack (fst drawn)); cbn [negb] in Hrun;
    by eapply Hnatural.
Qed.

End StoreResolve.

(** A round on the sample store: [10, K] against a dealer [6, 7] with a 4 to
    draw, bet 25. *)
Lemma resolve_leaves_arguments_witness :
  exists r h' pure,
    Store.resolveBlackjackRound 5 7%positive 8%positive 975%Q 9%positive 25%Q
      true true sampleStore = Store.Done r h'
    /\ blackjackLogic.resolveBlackjackRound [[card "10" 10; card "K" 10]]
         [card "6" 6; card "7" 7; card "4" 4] 975%Q [25%Q] 25%Q true true
       = Normal pure
    /\ (forall l o, sampleStore !! l = Some o -> h' !! l = Some o)
    /\ sampleStore !! Store.outcomes r = None
    /\ h' !! Store.outcomes r
       = Some (Store.OutcomeArray (blackjackLogic.outcomes pure))
    /\ (sampleStore !! Store.dealerFinalHand r = None
        \/ Store.dealerFinalHand r = 8%positive)
    /\ Store.handAt h' (Store.dealerFinalHand r)
       = Some (blackjackLogic.dealerFinalHand pure)
    /\ Store.bankroll r = blackjackLogic.bankroll pure
    /\ Store.dealerValue r = blackjackLogic.dealerValue pure.
Proof.
  apply (resolve_leaves_arguments_unchanged sampleStore 7%positive 8%positive
           9%positive 975%Q 25%Q true true [6%positive]
           [[card "10" 10; card "K" 10]]
           [card "6" 6; card "7" 7; card "4" 4] [25%Q] 5).
  - vm_compute; reflexivity.
  - vm_compute; reflexivity.
  - vm_compute; reflexivity.
  - vm_compute; reflexivity.
  - cbn; lia.
  - cbn; lia.
Defined.

(** ** Further properties of the specification *)

(** The hand total does not depend on the order of the cards. *)
Lemma nominal_perm (h1 h2 : Hand) : h1 ≡ₚ h2 -> nominal h1 = nominal h2.
Proof.
  induction 1 as [|c l l' _ IH|c c' l|l l' l'' _ IH1 _ IH2];
    rewrite ?nominal_cons; [reflexivity | by rewrite IH | lia | congruence].
Qed.

Lemma aceCount_perm (h1 h2 : Hand) : h1 ≡ₚ h2 -> aceCount h1 = aceCount h2.
Proof.
  induction 1 as [|c l l' _ IH|c c' l|l l' l'' _ IH1 _ IH2];
    rewrite ?aceCount_cons; [reflexivity | by rewrite IH | lia | congruence].
Qed.

Lemma calcValue_perm (h1 h2 : Hand) :
  h1 ≡ₚ h2 ->
  blackjackLogic.calcValue h1 = blackjackLogic.calcValue h2
  /\ App.calculateHandValue h1 = App.calculateHandValue h2.
Proof.
  intros Hp. unfold blackjackLogic.calcValue, App.calculateHandValue.
  by rewrite !totalState_eq, (nominal_perm _ _ Hp), (aceCount_perm _ _ Hp).
Qed.

Lemma calcValue_perm_witness :
  blackjackLogic.calcValue [card "A" 11; card "9" 9; card "5" 5]
  = blackjackLogic.calcValue [card "5" 5; card "A" 11; card "9" 9]
  /\ App.calculateHandValue [card "A" 11; card "9" 9; card "5" 5]
     = App.calculateHandValue [card "5" 5; card "A" 11; card "9" 9].
Proof.
  apply (calcValue_perm [card "A" 11; card "9" 9; card "5" 5]
           [card "5" 5; card "A" 11; card "9" 9]).
  symmetry.
  apply (Permutation_cons_append [card "A" 11; card "9" 9] (card "5" 5)).
Defined.

(** A hand without an Ace is not soft, for either test. *)
Lemma no_ace_not_soft (hand : Hand) :
  aceCount hand = 0%nat ->
  blackjackLogic.isSoft hand = false /\ App.isSoftHand hand = false.
Proof.
  intros H0. rewrite isSoft_eq, isSoftHand_eq, <- aceCount_pos, H0. done.
Qed.

Lemma no_ace_not_soft_witness :
  blackjackLogic.isSoft [card "10" 10; card "6" 6] = false
  /\ App.isSoftHand [card "10" 10; card "6" 6] = false.
Proof. exact (no_ace_not_soft [card "10" 10; card "6" 6] eq_refl). Defined.

Lemma isSoft_correct_witness :
  blackjackLogic.isSoft [card "A" 11; card "A" 11; card "6" 6]
  = softAfterReduction [card "A" 11; card "A" 11; card "6" 6]
  /\ blackjackLogic.isSoft [card "A" 11; card "A" 11; card "6" 6]
     = softByFormula [card "A" 11; card "A" 11; card "6" 6].
Proof.
  apply (isSoft_correct [card "A" 11; card "A" 11; card "6" 6]).
  repeat constructor. intros H. vm_compute in H. discriminate H.
Defined.

(** Pairs of Aces and of 8s are split against every dealer card, whenever
    splitting is allowed. *)
Lemma aces_and_eights_split (a b : Card) (upCard : Card)
    (canDouble canSurrender : bool) :
  rank a = rank b -> rank a = "A"%string \/ rank a = "8"%string ->
  App.getOptimalAction (Some [a; b]) (Some upCard) canDouble true canSurrender
  = Normal split.
Proof.
  intros Hab Hr. unfold App.getOptimalAction. cbn [length Nat.eqb].
  rewrite sameRankPair_eq, <- Hab, String.eqb_refl. cbn.
  unfold App.pairRule. destruct Hr as [-> | ->]; reflexivity.
Qed.

Lemma aces_and_eights_split_witness :
  App.getOptimalAction (Some [card "8" 8; card "8" 8]) (Some (card "7" 7))
    true true true = Normal split.
Proof.
  apply (aces_and_eights_split (card "8" 8) (card "8" 8) (card "7" 7) true true
           eq_refl).
  right. reflexivity.
Defined.

Lemma makeScenarioKey_stable_witness :
  App.makeScenarioKey [card "10" 10; card "6" 6] (mkCard "10" 10 (Some "hearts"))
  = App.makeScenarioKey [card "7" 7; card "9" 9] (mkCard "10" 10 (Some "spades")).
Proof.
  exact (makeScenarioKey_stable [card "10" 10; card "6" 6] [card "7" 7; card "9" 9]
           (mkCard "10" 10 (Some "hearts")) (mkCard "10" 10 (Some "spades"))
           eq_refl eq_refl).
Defined.

(** [finishHand] of App.jsx stores the bankroll that the resolver's normal
    path returns for the same hands, bets and dealer total. *)
Lemma finishStep_total (d : Z) (b : Q) (hand : Hand)
    (st : Q * list (Result * Q * Q)) (st' : Q * list blackjackLogic.Outcome) :
  fst st = fst st' ->
  fst (App.finishStep d b hand st) = fst (blackjackLogic.settleHand d b hand st').
Proof.
  intros H. unfold App.finishStep, blackjackLogic.settleHand,
    App.calculateHandValue, blackjackLogic.calcValue.
  destruct (21 <? fst (totalState hand)), (21 <? d); cbn [fst]; try congruence.
  destruct (Z.ltb_spec d (fst (totalState hand))),
    (Z.ltb_spec (fst (totalState hand)) d); cbn [fst]; try congruence.
  destruct (Z.eqb_spec (fst (totalState hand)) d); [cbn; congruence | lia].
Qed.

Lemma finishLoop_total (handBets : list Q) (currentBet : Q) (d : Z)
    (rest : list Hand) (i : nat)
    (st : Q * list (Result * Q * Q)) (st' : Q * list blackjackLogic.Outcome) :
  fst st = fst st' ->
  fst (App.finishLoop handBets currentBet d i rest st)
  = fst (blackjackLogic.settleLoop handBets currentBet d i rest st').
Proof.
  revert i st st'. induction rest as [|hand rest IH]; intros i st st' H; cbn;
    [exact H|].
  apply IH. by apply finishStep_total.
Qed.

Lemma finishHand_agrees (playerHands : list Hand) (dealerHand shown : Hand)
    (handBets : list Q) (currentBet prev : Q) :
  App.finishHand playerHands dealerHand handBets currentBet prev
  = blackjackLogic.bankroll
      (blackjackLogic.normalResolution playerHands prev handBets currentBet
         shown (App.calculateHandValue dealerHand)).
Proof.
  unfold App.finishHand, blackjackLogic.normalResolution,
    blackjackLogic.mathMax0. cbn [blackjackLogic.bankroll].
  by rewrite (finishLoop_total _ _ _ _ _ _ (0%Q, [])).
Qed.

(** The specification's scenario: [10, K] against a dealer [6, 7] with no
    card to draw, bet 25, bankroll 975: a win, and a bankroll of 1025. *)
Example twenty_beats_thirteen :
  exists r,
    blackjackLogic.resolveBlackjackRound [[card "10" 10; card "K" 10]]
      [card "6" 6; card "7" 7] 975%Q [25%Q] 25%Q true true = Normal r
    /\ blackjackLogic.outcomes r = [blackjackLogic.mkOutcome win 25%Q 20]
    /\ (blackjackLogic.bankroll r == 1025)%Q
    /\ blackjackLogic.dealerFinalHand r = [card "6" 6; card "7" 7]
    /\ blackjackLogic.dealerValue r = 13.
Proof. eexists. repeat split. Qed.

(** Standing on hard 16 against a 10, recorded on an empty store of
    statistics. *)
Lemma recordDecision_counts_witness :
  exists st',
    App.recordDecision 0 (Some [card "10" 10; card "6" 6]) (Some (card "10" 10))
      stand (App.mkRecorder [] ∅) = Normal st'
    /\ (App.count <$> App.scenarioStats st' !! "hard_16_vs_10") = Some 1
    /\ (App.correctDecisions <$> App.scenarioStats st' !! "hard_16_vs_10") = Some 0.
Proof.
  destruct (recordDecision_counts 0 [card "10" 10; card "6" 6] (card "10" 10)
              stand (App.mkRecorder [] ∅))
    as (key & opt & st' & Hkey & Hopt & Hrec & sc & Hsc & Hcount & _ & _ & Hcorrect & _).
  - discriminate.
  - vm_compute in Hkey, Hopt. injection Hkey as <-. injection Hopt as <-.
    exists st'. split; [exact Hrec|]. rewrite Hsc. cbn [fmap option_fmap option_map].
    rewrite Hcount, Hcorrect. split; reflexivity.
Defined.

(** A dealer [A, 5] with a King to draw: the array totals 16 as the two
    cards shown do, so the resolver draws the King and stops, the supply
    exhausted, on a hard 16. *)
Lemma dealerDraw_law_witness :
  drawLaw (blackjackLogic.mustDraw true) blackjackLogic.calcValue
    [card "K" 10] [card "A" 11; card "5" 5]
    (fst (blackjackLogic.dealerDraw true [card "A" 11; card "5" 5; card "K" 10]))
    (snd (blackjackLogic.dealerDraw true [card "A" 11; card "5" 5; card "K" 10])).
Proof.
  exact (dealerDraw_law true [card "A" 11; card "5" 5; card "K" 10] eq_refl).
Defined.

Lemma isSoftHand_sound_witness :
  softAfterReduction [card "A" 11; card "7" 7] = true.
Proof. exact (isSoftHand_sound [card "A" 11; card "7" 7] eq_refl). Defined.


(** ** The deck *)

Lemma delete_insert_same (l : list Card) (i : nat) (c : Card) :
  delete i (<[i := c]> l) = delete i l.
Proof.
  revert i. induction l as [|a l IH]; intros [|i]; cbn; try reflexivity.
  by rewrite IH.
Qed.

Lemma insert_perm (l : list Card) (i : nat) (c c' : Card) :
  l !! i = Some c -> <[i := c']> l ≡ₚ c' :: delete i l.
Proof.
  intros Hi.
  rewrite (delete_Permutation (<[i := c']> l) i c'), delete_insert_same; [done|].
  apply list_lookup_insert_eq. by eapply lookup_lt_Some.
Qed.

(** Swapping two cells loses no card and duplicates none. *)
Lemma swap_perm (deck : list Card) (i j : nat) : Game.swap deck i j ≡ₚ deck.
Proof.
  unfold Game.swap.
  destruct (deck !! i) as [ci|] eqn:Hi; [|done].
  destruct (deck !! j) as [cj|] eqn:Hj; [|done].
  destruct (decide (i = j)) as [->|Hne].
  - rewrite list_insert_insert_eq. rewrite Hi in Hj. injection Hj as ->.
    by rewrite list_insert_id.
  - assert (H1 : <[i := cj]> deck ≡ₚ cj :: delete i deck) by by eapply insert_perm.
    assert (Hj' : <[i := cj]> deck !! j = Some cj) by by rewrite list_lookup_insert_ne.
    assert (H2 := delete_Permutation _ _ _ Hj').
    rewrite (insert_perm _ j cj ci Hj').
    rewrite H1 in H2 at 1. apply Permutation_cons_inv in H2. rewrite <- H2.
    symmetry. by apply delete_Permutation.
Qed.

Lemma shuffleFrom_perm (random : nat -> nat) (i : nat) (deck : list Card) :
  Game.shuffleFrom random i deck ≡ₚ deck.
Proof.
  revert deck. induction i as [|i IH]; intros deck; cbn; [done|].
  by rewrite IH, swap_perm.
Qed.

(** Every step of the shuffle swaps two cells of the deck: the indices it
    uses are in range. *)
Lemma shuffle_index_in_range (random : nat -> nat) (i : nat) (deck : list Card) :
  (0 < i < length deck)%nat ->
  is_Some (deck !! i) /\ is_Some (deck !! (random i mod (i + 1))%nat).
Proof.
  intros Hi. split; apply lookup_lt_is_Some; [lia|].
  pose proof (Nat.mod_upper_bound (random i) (i + 1)). lia.
Qed.

(** The deck [createDeck] returns, whatever the shuffle draws: the 52 cards
    of the ordered deck, each exactly once. *)
Theorem createDeck_perm (random : nat -> nat) :
  Game.createDeck random ≡ₚ Game.orderedDeck
  /\ length (Game.createDeck random) = 52%nat
  /\ NoDup (Game.createDeck random).
Proof.
  assert (Hp : Game.createDeck random ≡ₚ Game.orderedDeck)
    by apply shuffleFrom_perm.
  split; [exact Hp|]. split; [by rewrite Hp|]. rewrite Hp.
  apply (bool_decide_unpack (NoDup Game.orderedDeck)). vm_compute. exact I.
Qed.

(** What the deck holds, whatever the shuffle draws: every card has the value
    of its rank, between 2 and 11, 11 exactly for an Ace and 10 for a face
    card; every rank is there four times and every suit thirteen times. *)
Theorem createDeck_composition (random : nat -> nat) :
  (forall c, c ∈ Game.createDeck random -> standardCard c = true)
  /\ (forall r, r ∈ Game.ranks ->
       length (filter (fun c => rank c = r) (Game.createDeck random)) = 4%nat)
  /\ (forall s, s ∈ Game.suits ->
       length (filter (fun c => suit c = Some s) (Game.createDeck random)) = 13%nat)
  /\ (forall c, c ∈ Game.createDeck random ->
       App.includesStr ["J"; "Q"; "K"]%string (rank c) = true -> value c = 10).
Proof.
  assert (Hp : Game.createDeck random ≡ₚ Game.orderedDeck)
    by apply shuffleFrom_perm.
  assert (Hall : forall (f : Card -> bool),
            forallb f Game.orderedDeck = true ->
            forall c, c ∈ Game.createDeck random -> f c = true).
  { intros f Hf c Hc. rewrite Hp in Hc.
    apply Is_true_true_2, forallb_True in Hf.
    rewrite Forall_forall in Hf. by apply Is_true_true_1, Hf. }
  split; [|split; [|split]].
  - apply Hall. vm_compute. reflexivity.
  - intros r Hr. rewrite Hp.
    repeat (apply elem_of_cons in Hr as [-> | Hr]; [vm_compute; reflexivity|]).
    by apply elem_of_nil in Hr.
  - intros s Hs. rewrite Hp.
    repeat (apply elem_of_cons in Hs as [-> | Hs]; [vm_compute; reflexivity|]).
    by apply elem_of_nil in Hs.
  - intros c Hc Hface.
    assert (H := Hall (fun c => implb (App.includesStr ["J"; "Q"; "K"]%string (rank c))
                                  (value c =? 10))
                   ltac:(vm_compute; reflexivity) c Hc).
    cbn beta in H. rewrite Hface in H. cbn in H. by apply Z.eqb_eq in H.
Qed.

(** ** The statistics *)

Lemma oneIf_range (b : bool) : 0 <= Game.oneIf b <= 1.
Proof. destruct b; cbn; lia. Qed.

Lemma updateStats_sound (r : Result) (b n : Q) (g : Game.GameStats) :
  statsSound g -> statsSound (Game.updateStats r b n g).
Proof.
  unfold statsSound. intros (H1 & H2 & H3 & H4 & H5).
  destruct r; cbn; repeat split; lia.
Qed.

Lemma applyStats_app (c1 c2 : list (Result * Q * Q)) (g : Game.GameStats) :
  Game.applyStats (c1 ++ c2) g = Game.applyStats c2 (Game.applyStats c1 g).
Proof. unfold Game.applyStats. apply fold_left_app. Qed.

Lemma applyStats_sound (calls : list (Result * Q * Q)) (g : Game.GameStats) :
  statsSound g -> statsSound (Game.applyStats calls g).
Proof.
  revert g. induction calls as [|[[r b] n] calls IH]; intros g Hg; [exact Hg|].
  cbn. apply IH. by apply updateStats_sound.
Qed.

Lemma applyStats_totals (calls : list (Result * Q * Q)) (g : Game.GameStats) :
  let g' := Game.applyStats calls g in
  Game.totalHands g' = Game.totalHands g + Z.of_nat (length calls)
  /\ (Game.totalWagered g' == Game.totalWagered g + sumQ (betsOf calls))%Q
  /\ (Game.netWinnings g' == Game.netWinnings g + sumQ (netsOf calls))%Q
  /\ Game.doubles g' = Game.doubles g
  /\ Game.splits g' = Game.splits g
  /\ Game.insurances g' = Game.insurances g.
Proof.
  revert g. induction calls as [|[[r b] n] calls IH]; intros g.
  - cbn. repeat split; try lia; ring.
  - change (Game.applyStats ((r, b, n) :: calls) g)
      with (Game.applyStats calls (Game.updateStats r b n g)).
    destruct (IH (Game.updateStats r b n g)) as (H1 & H2 & H3 & H4 & H5 & H6).
    cbn zeta. rewrite H1, H4, H5, H6. repeat split; [cbn; lia|..].
    + rewrite H2. cbn [Game.totalWagered Game.updateStats].
      change (sumQ (betsOf ((r, b, n) :: calls))) with (b + sumQ (betsOf calls))%Q.
      ring.
    + rewrite H3. cbn [Game.netWinnings Game.updateStats].
      change (sumQ (netsOf ((r, b, n) :: calls))) with (n + sumQ (netsOf calls))%Q.
      ring.
Qed.

Theorem updateStats_tally (calls : list (Result * Q * Q)) :
  let g := Game.applyStats calls Game.initialGameStats in
  Game.totalHands g = Z.of_nat (length calls)
  /\ statsSound g
  /\ (Game.totalWagered g == sumQ (betsOf calls))%Q
  /\ (Game.netWinnings g == sumQ (netsOf calls))%Q
  /\ Game.doubles g = 0 /\ Game.splits g = 0 /\ Game.insurances g = 0.
Proof.
  cbn zeta.
  destruct (applyStats_totals calls Game.initialGameStats)
    as (H1 & H2 & H3 & H4 & H5 & H6).
  repeat split; try (by apply applyStats_sound; repeat split; cbn; lia).
  - rewrite H1. cbn. lia.
  - rewrite H2. cbn. ring.
  - rewrite H3. cbn. ring.
  - by rewrite H4.
  - by rewrite H5.
  - by rewrite H6.
Qed.

(** ** The deal *)

Lemma pop_snoc (l : list Card) (c : Card) : Game.pop (l ++ [c]) = (Some c, l).
Proof. unfold Game.pop. by rewrite last_snoc, removelast_last. Qed.

Lemma last_four (l : list Card) :
  (4 <= length l)%nat ->
  exists rest a b c d, l = rest ++ [a; b; c; d].
Proof.
  intros H. exists (take (length l - 4) l).
  assert (Hd : length (drop (length l - 4) l) = 4%nat) by (rewrite length_drop; lia).
  destruct (drop (length l - 4) l) as [|a [|b [|c [|d [|]]]]] eqn:E; try discriminate.
  exists a, b, c, d. by rewrite <- E, take_drop.
Qed.

Lemma createDeck_length (random : nat -> nat) :
  length (Game.createDeck random) = 52%nat.
Proof.
  assert (Hp : Game.createDeck random ≡ₚ Game.orderedDeck) by apply shuffleFrom_perm.
  by rewrite Hp.
Qed.

Lemma startNewHand_dealt (random random' : nat -> nat) (snap : Game.State) :
  let source := if (length (Game.deck snap) <? 20)%nat
                then Game.createDeck random else Game.deck snap in
  exists playerCard1 dealerCard1 playerCard2 dealerCard2 rest,
    source = rest ++ [dealerCard2; playerCard2; dealerCard1; playerCard1]
    /\ (16 <= length rest)%nat
    /\ Game.startNewHand random random' snap
       = Some (Game.dealt (Game.currentBet snap) playerCard1 dealerCard1
                 playerCard2 dealerCard2 rest).
Proof.
  cbv zeta. unfold Game.startNewHand.
  set (source := if (length (Game.deck snap) <? 20)%nat then _ else _).
  assert (Hlen : (20 <= length source)%nat).
  { unfold source. destruct (length (Game.deck snap) <? 20)%nat eqn:E.
    - rewrite createDeck_length. lia.
    - apply Nat.ltb_ge in E. exact E. }
  assert (E4 : (length source <? 4)%nat = false) by (apply Nat.ltb_ge; lia).
  rewrite E4.
  destruct (last_four source ltac:(lia)) as (rest & d2 & p2 & d1 & p1 & Hs).
  exists p1, d1, p2, d2, rest.
  assert (Hrest : (16 <= length rest)%nat).
  { rewrite Hs, length_app in Hlen. cbn in Hlen. lia. }
  split; [exact Hs|]. split; [exact Hrest|].
  rewrite Hs.
  replace (rest ++ [d2; p2; d1; p1])
    with ((((rest ++ [d2]) ++ [p2]) ++ [d1]) ++ [p1])
    by (by rewrite <- !app_assoc).
  by rewrite !pop_snoc.
Qed.



(** [startNewHand] never deals a missing card. It deals from the stored deck
    when that holds 20 cards or more, and from a fresh deck otherwise; the
    deck it deals from ends with the four cards dealt, the player's first
    card last, then the dealer's first, the player's second and the
    dealer's second, and at least 16 cards are left. It stores one player
    hand of the two player cards, the dealer's two cards in the order
    dealt, the cards left as the deck, the current bet as the bet of the
    hand, and takes that bet from the bankroll; the statistics are untouched
    and insurance is offered exactly when the player's total is not 21 and
    the dealer's first card is an Ace. *)
Theorem startNewHand_deals (random random' : nat -> nat) (snap : Game.State) :
  let source := if (length (Game.deck snap) <? 20)%nat
                then Game.createDeck random else Game.deck snap in
  exists playerCard1 dealerCard1 playerCard2 dealerCard2 rest u,
    source = rest ++ [dealerCard2; playerCard2; dealerCard1; playerCard1]
    /\ (16 <= length rest)%nat
    /\ Game.startNewHand random random' snap = Some u
    /\ forall cur : Game.State,
         let s' := fst u cur in
         Game.gameState s' = Game.playing
         /\ Game.playerHands s' = [[playerCard1; playerCard2]]
         /\ Game.dealerHand s' = [dealerCard1; dealerCard2]
         /\ Game.deck s' = rest
         /\ Game.currentHandIndex s' = 0%nat
         /\ Game.handsToPlay s' = 1
         /\ Game.handBets s' = [Some (Game.currentBet snap)]
         /\ Game.bankroll s' = (Game.bankroll cur - Game.currentBet snap)%Q
         /\ Game.gameStats s' = Game.gameStats cur
         /\ Game.insuranceOffered s'
            = negb (App.calculateHandValue [playerCard1; playerCard2] =? 21)
              && String.eqb (rank dealerCard1) "A".
Proof.
  cbv zeta.
  destruct (startNewHand_dealt random random' snap)
    as (p1 & d1 & p2 & d2 & rest & Hs & Hrest & Hu).
  exists p1, d1, p2, d2, rest. eexists.
  split; [exact Hs|]. split; [exact Hrest|]. split; [exact Hu|].
  intros cur. unfold Game.dealt.
  destruct (App.calculateHandValue [p1; p2] =? 21); [cbn; repeat split|].
  destruct (String.eqb (rank d1) "A"); cbn; repeat split.
Qed.

(** On a player total of 21 at the deal, the timer of [startNewHand] ends the
    hand as [resolveBlackjackRound] resolves the same round (the two hands,
    the bankroll after the bet is taken, that bet, naturals considered): a
    push when the dealer's two cards total 21 too, a blackjack otherwise;
    the call of [updateStats] carries that result, the bet and the payout
    less the bet, and the bankroll the resolver returns is the one the
    application stores, clamped at 0 (the application does not clamp
    here). *)
Theorem dealt_natural_agrees (bet : Q) (p1 d1 p2 d2 : Card) (rest : list Card)
    (cur : Game.State) (dealerHitsSoft17 : bool) :
  App.calculateHandValue [p1; p2] = 21 ->
  let u := Game.dealt bet p1 d1 p2 d2 rest in
  let s' := Game.settled u cur in
  exists r res n,
    blackjackLogic.resolveBlackjackRound [[p1; p2]] [d1; d2]
      (Game.bankroll (fst u cur)) [bet] bet dealerHitsSoft17 true = Normal r
    /\ blackjackLogic.outcomes r = [blackjackLogic.mkOutcome res bet 21]
    /\ (res = if App.calculateHandValue [d1; d2] =? 21 then push else blackjack)
    /\ (blackjackLogic.bankroll r == Qmax 0 (Game.bankroll s'))%Q
    /\ Game.gameState s' = Game.finished
    /\ Game.gameStats s' = Game.updateStats res bet n (Game.gameStats cur)
    /\ (n == payoutOf (blackjackLogic.mkOutcome res bet 21) - bet)%Q.
Proof.
  intros Hp. cbv zeta. rewrite resolve_unfold.
  rewrite (dealerDraw_short dealerHitsSoft17 [d1; d2]) by (cbn; lia).
  cbn [fst snd]. unfold blackjackLogic.isBlackjack.
  change (blackjackLogic.calcValue [p1; p2]) with (App.calculateHandValue [p1; p2]).
  change (blackjackLogic.calcValue [d1; d2]) with (App.calculateHandValue [d1; d2]).
  rewrite Hp. cbn [length Nat.eqb andb Z.eqb Pos.eqb lookup list_lookup default].
  unfold Game.dealt, Game.settled. rewrite Hp.
  cbn [Z.eqb Pos.eqb snd fst].
  destruct (App.calculateHandValue [d1; d2] =? 21).
  - eexists _, push, _. cbn.
    repeat split; try reflexivity.
    unfold blackjackLogic.mathMax0. apply Q.max_compat; [reflexivity|]. ring.
    unfold payoutOf. cbn. ring.
  - eexists _, blackjack, _. cbn.
    repeat split; try reflexivity.
    unfold blackjackLogic.mathMax0. apply Q.max_compat; [reflexivity|]. ring.
Qed.

(** The specification's scenario: [A, K] against [6, 9], bet 25 from a
    bankroll of 1000. *)
Lemma dealt_natural_witness :
  exists r,
    blackjackLogic.resolveBlackjackRound [[card "A" 11; card "K" 10]]
      [card "6" 6; card "9" 9] 975%Q [25%Q] 25%Q true true = Normal r
    /\ blackjackLogic.outcomes r = [blackjackLogic.mkOutcome blackjack 25%Q 21].
Proof.
  destruct (dealt_natural_agrees 25%Q (card "A" 11) (card "6" 6) (card "K" 10)
              (card "9" 9) [] (Game.setBankroll 1000 (Game.initialState (fun i => i))) true eq_refl)
    as (r & res & n & Hr & Ho & Hres & _).
  exists r. split.
  - etransitivity; [|exact Hr]. reflexivity.
  - rewrite Ho, Hres. reflexivity.
Defined.

(** ** The hand in play *)
















Lemma firstDeal_reachable :
  rtc Game.click (Game.initialState (fun i => i)) firstDeal.
Proof.
  apply rtc_once. unfold firstDeal.
  destruct (Game.startNewHand _ _ _) as [u|] eqn:Hu; [|vm_compute in Hu; discriminate Hu].
  eapply (Game.click_deal _ _ _ (Game.initialState (fun i => i)) u);
    [reflexivity|split; reflexivity|exact Hu].
Qed.


Lemma finishHand_bet (snapF cur : Game.State) :
  Game.currentBet (Game.finishHand snapF cur) = Game.currentBet cur.
Proof. reflexivity. Qed.

Lemma click_currentBet (s s' : Game.State) :
  Game.click s s' ->
  Game.currentBet s' = Game.currentBet s
  \/ exists b : Z, 5 <= b <= 500 /\ Game.currentBet s' = inject_Z b.
Proof.
  intros Hc. destruct Hc; try (left; reflexivity).
  - right. exists bet. split; [|reflexivity].
    repeat (apply elem_of_cons in H0 as [-> | H0]; [lia|]).
    by apply elem_of_nil in H0.
  - right. exists (Game.betInput typed). split; [|reflexivity].
    unfold Game.betInput. lia.
  - left. destruct (startNewHand_dealt random random' snap)
      as (p1 & d1 & p2 & d2 & rest & _ & _ & Hu).
    rewrite Hu in H1. injection H1 as <-.
    unfold Game.dealt, Game.settled.
    destruct (_ =? 21); cbn [snd fst].
    + by destruct (_ =? 21).
    + by destruct (String.eqb _ _).
  - left. unfold Game.hit. repeat case_match; reflexivity.
  - left. unfold Game.stand, Game.settled, Game.dealerPlay.
    repeat case_match; simplify_eq; cbn [fst snd] in *; simplify_eq; reflexivity.
  - left. unfold Game.double, Game.settled, Game.dealerPlay, Game.pop.
    repeat case_match; simplify_eq; cbn [fst snd] in *; simplify_eq; reflexivity.
  - left. unfold Game.split, Game.pop. repeat case_match; reflexivity.
  - left. unfold Game.surrender. repeat case_match; reflexivity.
Qed.

(** From the first render on, by clicks as above, the current bet is a whole
    number from 5 to 500: the quick buttons set 5, 25, 50 or 100, the input
    clamps what is typed, and no handler changes the bet. *)
Theorem bet_within_limits (random : nat -> nat) (s : Game.State) :
  rtc Game.click (Game.initialState random) s -> betWithinLimits s.
Proof.
  revert s. apply rtc_ind_r.
  - exists 25. split; [lia|reflexivity].
  - intros y z _ Hc IH. destruct (click_currentBet y z Hc) as [E | H]; [|exact H].
    destruct IH as (b & Hb & Hy). exists b. by rewrite E.
Qed.

Lemma bet_within_limits_witness : betWithinLimits firstDeal.
Proof. exact (bet_within_limits _ _ firstDeal_reachable). Defined.


(** ** Settlement in the application *)

Lemma finishStep_tally (d : Z) (b : Q) (hand : Hand) (st : Q * list (Result * Q * Q)) :
  snd (App.finishStep d b hand st)
  = snd st ++ [tallyOf (App.calculateHandValue hand) d b]
  /\ (fst (App.finishStep d b hand st)
      == fst st + returnOf (App.calculateHandValue hand) d b)%Q.
Proof.
  unfold App.finishStep, tallyOf, returnOf, classify.
  destruct (21 <? App.calculateHandValue hand) eqn:E1; [cbn; split; [done|ring]|].
  destruct (21 <? d) eqn:E2; [cbn; split; [done|ring]|].
  destruct (d <? App.calculateHandValue hand) eqn:E3; [cbn; split; [done|ring]|].
  destruct (App.calculateHandValue hand <? d) eqn:E4; [cbn; split; [done|ring]|].
  assert (E5 : (App.calculateHandValue hand =? d) = true) by lia.
  rewrite E5. cbn. split; [done|ring].
Qed.

Lemma finishLoop_tally (hb : list (option Q)) (cb : Q) (d : Z) (i : nat)
    (rest : list Hand) (st : Q * list (Result * Q * Q)) :
  snd (Game.finishLoop hb cb d i rest st)
  = snd st ++ imap (fun j hand => tallyOf (App.calculateHandValue hand) d
                                    (Game.betAt hb cb (i + j))) rest
  /\ (fst (Game.finishLoop hb cb d i rest st)
      == fst st + sumQ (imap (fun j hand => returnOf (App.calculateHandValue hand) d
                                              (Game.betAt hb cb (i + j))) rest))%Q.
Proof.
  revert i st. induction rest as [|hand rest IH]; intros i st.
  - cbn. split; [by rewrite app_nil_r|ring].
  - cbn [Game.finishLoop].
    destruct (IH (S i) (App.finishStep d (Game.betAt hb cb i) hand st)) as [H1 H2].
    destruct (finishStep_tally d (Game.betAt hb cb i) hand st) as [H3 H4].
    rewrite H1, H2, H3, H4. cbn [imap sumQ fold_right].
    rewrite Nat.add_0_r, <- app_assoc. cbn [app].
    split.
    + f_equal. f_equal. apply imap_ext. intros j h _. cbn. do 2 f_equal. lia.
    + assert (E : imap ((fun j hand0 => returnOf (App.calculateHandValue hand0) d
                                 (Game.betAt hb cb (i + j))) ∘ S) rest
                  = imap (fun j hand0 => returnOf (App.calculateHandValue hand0) d
                                 (Game.betAt hb cb (S i + j))) rest).
      { apply imap_ext. intros j h _. cbn. do 2 f_equal. lia. }
      rewrite E. fold (sumQ (imap (fun j hand0 => returnOf (App.calculateHandValue hand0) d
                                 (Game.betAt hb cb (S i + j))) rest)). ring.
Qed.

Lemma finishHand_tally (snapF cur : Game.State) :
  let d := App.calculateHandValue (Game.dealerHand snapF) in
  let s' := Game.finishHand snapF cur in
  Game.gameStats s'
  = Game.applyStats
      (talliesOf (Game.handBets snapF) (Game.currentBet snapF) d (Game.playerHands snapF))
      (Game.gameStats cur)
  /\ (Game.bankroll s'
      == Qmax 0 (Game.bankroll cur
                 + sumQ (returnsOf (Game.handBets snapF) (Game.currentBet snapF) d
                           (Game.playerHands snapF))))%Q
  /\ Game.gameState s' = Game.finished
  /\ Game.playerHands s' = Game.playerHands cur
  /\ Game.dealerHand s' = Game.dealerHand cur
  /\ Game.deck s' = Game.deck cur
  /\ Game.handBets s' = Game.handBets cur.
Proof.
  cbv zeta. unfold Game.finishHand. cbn.
  destruct (finishLoop_tally (Game.handBets snapF) (Game.currentBet snapF)
              (App.calculateHandValue (Game.dealerHand snapF)) 0
              (Game.playerHands snapF) (0%Q, [])) as [H1 H2].
  rewrite H1. cbn [snd fst app] in *. repeat split.
  apply Q.max_compat; [reflexivity|]. rewrite H2. unfold returnsOf. cbn. ring.
Qed.

(** A hit that takes the last hand to play over 21. [hit] stores the hand
    with the new card and calls [finishHand], a closure of the render
    before the card: the hands it settles are those of the screen before
    the hit. So the hand that busts is tallied on the total it had before
    the card, against the dealer's two cards: the call of [updateStats] for
    it, the statistics and the bankroll are those of [calls] and [returns]
    below, computed from [playerHands s]. The bets read are those of the
    snapshot of [finishHand]. *)
Theorem bust_settled_before_card (s snap snapF : Game.State) (hand : Hand)
    (newCard : Card) (rest : list Card) :
  Game.hitDeps snap s -> Game.finishHandDeps snapF snap ->
  Game.playerHands s !! Game.currentHandIndex s = Some hand ->
  Game.deck s = rest ++ [newCard] ->
  21 < App.calculateHandValue (hand ++ [newCard]) ->
  Game.handsToPlay s - 1 <= Z.of_nat (Game.currentHandIndex s) ->
  let s' := Game.hit (Game.currentHandIndex snap) snap snapF s in
  let d := App.calculateHandValue (Game.dealerHand s) in
  let calls := talliesOf (Game.handBets snapF) (Game.currentBet snapF) d
                 (Game.playerHands s) in
  let returns := returnsOf (Game.handBets snapF) (Game.currentBet snapF) d
                   (Game.playerHands s) in
  Game.gameState s' = Game.finished
  /\ Game.playerHands s'
     = <[Game.currentHandIndex s := hand ++ [newCard]]> (Game.playerHands s)
  /\ Game.deck s' = rest
  /\ Game.dealerHand s' = Game.dealerHand s
  /\ calls !! Game.currentHandIndex s
     = Some (tallyOf (App.calculateHandValue hand) d
               (Game.betAt (Game.handBets snapF) (Game.currentBet snapF)
                  (Game.currentHandIndex s)))
  /\ Game.gameStats s' = Game.applyStats calls (Game.gameStats s)
  /\ (Game.bankroll s' == Qmax 0 (Game.bankroll s + sumQ returns))%Q.
Proof.
  intros (Hi & Hd & Hh & Hn & Hdh) (Fd & Fh & Fb & Fhb) Hhand Hdeck Hbust Hlast.
  cbv zeta. unfold Game.hit. rewrite Hd, Hh, Hi, Hn. unfold Hand in *.
  rewrite Hhand, Hdeck, pop_snoc.
  rewrite length_app. cbn [length]. replace (length rest + 1 =? 0)%nat with false
    by (symmetry; apply Nat.eqb_neq; lia).
  assert (E1 : (21 <? App.calculateHandValue (hand ++ [newCard])) = true) by lia.
  assert (E2 : (Z.of_nat (Game.currentHandIndex s) <? Game.handsToPlay s - 1) = false) by lia.
  rewrite E1, E2.
  match goal with |- context [Game.finishHand snapF ?c] =>
    destruct (finishHand_tally snapF c) as (T1 & T2 & T3 & T4 & T5 & T6 & T7) end.
  rewrite Fd, Fh, Hdh, Hh in T1, T2.
  repeat split; try done.
  unfold talliesOf. rewrite list_lookup_imap. unfold Hand in *.
  by rewrite Hhand.
Qed.

(** [10, 6] against a dealer [10, 5], a King to come: the hit busts with 26,
    and the hand is tallied as the 16 it was, a win over 15. *)
Lemma bust_settled_witness :
  let s := table [[card "10" 10; card "6" 6]] [card "10" 10; card "5" 5]
             [card "2" 2; card "K" 10] 975 in
  let s' := Game.hit 0 s s s in
  Game.playerHands s' = [[card "10" 10; card "6" 6; card "K" 10]]
  /\ Game.handsWon (Game.gameStats s') = 1
  /\ (Game.bankroll s' == 1025)%Q.
Proof.
  cbv zeta.
  destruct (bust_settled_before_card
              (table [[card "10" 10; card "6" 6]] [card "10" 10; card "5" 5]
                 [card "2" 2; card "K" 10] 975) _ _
              [card "10" 10; card "6" 6] (card "K" 10) [card "2" 2]
              ltac:(repeat split) ltac:(repeat split) eq_refl eq_refl
              ltac:(vm_compute; reflexivity) ltac:(vm_compute; discriminate))
    as (_ & Hh & _ & _ & _ & Hs & Hb).
  split; [exact Hh|]. split.
  - cbn [Game.currentHandIndex table] in Hs. rewrite Hs. reflexivity.
  - cbn [Game.currentHandIndex table] in Hb. rewrite Hb. reflexivity.
Defined.

(** A stand on the last hand to play. [dealerPlay] draws for the dealer and
    stores the dealer's final hand and the deck left; a second later its
    timer calls [finishHand], a closure of the render before the draw: the
    dealer total the hands are settled against is the total of the dealer's
    hand on the screen before the draw, not of the final hand stored. *)
Theorem stand_settles_on_dealt_cards (s snap snapD snapF : Game.State)
    (hand : Hand) :
  Game.standDeps snap s -> Game.dealerPlayDeps snapD snap ->
  Game.finishHandDeps snapF snapD ->
  Game.playerHands s !! Game.currentHandIndex s = Some hand ->
  Game.handsToPlay s - 1 <= Z.of_nat (Game.currentHandIndex s) ->
  let s' := Game.settled (Game.stand snap snapD snapF) s in
  let d := App.calculateHandValue (Game.dealerHand s) in
  let play := App.dealerPlay (Game.dealerHitsSoft17 snapD) (Game.dealerHand s)
                (Game.deck snapD) in
  Game.gameState s' = Game.finished
  /\ Game.dealerHand s' = fst play
  /\ Game.deck s' = snd play
  /\ Game.playerHands s' = Game.playerHands s
  /\ Game.gameStats s'
     = Game.applyStats
         (talliesOf (Game.handBets snapF) (Game.currentBet snapF) d
            (Game.playerHands snapF))
         (Game.gameStats s)
  /\ (Game.bankroll s'
      == Qmax 0 (Game.bankroll s
                 + sumQ (returnsOf (Game.handBets snapF) (Game.currentBet snapF) d
                           (Game.playerHands snapF))))%Q.
Proof.
  intros (Hi & Hn & Hh & Hdh) (Dd & Dr & Dk) (Fd & Fh & Fb & Fhb) Hhand Hlast.
  cbv zeta. unfold Game.stand. rewrite Hh, Hi, Hn. unfold Hand in *. rewrite Hhand.
  assert (E2 : (Z.of_nat (Game.currentHandIndex s) <? Game.handsToPlay s - 1) = false) by lia.
  rewrite E2. unfold Game.settled, Game.dealerPlay. cbn [fst snd].
  match goal with |- context [Game.finishHand snapF ?c] =>
    destruct (finishHand_tally snapF c) as (T1 & T2 & T3 & T4 & T5 & T6 & T7) end.
  rewrite Fd, Dd, Hdh in T1, T2. rewrite T5, T6, T4, Dd, Hdh.
  repeat split; done.
Qed.

(** [10, 5] against a dealer [10, 6], a King to come: the dealer draws to 26,
    and the player's 15 is settled against 16, a loss. *)
Lemma stand_settles_witness :
  let s := table [[card "10" 10; card "5" 5]] [card "10" 10; card "6" 6]
             [card "2" 2; card "K" 10] 975 in
  let s' := Game.settled (Game.stand s s s) s in
  Game.dealerHand s' = [card "10" 10; card "6" 6; card "K" 10]
  /\ App.calculateHandValue (Game.dealerHand s') = 26
  /\ Game.handsLost (Game.gameStats s') = 1
  /\ (Game.bankroll s' == 975)%Q.
Proof.
  cbv zeta.
  destruct (stand_settles_on_dealt_cards
              (table [[card "10" 10; card "5" 5]] [card "10" 10; card "6" 6]
                 [card "2" 2; card "K" 10] 975) _ _ _
              [card "10" 10; card "5" 5]
              ltac:(repeat split) ltac:(repeat split) ltac:(repeat split)
              eq_refl ltac:(vm_compute; discriminate))
    as (_ & Hd & _ & _ & Hs & Hb).
  rewrite Hd, Hs. split; [reflexivity|]. split; [reflexivity|].
  split; [reflexivity|]. rewrite Hb. reflexivity.
Defined.

(** A double on the last hand to play, with a card in the deck. The player's
    hand receives the card and the bet of the hand is stored doubled, but
    [dealerPlay] and [finishHand] are closures of the render before the
    double: the dealer draws from the deck that still holds the card, and
    the hands are settled as a stand settles them, on the hands and bets of
    before. The statistics, the dealer's final hand and the deck are those
    of a stand, and the bankroll is that of a stand less the bet taken for
    the double (up to the clamp at 0). *)
Theorem double_settles_like_stand (s snap snapD snapF : Game.State)
    (hand : Hand) (newCard : Card) (rest : list Card) :
  Game.doubleDeps snap s -> Game.dealerPlayDeps snapD snap ->
  Game.finishHandDeps snapF snapD ->
  Qle_bool (Game.currentBet s) (Game.bankroll s) = true ->
  Game.playerHands s !! Game.currentHandIndex s = Some hand ->
  Game.deck s = rest ++ [newCard] ->
  Game.handsToPlay s - 1 <= Z.of_nat (Game.currentHandIndex s) ->
  let doubled := Game.settled (Game.double snap snapD snapF) s in
  let stood := Game.settled (Game.stand snap snapD snapF) s in
  let baseBet := Game.betAt (Game.handBets snap) (Game.currentBet snap)
                   (Game.currentHandIndex s) in
  Game.gameState doubled = Game.finished
  /\ Game.playerHands doubled
     = <[Game.currentHandIndex s := hand ++ [newCard]]> (Game.playerHands s)
  /\ Game.handBets doubled
     = Game.assign (Game.currentHandIndex s) (baseBet * 2)%Q (Game.handBets snap)
  /\ Game.dealerHand doubled = Game.dealerHand stood
  /\ Game.deck doubled = Game.deck stood
  /\ Game.gameStats doubled = Game.gameStats stood
  /\ exists winnings : Q,
       Game.bankroll stood = Qmax 0 (Game.bankroll s + winnings)%Q
       /\ Game.bankroll doubled
          = Qmax 0 (Game.bankroll s - baseBet + winnings)%Q.
Proof.
  intros (Hb & Hbr & Hd & Hh & Hi & Hn & Hdh) (Dd & Dr & Dk) (Fd & Fh & Fb & Fhb)
    Hle Hhand Hdeck Hlast.
  cbv zeta. unfold Game.double, Game.stand.
  assert (Hle' : Qle_bool (Game.currentBet snap) (Game.bankroll snap) = true).
  { apply Qle_bool_iff. rewrite Hb, Hbr. by apply Qle_bool_iff. }
  rewrite Hle', Hh, Hi, Hn, Hd. unfold Hand in *. rewrite Hhand, Hdeck, pop_snoc.
  assert (E2 : (Z.of_nat (Game.currentHandIndex s) <? Game.handsToPlay s - 1) = false) by lia.
  rewrite E2. unfold Game.settled, Game.dealerPlay, Game.finishHand.
  cbn [fst snd negb]. cbn.
  repeat split. eexists. split; reflexivity.
Qed.

(** [5, 6] against a dealer [10, 6], a King to come: the player receives the
    King, and so does the dealer. *)
Lemma double_settles_witness :
  let s := table [[card "5" 5; card "6" 6]] [card "10" 10; card "6" 6]
             [card "2" 2; card "K" 10] 975 in
  let doubled := Game.settled (Game.double s s s) s in
  let stood := Game.settled (Game.stand s s s) s in
  Game.playerHands doubled = [[card "5" 5; card "6" 6; card "K" 10]]
  /\ Game.dealerHand stood = [card "10" 10; card "6" 6; card "K" 10]
  /\ Game.dealerHand doubled = Game.dealerHand stood
  /\ Game.gameStats doubled = Game.gameStats stood.
Proof.
  cbv zeta.
  destruct (double_settles_like_stand
              (table [[card "5" 5; card "6" 6]] [card "10" 10; card "6" 6]
                 [card "2" 2; card "K" 10] 975) _ _ _
              [card "5" 5; card "6" 6] (card "K" 10) [card "2" 2]
              ltac:(repeat split) ltac:(repeat split) ltac:(repeat split)
              eq_refl eq_refl eq_refl ltac:(vm_compute; discriminate))
    as (_ & Hh & _ & Hd & _ & Hs & _).
  split; [exact Hh|]. split; [reflexivity|]. split; [exact Hd|exact Hs].
Defined.

Lemma halfBet_int (q : Q) (b : Z) :
  (q == inject_Z b)%Q -> Game.halfBet q = inject_Z (b / 2).
Proof.
  intros H. unfold Game.halfBet. f_equal.
  assert (E : (q / 2 == b # 2)%Q).
  { rewrite H. unfold Qdiv, Qmult, Qinv, inject_Z, Qeq. cbn. lia. }
  rewrite (Qfloor_comp _ _ E). unfold Qfloor. reflexivity.
Qed.

(** A deal followed by a surrender, on a whole bet [b]: the bankroll ends
    [b - floor(b / 2)] below where it stood before the deal, while the
    statistics record a net loss of [floor(b / 2)] on a wager of [b]; the
    two amounts are equal exactly when the bet is even. *)
Theorem surrender_accounting (s0 snap : Game.State) (b : Z)
    (p1 d1 p2 d2 : Card) (rest : list Card) :
  Game.currentBet s0 = inject_Z b ->
  Game.surrenderAllowed s0 = true ->
  App.calculateHandValue [p1; p2] <> 21 ->
  let s1 := Game.settled (Game.dealt (Game.currentBet s0) p1 d1 p2 d2 rest) s0 in
  Game.surrenderDeps snap s1 ->
  let s2 := Game.surrender snap s1 in
  Game.gameState s2 = Game.finished
  /\ (Game.bankroll s2 == Game.bankroll s0 - inject_Z (b - b / 2))%Q
  /\ (Game.netWinnings (Game.gameStats s2)
      == Game.netWinnings (Game.gameStats s0) - inject_Z (b / 2))%Q
  /\ (Game.totalWagered (Game.gameStats s2)
      == Game.totalWagered (Game.gameStats s0) + inject_Z b)%Q
  /\ Game.surrenders (Game.gameStats s2) = Game.surrenders (Game.gameStats s0) + 1
  /\ Game.totalHands (Game.gameStats s2) = Game.totalHands (Game.gameStats s0) + 1
  /\ (b - b / 2 = b / 2 <-> Z.even b = true).
Proof.
  intros Hb Hallowed Hnat. cbv zeta.
  assert (E21 : (App.calculateHandValue [p1; p2] =? 21) = false) by lia.
  unfold Game.dealt, Game.settled. rewrite E21.
  assert (Hs1 : forall s1,
            Game.playerHands s1 = [[p1; p2]] -> Game.currentHandIndex s1 = 0%nat ->
            Game.surrenderAllowed s1 = true ->
            Game.currentBet s1 = inject_Z b ->
            (Game.bankroll s1 == Game.bankroll s0 - inject_Z b)%Q ->
            Game.gameStats s1 = Game.gameStats s0 ->
            Game.surrenderDeps snap s1 ->
            let s2 := Game.surrender snap s1 in
            Game.gameState s2 = Game.finished
            /\ (Game.bankroll s2 == Game.bankroll s0 - inject_Z (b - b / 2))%Q
            /\ (Game.netWinnings (Game.gameStats s2)
                == Game.netWinnings (Game.gameStats s0) - inject_Z (b / 2))%Q
            /\ (Game.totalWagered (Game.gameStats s2)
                == Game.totalWagered (Game.gameStats s0) + inject_Z b)%Q
            /\ Game.surrenders (Game.gameStats s2)
               = Game.surrenders (Game.gameStats s0) + 1
            /\ Game.totalHands (Game.gameStats s2)
               = Game.totalHands (Game.gameStats s0) + 1).
  { intros s1 Hh Hi Ha Hc Hbank Hst (Da & Dh & Di & Dc & Dd). cbv zeta.
    unfold Game.surrender. rewrite Da, Dh, Di, Ha, Hh, Hi. cbn [negb lookup list_lookup length Nat.eqb].
    rewrite Hc in Dc. rewrite (halfBet_int _ b Dc). cbn. rewrite Hst.
    repeat split.
    - rewrite Hbank. unfold Z.sub. rewrite inject_Z_plus, inject_Z_opp. ring.
    - rewrite Dc. reflexivity. }
  assert (Hpar : b - b / 2 = b / 2 <-> Z.even b = true).
  { rewrite Z.even_spec. split.
    - intros H. exists (b / 2). lia.
    - intros [k ->]. rewrite (Z.mul_comm 2 k), Z.div_mul by lia. lia. }
  intros Hdeps.
  destruct (String.eqb (rank d1) "A"); cbn [fst snd] in *;
    (split; [|split; [|split; [|split; [|split; [|split]]]]]; [..|exact Hpar]);
    apply Hs1; try reflexivity; try exact Hdeps; try exact Hallowed; try exact Hb;
    cbn; rewrite Hb; reflexivity.
Qed.

(** The first bet of a session, 25: a surrender leaves the bankroll at 987
    and a recorded net loss of 12. *)
Lemma surrender_accounting_witness :
  let s0 := Game.initialState (fun i => i) in
  let s1 := Game.settled
              (Game.dealt 25 (card "K" 10) (card "Q" 10) (card "9" 9)
                 (card "10" 10) []) s0 in
  let s2 := Game.surrender s1 s1 in
  (Game.bankroll s2 == 1000 - 13)%Q
  /\ (Game.netWinnings (Game.gameStats s2) == 0 - 12)%Q.
Proof.
  cbv zeta.
  destruct (surrender_accounting (Game.initialState (fun i => i))
              (Game.settled
                 (Game.dealt 25 (card "K" 10) (card "Q" 10) (card "9" 9)
                    (card "10" 10) []) (Game.initialState (fun i => i)))
              25 (card "K" 10) (card "Q" 10) (card "9" 9) (card "10" 10) []
              eq_refl eq_refl ltac:(vm_compute; discriminate)
              ltac:(repeat split))
    as (_ & Hb & Hn & _).
  split; [exact Hb|exact Hn].
Defined.

(** ** The recorder and its history *)

Lemma actionName_inj (a b : Action) :
  App.actionName a = App.actionName b -> a = b.
Proof. destruct a, b; cbn; intros H; try reflexivity; discriminate H. Qed.

Lemma Action_eqb_eq (a b : Action) : App.Action_eqb a b = true <-> a = b.
Proof. destruct a, b; cbn; split; intros H; try reflexivity; discriminate H. Qed.

Lemma decisionsAt_snoc (key : string) (h : list App.Decision) (d : App.Decision) :
  decisionsAt key (h ++ [d])
  = decisionsAt key h ++ (if String.eqb (App.scenarioKey d) key then [d] else []).
Proof. unfold decisionsAt. rewrite List.filter_app. reflexivity. Qed.

Lemma filter_length_snoc {A} (f : A -> bool) (l : list A) (x : A) :
  Z.of_nat (length (List.filter f (l ++ [x])))
  = Z.of_nat (length (List.filter f l)) + (if f x then 1 else 0).
Proof.
  rewrite List.filter_app, length_app. cbn. destruct (f x); cbn; lia.
Qed.

Lemma record_consistent (key0 : string) (act opt : Action) (d : App.Decision)
    (st : App.Recorder) :
  App.scenarioKey d = key0 -> App.action d = act ->
  App.optimalAction d = opt -> App.isOptimal d = App.Action_eqb act opt ->
  recorderConsistent st ->
  recorderConsistent
    (App.mkRecorder (App.decisionHistory st ++ [d])
       (App.updateScenario key0 act opt (App.scenarioStats st))).
Proof.
  intros Hk Ha Ho Hopt Inv key. specialize (Inv key).
  unfold consistentAt in *. cbn [App.decisionHistory App.scenarioStats].
  rewrite decisionsAt_snoc, Hk. unfold App.updateScenario.
  destruct (String.eqb key0 key) eqn:E.
  - apply String.eqb_eq in E. subst key.
    rewrite lookup_insert_eq. cbn [App.count App.correctDecisions App.actions
                                  App.scenarioOptimalAction].
    destruct (App.scenarioStats st !! key0) as [sc|] eqn:Esc;
      cbn [from_option]; unfold id.
    + destruct Inv as (I1 & I2 & I3 & I4). repeat split.
      * rewrite length_app. cbn [length]. lia.
      * rewrite filter_length_snoc, Hopt, I2. destruct (App.Action_eqb act opt); lia.
      * intros a. rewrite filter_length_snoc, Ha.
        destruct (App.Action_eqb act a) eqn:Ea.
        -- apply Action_eqb_eq in Ea. subst a.
           rewrite lookup_insert_eq. cbn. rewrite I3. lia.
        -- rewrite lookup_insert_ne, I3; [lia|].
           intros Hn. apply actionName_inj in Hn. apply Action_eqb_eq in Hn.
           congruence.
      * destruct (decisionsAt key0 (App.decisionHistory st)); [discriminate I4|].
        exact I4.
    + rewrite Inv. cbn [app]. repeat split.
      * cbn. rewrite Hopt. destruct (App.Action_eqb act opt); cbn; lia.
      * intros a. cbn. rewrite Ha. destruct (App.Action_eqb act a) eqn:Ea.
        -- apply Action_eqb_eq in Ea. subst a. by rewrite lookup_insert_eq.
        -- rewrite lookup_insert_ne; [by rewrite lookup_empty|].
           intros Hn. apply actionName_inj in Hn. apply Action_eqb_eq in Hn.
           congruence.
      * cbn. by rewrite Ho.
  - assert (key0 <> key) by (by apply String.eqb_neq).
    rewrite lookup_insert_ne by done. rewrite app_nil_r. exact Inv.
Qed.

Lemma recordDecision_consistent (now : Z) (hand : Hand) (upCard : Card)
    (act : Action) (st : App.Recorder) :
  recorderConsistent st ->
  exists st',
    App.recordDecision now (Some hand) (Some upCard) act st = Normal st'
    /\ recorderConsistent st'
    /\ length (App.decisionHistory st')
       = (length (App.decisionHistory st)
          + (if (length hand =? 0)%nat then 0 else 1))%nat.
Proof.
  intros Inv. unfold App.recordDecision.
  destruct (length hand =? 0)%nat; [exists st; repeat split; [done|lia]|].
  destruct (makeScenarioKey_total hand upCard) as [key ->].
  destruct (getOptimalAction_total (Some hand) (Some upCard) true true true)
    as [opt ->].
  cbn [bindC]. eexists. split; [reflexivity|]. split.
  - by apply record_consistent.
  - cbn. rewrite length_app. cbn. lia.
Qed.

Lemma recordAll_consistent (calls : list (Z * Hand * Card * Action))
    (st : App.Recorder) :
  recorderConsistent st ->
  exists st',
    recordAll calls st = Normal st'
    /\ recorderConsistent st'
    /\ length (App.decisionHistory st')
       = (length (App.decisionHistory st) + length (recording calls))%nat.
Proof.
  revert st. induction calls as [|[[[now hand] up] act] calls IH]; intros st Inv.
  - exists st. repeat split; [done|cbn; lia].
  - destruct (recordDecision_consistent now hand up act st Inv)
      as (st1 & H1 & Inv1 & L1).
    destruct (IH st1 Inv1) as (st' & H' & Inv' & L').
    exists st'. split; [|split; [exact Inv'|]].
    + unfold recordAll in *. cbn [fold_left fst snd bindC]. rewrite H1. exact H'.
    + rewrite L', L1. unfold recording. cbn [List.filter fst snd].
      destruct (length hand =? 0)%nat; cbn; lia.
Qed.

(** After any sequence of [recordDecision] calls on an empty recorder: no
    call throws; the history holds one decision for each call made with a
    hand that is not empty; and for every scenario key the statistics agree
    with the history: no entry when no decision has the key, else the count
    is the number of decisions with the key, [correctDecisions] the number
    of them whose action was their own optimal action, each action count
    the number of them taken with that action, and the stored optimal
    action that of the first of them. *)
Theorem recorder_tallies_history (calls : list (Z * Hand * Card * Action)) :
  exists st,
    recordAll calls (App.mkRecorder [] ∅) = Normal st
    /\ length (App.decisionHistory st) = length (recording calls)
    /\ forall key, consistentAt key st.
Proof.
  destruct (recordAll_consistent calls (App.mkRecorder [] ∅)) as (st & H & Inv & L).
  - intros key. unfold consistentAt. cbn. by rewrite lookup_empty.
  - exists st. split; [exact H|]. split; [exact L|exact Inv].
Qed.
